(** * CardFile: the card model and the card collection

    A shallow embedding of [card.py] and [cardfile.py], with the one
    call sequence of [ui/main_window.py] that edits a card in place.

    Python values are modelled as follows.
    - [str] is [string]; a character stands for the code point of the same
      number, so the strings of this development are the Python strings
      whose code points are below 256.
    - [int] is [Z]; list positions are [Z] as well, because callers may
      pass any integer as an index.
    - [datetime] is a record of the fields of a naive datetime, which is
      what [datetime.now()] returns.
    - An object has an identity: every [Card] carries the number [oid] it
      was given when it was allocated.  [==] on cards is the equality the
      [dataclass] decorator generates (all four fields), and [list.index]
      looks for the first element that is the same object or [==].
    - A method is a computation in a state-and-exception monad over the
      [World]: the collection object, the allocator, the clock and the
      disk.  An exception leaves the state as it was when it was raised. *)

From Stdlib Require Import List String Ascii ZArith NArith Lia Bool Arith.
From Stdlib Require Import ZifyN ZifyBool.
From Stdlib Require Import DecimalString.
From Stdlib Require Import Sorting.Sorted Sorting.Permutation.
Import ListNotations.

Local Open Scope string_scope.
Local Open Scope Z_scope.

(** ** Strings *)

Module Str.

(** [str.isspace] on a single code point below 256: TAB..CR, FS..US,
    SPACE, NEL and NBSP. *)
Definition isspace (c : ascii) : bool :=
  let n := N_of_ascii c in
  (((9 <=? n) && (n <=? 13)) || ((28 <=? n) && (n <=? 32))
   || (n =? 133) || (n =? 160))%N.

Fixpoint lstrip (s : string) : string :=
  match s with
  | EmptyString => EmptyString
  | String c s' => if isspace c then lstrip s' else s
  end.

Fixpoint rstrip (s : string) : string :=
  match s with
  | EmptyString => EmptyString
  | String c s' =>
      match rstrip s' with
      | EmptyString => if isspace c then EmptyString else String c EmptyString
      | r => String c r
      end
  end.

(** [s.strip()] *)
Definition strip (s : string) : string := rstrip (lstrip s).

(** Truth value of a string: [bool(s)]. *)
Definition truthy (s : string) : bool :=
  match s with EmptyString => false | _ => true end.

(** [str.lower] on a code point below 256: A..Z and the Latin-1 capitals
    U+00C0..U+00DE other than the multiplication sign move up by 32. *)
Definition lower_char (c : ascii) : ascii :=
  let n := N_of_ascii c in
  if (((65 <=? n) && (n <=? 90))
      || ((192 <=? n) && (n <=? 222) && negb (n =? 215)))%N
  then ascii_of_N (n + 32) else c.

Fixpoint lower (s : string) : string :=
  match s with
  | EmptyString => EmptyString
  | String c s' => String (lower_char c) (lower s')
  end.

(** [needle in hay] *)
Fixpoint contains (needle hay : string) : bool :=
  prefix needle hay
  || match hay with
     | EmptyString => false
     | String _ hay' => contains needle hay'
     end.

(** Every character of [s] is white space (true of the empty string). *)
Fixpoint all_space (s : string) : bool :=
  match s with
  | EmptyString => true
  | String c s' => isspace c && all_space s'
  end.

End Str.

(** ** Exceptions and the result of a computation *)

Inductive exn : Set :=
| IndexError | ValueError | AttributeError | TypeError
| OSError | JSONDecodeError.

Inductive result (A : Type) : Type :=
| Ok (a : A)
| Raise (e : exn).
Arguments Ok {A} a.
Arguments Raise {A} e.

(** ** datetime *)

Record datetime : Set := mkDatetime {
  year : N; month : N; day : N;
  hour : N; minute : N; second : N; microsecond : N
}.

Module DT.

Definition eqb (a b : datetime) : bool :=
  ((year a =? year b) && (month a =? month b) && (day a =? day b)
   && (hour a =? hour b) && (minute a =? minute b)
   && (second a =? second b) && (microsecond a =? microsecond b))%N.

Definition is_leap (y : N) : bool :=
  ((y mod 4 =? 0) && (negb (y mod 100 =? 0) || (y mod 400 =? 0)))%N.

Definition days_in_month (y m : N) : N :=
  (if m =? 2 then (if is_leap y then 29 else 28)
   else if (m =? 4) || (m =? 6) || (m =? 9) || (m =? 11) then 30
   else 31)%N.

(** The range checks of the [datetime] constructor. *)
Definition valid (d : datetime) : bool :=
  ((1 <=? year d) && (year d <=? 9999)
   && (1 <=? month d) && (month d <=? 12)
   && (1 <=? day d) && (day d <=? days_in_month (year d) (month d))
   && (hour d <? 24) && (minute d <? 60) && (second d <? 60)
   && (microsecond d <? 1000000))%N.

Definition digit (n : N) : ascii := ascii_of_N (48 + n mod 10).

(** ["%0kd" % n] for [n < 10^k]: the [k] decimal digits of [n]. *)
Fixpoint digits (k : nat) (n : N) : string :=
  match k with
  | O => EmptyString
  | S k' => digits k' (n / 10) ++ String (digit n) EmptyString
  end.

(** [datetime.isoformat()] of a naive datetime:
    [YYYY-MM-DDTHH:MM:SS], followed by [.ffffff] when the microseconds are
    not zero. *)
Definition isoformat (d : datetime) : string :=
  digits 4 (year d) ++ "-" ++ digits 2 (month d) ++ "-" ++ digits 2 (day d)
  ++ "T" ++ digits 2 (hour d) ++ ":" ++ digits 2 (minute d) ++ ":"
  ++ digits 2 (second d)
  ++ (if (microsecond d =? 0)%N then EmptyString
      else "." ++ digits 6 (microsecond d)).

Definition digit_val (c : ascii) : option N :=
  let n := N_of_ascii c in
  if ((48 <=? n) && (n <=? 57))%N then Some (n - 48)%N else None.

(** Reads exactly [k] decimal digits, most significant first, onto [acc];
    returns the number and the rest of the string. *)
Fixpoint read_digits (k : nat) (acc : N) (s : string) : option (N * string) :=
  match k with
  | O => Some (acc, s)
  | S k' =>
      match s with
      | EmptyString => None
      | String c s' =>
          match digit_val c with
          | Some v => read_digits k' (acc * 10 + v)%N s'
          | None => None
          end
      end
  end.

Definition expect (c : ascii) (s : string) : option string :=
  match s with
  | String c' s' => if Ascii.eqb c c' then Some s' else None
  | EmptyString => None
  end.

Definition parse (s : string) : option datetime :=
  match read_digits 4 0 s with None => None | Some (y, s) =>
  match expect "-" s with None => None | Some s =>
  match read_digits 2 0 s with None => None | Some (mo, s) =>
  match expect "-" s with None => None | Some s =>
  match read_digits 2 0 s with None => None | Some (d, s) =>
  match expect "T" s with None => None | Some s =>
  match read_digits 2 0 s with None => None | Some (h, s) =>
  match expect ":" s with None => None | Some s =>
  match read_digits 2 0 s with None => None | Some (mi, s) =>
  match expect ":" s with None => None | Some s =>
  match read_digits 2 0 s with None => None | Some (se, s) =>
  match s with
  | EmptyString => Some (mkDatetime y mo d h mi se 0)
  | _ =>
      match expect "." s with None => None | Some s =>
      match read_digits 6 0 s with
      | Some (us, EmptyString) => Some (mkDatetime y mo d h mi se us)
      | _ => None
      end end
  end end end end end end end end end end end end.

(** [datetime.fromisoformat] on the strings [isoformat] writes for a naive
    datetime, with the constructor's range checks; any other string is a
    [ValueError].  (Python reads further ISO-8601 spellings; nothing below
    depends on which strings are refused.) *)
Definition fromisoformat (s : string) : result datetime :=
  match parse s with
  | Some d => if valid d then Ok d else Raise ValueError
  | None => Raise ValueError
  end.

End DT.

(** ** Card *)

Record Card : Set := mkCard {
  oid : nat;              (* identity of the object *)
  title : string;
  content : string;
  created : datetime;
  modified : datetime
}.

Module CardM.

Definition with_title (t : string) (c : Card) : Card :=
  mkCard (oid c) t (content c) (created c) (modified c).
Definition with_content (s : string) (c : Card) : Card :=
  mkCard (oid c) (title c) s (created c) (modified c).
Definition with_modified (d : datetime) (c : Card) : Card :=
  mkCard (oid c) (title c) (content c) (created c) d.

(** [Card.__post_init__] *)
Definition post_init (c : Card) : Card :=
  if negb (Str.truthy (Str.strip (title c)))
  then with_title "Untitled" c
  else c.

(** The dataclass constructor once the field values are known: the
    generated [__init__] stores them, then runs [__post_init__]. *)
Definition init (id : nat) (t s : string) (cr mo : datetime) : Card :=
  post_init (mkCard id t s cr mo).

(** [Card.update_content], given the clock reading. *)
Definition update_content (new_content : string) (now : datetime) (c : Card)
  : Card :=
  with_modified now (with_content new_content c).

(** [Card.update_title], given the clock reading. *)
Definition update_title (new_title : string) (now : datetime) (c : Card)
  : Card :=
  let t := Str.strip new_title in
  with_modified now (with_title (if Str.truthy t then t else "Untitled") c).

(** The [__eq__] generated by [@dataclass]: the tuples of fields are
    compared; identity plays no part. *)
Definition eqb (a b : Card) : bool :=
  String.eqb (title a) (title b) && String.eqb (content a) (content b)
  && DT.eqb (created a) (created b) && DT.eqb (modified a) (modified b).

(** The test [list.index] applies to each element: same object, or [==]. *)
Definition same_or_eqb (a b : Card) : bool :=
  Nat.eqb (oid a) (oid b) || eqb a b.

End CardM.

(** ** JSON documents

    What [json.loads] returns.  A [JObj] is the parsed [dict]: looking a
    key up finds its first binding. *)

#[warnings="-register-all"]
Inductive json : Set :=
| JNull
| JBool (b : bool)
| JNum (n : Z)          (* a number; which one plays no part below *)
| JStr (s : string)
| JArr (l : list json)
| JObj (l : list (string * json)).

Module Json.

Fixpoint lookup (k : string) (d : list (string * json)) : option json :=
  match d with
  | [] => None
  | (k', v) :: d' => if String.eqb k k' then Some v else lookup k d'
  end.

(** [d.get(k, default)] *)
Definition get (k : string) (default : json) (d : list (string * json))
  : json :=
  match lookup k d with Some v => v | None => default end.

Fixpoint chars (s : string) : list json :=
  match s with
  | EmptyString => []
  | String c s' => JStr (String c EmptyString) :: chars s'
  end.

(** The elements a [for] loop draws from a value: the items of a list, the
    keys of a dict, the characters of a string; other values are not
    iterable. *)
Definition iterate (v : json) : result (list json) :=
  match v with
  | JArr l => Ok l
  | JObj d => Ok (map (fun kv => JStr (fst kv)) d)
  | JStr s => Ok (chars s)
  | _ => Raise TypeError
  end.

End Json.

(** ** The collection object and the world around it *)

Record CardFile : Set := mkCardFile {
  cards : list Card;
  current_index : Z;
  filepath : option string;
  cf_modified : bool      (* CardFile.modified, the dirty flag *)
}.

(** What is stored under a path: nothing readable, text that is not a JSON
    document, or a JSON document. *)
Inductive file : Set :=
| NoFile
| NotJson
| Document (j : json).

Record World : Type := mkWorld {
  self : CardFile;             (* the CardFile instance *)
  next_oid : nat;              (* identity of the next object allocated *)
  clock : nat -> datetime;     (* what the n-th datetime.now() returns *)
  ticks : nat;                 (* number of datetime.now() calls so far *)
  disk : string -> file;
  writable : string -> bool    (* whether write_text succeeds on a path *)
}.

(** State and exceptions: an exception keeps the state reached so far. *)
Definition M (A : Type) : Type := World -> result A * World.

Definition ret {A} (a : A) : M A := fun w => (Ok a, w).
Definition raise {A} (e : exn) : M A := fun w => (Raise e, w).
Definition bind {A B} (m : M A) (k : A -> M B) : M B :=
  fun w => match m w with
           | (Ok a, w') => k a w'
           | (Raise e, w') => (Raise e, w')
           end.
Definition lift {A} (r : result A) : M A := fun w => (r, w).

(** [try: body except Exception: handler] *)
Definition try_except {A} (body : M A) (handler : exn -> M A) : M A :=
  fun w => match body w with
           | (Ok a, w') => (Ok a, w')
           | (Raise e, w') => handler e w'
           end.

Notation "x <- m ;; k" := (bind m (fun x => k))
  (at level 61, m at next level, right associativity).
Notation "m ;; k" := (bind m (fun _ => k))
  (at level 61, right associativity).

(** The world with another state of the collection object. *)
Definition with_self (cf : CardFile) (w : World) : World :=
  mkWorld cf (next_oid w) (clock w) (ticks w) (disk w) (writable w).

Definition get_self : M CardFile := fun w => (Ok (self w), w).
Definition modify_self (f : CardFile -> CardFile) : M unit :=
  fun w => (Ok tt, with_self (f (self w)) w).

Definition set_cards (l : list Card) : M unit :=
  modify_self (fun cf =>
    mkCardFile l (current_index cf) (filepath cf) (cf_modified cf)).
Definition set_current_index (i : Z) : M unit :=
  modify_self (fun cf =>
    mkCardFile (cards cf) i (filepath cf) (cf_modified cf)).
Definition set_filepath (p : option string) : M unit :=
  modify_self (fun cf =>
    mkCardFile (cards cf) (current_index cf) p (cf_modified cf)).
Definition set_modified (b : bool) : M unit :=
  modify_self (fun cf =>
    mkCardFile (cards cf) (current_index cf) (filepath cf) b).

(** Allocation of a new object. *)
Definition alloc : M nat :=
  fun w => (Ok (next_oid w),
            mkWorld (self w) (S (next_oid w)) (clock w) (ticks w)
                    (disk w) (writable w)).

(** [datetime.now()] *)
Definition now : M datetime :=
  fun w => (Ok (clock w (ticks w)),
            mkWorld (self w) (next_oid w) (clock w) (S (ticks w))
                    (disk w) (writable w)).

(** [json.loads(path.read_text(encoding="utf-8"))] *)
Definition read_json (p : string) : M json :=
  fun w => match disk w p with
           | NoFile => (Raise OSError, w)
           | NotJson => (Raise JSONDecodeError, w)
           | Document j => (Ok j, w)
           end.

(** [path.write_text(json.dumps(data, indent=2), encoding="utf-8")] *)
Definition write_json (p : string) (data : json) : M unit :=
  fun w => if writable w p
           then (Ok tt,
                 mkWorld (self w) (next_oid w) (clock w) (ticks w)
                         (fun q => if String.eqb q p then Document data
                                   else disk w q)
                         (writable w))
           else (Raise OSError, w).

(** ** Python lists *)

Module PyList.

Definition len {A} (l : list A) : Z := Z.of_nat (List.length l).

(** [l[i]]: a negative index counts from the end. *)
Definition getitem {A} (l : list A) (i : Z) : result A :=
  let j := if i <? 0 then i + len l else i in
  if (0 <=? j) && (j <? len l)
  then match nth_error l (Z.to_nat j) with
       | Some a => Ok a
       | None => Raise IndexError
       end
  else Raise IndexError.

Fixpoint remove_nth {A} (n : nat) (l : list A) : list A :=
  match l with
  | [] => []
  | x :: l' => match n with O => l' | S n' => x :: remove_nth n' l' end
  end.

(** [del l[i]] for [0 <= i < len(l)], the only use the code makes of it. *)
Definition delitem {A} (l : list A) (i : Z) : list A :=
  remove_nth (Z.to_nat i) l.

Fixpoint index_from (i : Z) (c : Card) (l : list Card) : result Z :=
  match l with
  | [] => Raise ValueError
  | x :: l' => if CardM.same_or_eqb x c then Ok i
               else index_from (i + 1) c l'
  end.

(** [l.index(c)] *)
Definition index (c : Card) (l : list Card) : result Z := index_from 0 c l.

(** The sort key of [sort_cards]: [c.title.lower()]. *)
Definition key (c : Card) : string := Str.lower (title c).

Fixpoint insert (x : Card) (l : list Card) : list Card :=
  match l with
  | [] => [x]
  | y :: l' => if String.leb (key x) (key y) then x :: y :: l'
               else y :: insert x l'
  end.

(** [l.sort(key=lambda c: c.title.lower())]: the stable sort, as a
    right-to-left insertion sort that puts an element in front of the
    elements of equal key that followed it. *)
Fixpoint sort (l : list Card) : list Card :=
  match l with
  | [] => []
  | x :: l' => insert x (sort l')
  end.

End PyList.

(** ** Card construction and (de)serialization *)

(** [Card(title=t, content=s)]: the object is allocated, the two default
    factories read the clock ([created] first), [__post_init__] runs. *)
Definition new_Card (t s : string) : M Card :=
  id <- alloc ;;
  cr <- now ;;
  mo <- now ;;
  ret (CardM.init id t s cr mo).

(** [Card.to_dict] *)
Definition to_dict (c : Card) : json :=
  JObj [ ("title", JStr (title c));
         ("content", JStr (content c));
         ("created", JStr (DT.isoformat (created c)));
         ("modified", JStr (DT.isoformat (modified c))) ].

(** [datetime.fromisoformat(data[k]) if k in data else datetime.now()] *)
Definition timestamp_field (k : string) (d : list (string * json))
  : M datetime :=
  match Json.lookup k d with
  | Some (JStr s) => lift (DT.fromisoformat s)
  | Some _ => raise TypeError
  | None => now
  end.

(** [Card.from_dict].  The arguments are evaluated in the order written,
    then the constructor runs.  A record that is not a dict has no [get];
    a title that is not a string has no [strip].  The fields of [Card] are
    typed as the dataclass declares them, so a content that is not a
    string, which Python would store unchecked, is refused here as a
    [TypeError]. *)
Definition from_dict (data : json) : M Card :=
  match data with
  | JObj d =>
      let title_v := Json.get "title" (JStr "Untitled") d in
      let content_v := Json.get "content" (JStr "") d in
      cr <- timestamp_field "created" d ;;
      mo <- timestamp_field "modified" d ;;
      id <- alloc ;;
      match title_v, content_v with
      | JStr t, JStr s => ret (CardM.init id t s cr mo)
      | JStr _, _ => raise TypeError
      | _, _ => raise AttributeError
      end
  | _ => raise AttributeError
  end.

(** [[f(x) for x in l]] *)
Fixpoint map_M {A B} (f : A -> M B) (l : list A) : M (list B) :=
  match l with
  | [] => ret []
  | x :: l' => y <- f x ;; ys <- map_M f l' ;; ret (y :: ys)
  end.

(** ** CardFile methods *)

Definition nonempty {A} (l : list A) : bool :=
  match l with [] => false | _ => true end.

(** [CardFile.__init__] *)
Definition empty_cardfile : CardFile := mkCardFile [] 0 None false.

(** [CardFile.current_card] *)
Definition current_card : M (option Card) :=
  cf <- get_self ;;
  if negb (nonempty (cards cf)) then ret None
  else c <- lift (PyList.getitem (cards cf) (current_index cf)) ;;
       ret (Some c).

(** [CardFile.sort_cards].  A [Card] defines neither [__bool__] nor
    [__len__], so [if current_card:] asks whether it is not [None]. *)
Definition sort_cards : M unit :=
  cf <- get_self ;;
  if nonempty (cards cf) then
    cur <- current_card ;;
    set_cards (PyList.sort (cards cf)) ;;
    match cur with
    | Some c =>
        cf' <- get_self ;;
        i <- lift (PyList.index c (cards cf')) ;;
        set_current_index i
    | None => ret tt
    end
  else ret tt.

(** [CardFile.add_card] *)
Definition add_card (t s : string) : M Card :=
  card <- new_Card t s ;;
  cf <- get_self ;;
  set_cards (cards cf ++ [card]) ;;
  sort_cards ;;
  cf' <- get_self ;;
  i <- lift (PyList.index card (cards cf')) ;;
  set_current_index i ;;
  set_modified true ;;
  ret card.

(** [CardFile.delete_card] *)
Definition delete_card (index : option Z) : M bool :=
  cf <- get_self ;;
  if negb (nonempty (cards cf)) then ret false
  else
    let idx := match index with Some i => i | None => current_index cf end in
    if (0 <=? idx) && (idx <? PyList.len (cards cf)) then
      set_cards (PyList.delitem (cards cf) idx) ;;
      set_modified true ;;
      cf' <- get_self ;;
      (if nonempty (cards cf')
       then set_current_index
              (Z.min (current_index cf') (PyList.len (cards cf') - 1))
       else set_current_index 0) ;;
      ret true
    else ret false.

(** [CardFile.duplicate_card] *)
Definition duplicate_card (index : option Z) : M (option Card) :=
  cf <- get_self ;;
  if negb (nonempty (cards cf)) then ret None
  else
    let idx := match index with Some i => i | None => current_index cf end in
    if (0 <=? idx) && (idx <? PyList.len (cards cf)) then
      original <- lift (PyList.getitem (cards cf) idx) ;;
      new_card <- new_Card (title original ++ " (Copy)") (content original) ;;
      cf1 <- get_self ;;
      set_cards (cards cf1 ++ [new_card]) ;;
      sort_cards ;;
      cf2 <- get_self ;;
      i <- lift (PyList.index new_card (cards cf2)) ;;
      set_current_index i ;;
      set_modified true ;;
      ret (Some new_card)
    else ret None.

(** [CardFile.navigate_to] *)
Definition navigate_to (index : Z) : M bool :=
  cf <- get_self ;;
  if (0 <=? index) && (index <? PyList.len (cards cf)) then
    set_current_index index ;; ret true
  else ret false.

(** [CardFile.navigate_next] *)
Definition navigate_next : M bool :=
  cf <- get_self ;;
  if current_index cf <? PyList.len (cards cf) - 1 then
    set_current_index (current_index cf + 1) ;; ret true
  else ret false.

(** [CardFile.navigate_previous] *)
Definition navigate_previous : M bool :=
  cf <- get_self ;;
  if current_index cf >? 0 then
    set_current_index (current_index cf - 1) ;; ret true
  else ret false.

(** The loop of [search] from position [i] on; [query] is already in
    lower case. *)
Fixpoint search_loop (query : string) (search_content : bool) (i : Z)
  (l : list Card) : list Z :=
  match l with
  | [] => []
  | card :: l' =>
      if Str.contains query (Str.lower (title card))
      then i :: search_loop query search_content (i + 1) l'
      else if search_content
              && Str.contains query (Str.lower (content card))
      then i :: search_loop query search_content (i + 1) l'
      else search_loop query search_content (i + 1) l'
  end.

(** [CardFile.search] *)
Definition search (query : string) (search_content : bool) : M (list Z) :=
  cf <- get_self ;;
  ret (search_loop (Str.lower query) search_content 0 (cards cf)).

(** A [for idx in results: if test(idx): return idx] loop. *)
Fixpoint first_where (test : Z -> bool) (results : list Z) : option Z :=
  match results with
  | [] => None
  | idx :: rest => if test idx then Some idx else first_where test rest
  end.

(** [CardFile.find_next]: [search] is called with its default
    [search_content=True]. *)
Definition find_next (query : string) (from_index : Z) : M (option Z) :=
  results <- search query true ;;
  match first_where (fun idx => idx >? from_index) results with
  | Some idx => ret (Some idx)
  | None =>
      match first_where (fun idx => idx <=? from_index) results with
      | Some idx => ret (Some idx)
      | None => ret None
      end
  end.

(** [CardFile.new_file] *)
Definition new_file : M unit :=
  set_cards [] ;;
  set_current_index 0 ;;
  set_filepath None ;;
  set_modified false.

(** [CardFile.save_to_file].  A [Path] is never false, so
    [filepath or self.filepath] is the argument unless it is [None]. *)
Definition save_to_file (path : option string) : M bool :=
  cf <- get_self ;;
  match (match path with Some p => Some p | None => filepath cf end) with
  | None => ret false
  | Some save_path =>
      try_except
        (cf <- get_self ;;
         let data := JObj [ ("version", JStr "1.0.1");
                            ("cards", JArr (map to_dict (cards cf))) ] in
         write_json save_path data ;;
         set_filepath (Some save_path) ;;
         set_modified false ;;
         ret true)
        (fun _ => ret false)
  end.

(** [CardFile.load_from_file] *)
Definition load_from_file (path : string) : M bool :=
  try_except
    (data <- read_json path ;;
     records <- match data with
                | JObj d => lift (Json.iterate (Json.get "cards" (JArr []) d))
                | _ => raise AttributeError
                end ;;
     loaded <- map_M from_dict records ;;
     set_cards loaded ;;
     set_current_index 0 ;;
     set_filepath (Some path) ;;
     set_modified false ;;
     sort_cards ;;
     ret true)
    (fun _ => ret false).

(** ** Editing the current card (MainWindow.edit_card)

    The window applies the two update methods to the object
    [current_card] returned, sets the dirty flag and re-sorts.  The
    updates are in place: they change that object wherever the list holds
    it. *)

Definition update_object (id : nat) (f : Card -> Card) (l : list Card)
  : list Card :=
  map (fun c => if Nat.eqb (oid c) id then f c else c) l.

Definition edit_card (new_title new_content : string) : M unit :=
  cur <- current_card ;;
  match cur with
  | None => ret tt
  | Some card =>
      t1 <- now ;;
      cf <- get_self ;;
      set_cards (update_object (oid card)
                   (CardM.update_title new_title t1) (cards cf)) ;;
      t2 <- now ;;
      cf <- get_self ;;
      set_cards (update_object (oid card)
                   (CardM.update_content new_content t2) (cards cf)) ;;
      set_modified true ;;
      sort_cards
  end.

(** ** Sequences of operations *)

Inductive op : Set :=
| OpAdd (t s : string)
| OpDelete (index : option Z)
| OpDuplicate (index : option Z)
| OpSort
| OpNavigateTo (index : Z)
| OpNext
| OpPrevious
| OpSearch (query : string) (search_content : bool)
| OpFindNext (query : string) (from_index : Z)
| OpNew
| OpSave (path : option string)
| OpLoad (path : string)
| OpEdit (new_title new_content : string).

(** One call from the window; the value returned is dropped. *)
Definition exec (o : op) : M unit :=
  match o with
  | OpAdd t s => add_card t s ;; ret tt
  | OpDelete i => delete_card i ;; ret tt
  | OpDuplicate i => duplicate_card i ;; ret tt
  | OpSort => sort_cards
  | OpNavigateTo i => navigate_to i ;; ret tt
  | OpNext => navigate_next ;; ret tt
  | OpPrevious => navigate_previous ;; ret tt
  | OpSearch q b => search q b ;; ret tt
  | OpFindNext q i => find_next q i ;; ret tt
  | OpNew => new_file
  | OpSave p => save_to_file p ;; ret tt
  | OpLoad p => load_from_file p ;; ret tt
  | OpEdit t s => edit_card t s
  end.

Fixpoint run (ops : list op) : M unit :=
  match ops with
  | [] => ret tt
  | o :: rest => exec o ;; run rest
  end.

(** A fresh [CardFile()] in some environment. *)
Definition init_world (clk : nat -> datetime) (dsk : string -> file)
  (wr : string -> bool) : World :=
  mkWorld empty_cardfile 0 clk 0 dsk wr.

(** ** Predicates the statements use *)

(** [l[i]] for a position [0 <= i < len(l)]; [None] elsewhere. *)
Definition card_at (l : list Card) (i : Z) : option Card :=
  if i <? 0 then None else nth_error l (Z.to_nat i).

Definition key_le (a b : Card) : Prop :=
  String.leb (PyList.key a) (PyList.key b) = true.

(** Non-decreasing lower-cased titles: every card is at most every later
    one. *)
Definition title_sorted (l : list Card) : Prop := StronglySorted key_le l.

Definition cursor_ok (cf : CardFile) : Prop :=
  match cards cf with
  | [] => current_index cf = 0
  | _ => 0 <= current_index cf < PyList.len (cards cf)
  end.

(** No two cards of the list are the same object, and the allocator is
    ahead of all of them. *)
Definition heap_ok (w : World) : Prop :=
  NoDup (map oid (cards (self w)))
  /\ Forall (fun c => (oid c < next_oid w)%nat) (cards (self w)).

(** What every call keeps true. *)
Definition inv (w : World) : Prop :=
  cursor_ok (self w) /\ title_sorted (cards (self w)) /\ heap_ok w.

(** The card [Card(title=t, content=s)] makes in world [w]. *)
Definition card_made (t s : string) (w : World) : Card :=
  CardM.init (next_oid w) t s (clock w (ticks w)) (clock w (S (ticks w))).

(** The world after that construction, with [cf] for the collection. *)
Definition after_new_Card (cf : CardFile) (w : World) : World :=
  mkWorld cf (S (next_oid w)) (clock w) (S (S (ticks w)))
          (disk w) (writable w).

(** The two steps [add_card] and [duplicate_card] share: append the new
    card, re-sort, point the cursor at what [index] finds, set the dirty
    flag. *)
Definition append_sort_select (card : Card) : M Card :=
  cf <- get_self ;;
  set_cards (cards cf ++ [card]) ;;
  sort_cards ;;
  cf' <- get_self ;;
  i <- lift (PyList.index card (cards cf')) ;;
  set_current_index i ;;
  set_modified true ;;
  ret card.

(** [index if index is not None else self.current_index] *)
Definition target (index : option Z) (w : World) : Z :=
  match index with Some i => i | None => current_index (self w) end.

(** The records [load_from_file] builds cards from, or the exception that
    stops it before any card is built. *)
Definition records_of (path : string) (w : World) : result (list json) :=
  match disk w path with
  | NoFile => Raise OSError
  | NotJson => Raise JSONDecodeError
  | Document (JObj d) => Json.iterate (Json.get "cards" (JArr []) d)
  | Document _ => Raise AttributeError
  end.

(** Reading or parsing fails: the file cannot be read, or is not a JSON
    document, or is not a dict, or its "cards" cannot be iterated, or
    [from_dict] raises on one of the records (a timestamp that does not
    parse, a record that is not a dict, ...). *)
Definition load_fails (path : string) (w : World) : Prop :=
  match records_of path w with
  | Raise _ => True
  | Ok records =>
      match fst (map_M from_dict records w) with
      | Raise _ => True
      | Ok _ => False
      end
  end.

(** Whether [search] keeps a card, given the lower-cased query. *)
Definition keeps (query : string) (search_content : bool) (c : Card) : bool :=
  Str.contains query (Str.lower (title c))
  || (search_content && Str.contains query (Str.lower (content c))).

(** The cursor of [cf] is on the first card that is [c] or equal to [c];
    that card is [c] itself when no other card of [old] is equal to [c]. *)
Definition cursor_on_first_equal (c : Card) (old : list Card)
  (cf : CardFile) : Prop :=
  exists e,
    card_at (cards cf) (current_index cf) = Some e
    /\ CardM.eqb e c = true
    /\ (forall j x, 0 <= j < current_index cf ->
          card_at (cards cf) j = Some x ->
          x <> c /\ CardM.eqb x c = false)
    /\ ((forall x, In x old -> x <> c -> CardM.eqb x c = false) -> e = c).

(** [needle] occurs in [hay]. *)
Definition Substring (needle hay : string) : Prop :=
  exists pre post, hay = (pre ++ needle ++ post)%string.

(** The positions [0 .. n-1]. *)
Definition positions (n : nat) : list Z := map Z.of_nat (seq 0 n).

(** ** Sample values *)

Definition sample_time : datetime := mkDatetime 2024 2 29 13 5 59 120034.
Definition sample_card : Card :=
  mkCard 7 "Recipe" "Flour, water" sample_time sample_time.

(** A fresh collection, a clock that stands still, an empty disk. *)
Definition sample_world : World :=
  init_world (fun _ => sample_time) (fun _ => NoFile) (fun _ => true).


Definition record (t s cr mo : string) : json :=
  JObj [ ("title", JStr t); ("content", JStr s);
         ("created", JStr cr); ("modified", JStr mo) ].

(** A document whose second record has a timestamp that does not parse. *)
Definition bad_document : json :=
  JObj [ ("version", JStr "1.0.1");
         ("cards", JArr [ record "Budget" "Track expenses"
                            "2024-02-29T13:05:59" "2024-02-29T13:05:59";
                          record "Recipe" "Flour, water"
                            "2024-02-30T13:05:59" "yesterday" ]) ].

(** A collection holding one card; a disk holding the bad document and a
    file that is not JSON. *)
Definition world_with_bad_file : World :=
  mkWorld (mkCardFile [sample_card] 0 (Some "notes.crd") true) 8
          (fun _ => sample_time) 0
          (fun p => if String.eqb p "bad.crd" then Document bad_document
                    else if String.eqb p "garbage.crd" then NotJson
                    else NoFile)
          (fun _ => true).

(** Five cards; "x" occurs, in some case, in the content of the second and
    in the title of the fifth. *)
Definition five_cards : list Card :=
  [ mkCard 0 "Alpha" "first" sample_time sample_time;
    mkCard 1 "Beta" "a foX" sample_time sample_time;
    mkCard 2 "Gamma" "third" sample_time sample_time;
    mkCard 3 "Omega" "fourth" sample_time sample_time;
    mkCard 4 "Xenon" "fifth" sample_time sample_time ].

Definition world_with_five : World :=
  mkWorld (mkCardFile five_cards 4 None false) 5
          (fun _ => sample_time) 0 (fun _ => NoFile) (fun _ => true).

(** One card, added to a new collection. *)
Definition idea_world : World :=
  snd (run [OpAdd "Idea" ""] sample_world).

(** The card added, then duplicated once, the clock standing still. *)
Definition duplicated_world : World :=
  snd (run [OpAdd "Idea" ""; OpDuplicate None] sample_world).

(** A document with the same record twice. *)
Definition twins_document : json :=
  JObj [ ("version", JStr "1.0.1");
         ("cards", JArr [ record "Note" "same"
                            "2024-02-29T13:05:59" "2024-02-29T13:05:59";
                          record "Note" "same"
                            "2024-02-29T13:05:59" "2024-02-29T13:05:59" ]) ].

(** A new collection next to that document, a clock that advances by a
    second at each reading. *)
Definition twins_disk : World :=
  init_world (fun n => mkDatetime 2025 1 1 0 0 (N.of_nat n mod 60) 0)
             (fun p => if String.eqb p "twins.crd" then Document twins_document
                       else NoFile)
             (fun _ => true).

(** The document loaded, and the cursor moved to the second card. *)
Definition twins_world : World :=
  snd (run [OpLoad "twins.crd"; OpNext] twins_disk).

(** The first card of the specification's scenario, added to a new
    collection. *)
Definition recipe_world : World :=
  snd (run [OpAdd "Recipe" "Flour, water"] sample_world).

Definition idea_card : Card := mkCard 0 "Idea" "" sample_time sample_time.
Definition first_copy : Card :=
  mkCard 1 "Idea (Copy)" "" sample_time sample_time.
Definition second_copy : Card :=
  mkCard 2 "Idea (Copy)" "" sample_time sample_time.

Definition twin_time : datetime := mkDatetime 2024 2 29 13 5 59 0.
Definition first_twin : Card := mkCard 0 "Note" "same" twin_time twin_time.
Definition second_twin : Card := mkCard 1 "Note" "same" twin_time twin_time.

(** ** The rest of card.py and cardfile.py *)

Module PyStr.

Fixpoint take (n : nat) (s : string) : string :=
  match n, s with
  | S n', String c s' => String c (take n' s')
  | _, _ => EmptyString
  end.

(** [s[:stop]]: a negative [stop] counts from the end; what falls outside
    the string is clipped. *)
Definition slice_to (s : string) (stop : Z) : string :=
  let n := Z.of_nat (String.length s) in
  take (Z.to_nat (if stop <? 0 then Z.max (stop + n) 0 else Z.min stop n)) s.

(** [str(n)] for an integer. *)
Definition str_int (n : Z) : string := NilZero.string_of_int (Z.to_int n).

(** The string has white space at neither end. *)
Definition trimmed (s : string) : Prop := Str.strip s = s.

End PyStr.

(** [Card.get_index_title] *)
Definition get_index_title (max_length : Z) (c : Card) : string :=
  if Z.of_nat (String.length (title c)) <=? max_length then title c
  else (PyStr.slice_to (title c) (max_length - 3) ++ "...")%string.

(** [CardFile.card_count] *)
Definition card_count : M Z :=
  cf <- get_self ;;
  ret (PyList.len (cards cf)).

(** [CardFile.get_title]; [stem] is [Path.stem], which depends on the
    platform's path syntax. *)
Definition get_title (stem : string -> string) : M string :=
  cf <- get_self ;;
  let name := match filepath cf with Some p => stem p | None => "Untitled" end in
  let modified_indicator := if cf_modified cf then " *" else "" in
  ret (name ++ modified_indicator ++ " - CardFile")%string.

(** The four fields of a card, without its identity. *)
Definition fields (c : Card) : string * string * datetime * datetime :=
  (title c, content c, created c, modified c).

(** What the constructor and the update methods keep true of a card, with
    timestamps that are datetimes. *)
Definition card_wf (c : Card) : Prop :=
  Str.all_space (title c) = false
  /\ DT.valid (created c) = true /\ DT.valid (modified c) = true.

(** ** The window and its dialogs (ui/main_window.py, ui/dialogs.py)

    Only the calls into the collection are modelled.  What the user does
    in a dialog is an argument: the text typed, the button pressed, the
    file picked. *)

Module Window.

(** [AddEditCardDialog.ok]: the dialog's result. *)
Definition add_edit_ok (entered_title entered_content : string)
  : string * string :=
  let title := Str.strip entered_title in
  (if Str.truthy title then title else "Untitled", entered_content).

(** [MainWindow.save_file_as]; [chosen] is what the file dialog returned,
    the empty string when it was cancelled. *)
Definition save_file_as (chosen : string) : M bool :=
  if Str.truthy chosen then save_to_file (Some chosen) else ret false.

(** [MainWindow.save_file] *)
Definition save_file (chosen : string) : M bool :=
  cf <- get_self ;;
  match filepath cf with
  | Some _ => save_to_file None
  | None => save_file_as chosen
  end.

(** [MainWindow.check_save]; [answer] is the answer to "save changes?":
    [None] for Cancel, otherwise Yes or No. *)
Definition check_save (answer : option bool) (chosen : string) : M bool :=
  cf <- get_self ;;
  if cf_modified cf then
    match answer with
    | None => ret false
    | Some true => save_file chosen
    | Some false => ret true
    end
  else ret true.

Definition welcome_new : string :=
  "Your new CardFile is ready!

Add cards using Ctrl+N.".

(** [MainWindow.new_file] *)
Definition new_file (answer : option bool) (chosen : string) : M unit :=
  ok <- check_save answer chosen ;;
  if negb ok then ret tt
  else new_file ;; add_card "Welcome" welcome_new ;; ret tt.

(** [MainWindow.add_card]; the result is [None] when the dialog was
    cancelled. *)
Definition add_card (dialog_result : option (string * string)) : M unit :=
  match dialog_result with
  | Some (t, s) => add_card t s ;; ret tt
  | None => ret tt
  end.

(** [MainWindow.edit_card] *)
Definition edit_card (dialog_result : option (string * string)) : M unit :=
  card <- current_card ;;
  match card with
  | None => ret tt
  | Some _ =>
      match dialog_result with
      | Some (t, s) => edit_card t s
      | None => ret tt
      end
  end.

(** [MainWindow.delete_card]; [confirmed] is the answer to the question,
    which quotes the current card's title. *)
Definition delete_card (confirmed : bool) : M unit :=
  cf <- get_self ;;
  if negb (nonempty (cards cf)) then ret tt
  else
    card <- current_card ;;
    if confirmed then delete_card None ;; ret tt else ret tt.

(** [MainWindow.duplicate_card] *)
Definition duplicate_card : M unit := duplicate_card None ;; ret tt.

(** [MainWindow.navigate_to] *)
Definition navigate_to (index : Z) : M unit := navigate_to index ;; ret tt.


(** [GoToDialog.ok]: [entered] is what [int()] made of the text, [None]
    for a [ValueError]. *)
Definition goto_ok (entered : option Z) (card_count : Z) : option Z :=
  match entered with
  | Some num =>
      if (1 <=? num) && (num <=? card_count) then Some (num - 1) else None
  | None => None
  end.

(** [MainWindow.goto_card]; [go] is false when the dialog was cancelled. *)
Definition goto_card (go : bool) (entered : option Z) : M unit :=
  cf <- get_self ;;
  if negb (nonempty (cards cf)) then ret tt
  else
    n <- card_count ;;
    match (if go then goto_ok entered n else None) with
    | Some i => navigate_to i
    | None => ret tt
    end.

(** The [on_find] callback of [MainWindow.find_card]; it returns whether a
    card was found (otherwise the window shows a message). *)
Definition on_find (query : string) (search_content : bool) : M bool :=
  cf <- get_self ;;
  idx <- find_next query (current_index cf) ;;
  match idx with
  | Some i => navigate_to i ;; ret true
  | None => ret false
  end.


(** [MainWindow.find_next], given the query of the last search. *)
Definition find_next (last_search_query : string) : M unit :=
  if Str.truthy last_search_query then
    cf <- get_self ;;
    idx <- find_next last_search_query (current_index cf) ;;
    match idx with
    | Some i => navigate_to i
    | None => ret tt
    end
  else ret tt.

(** The text [MainWindow.refresh_status] puts in the status bar. *)
Definition refresh_status : M string :=
  count <- card_count ;;
  cf <- get_self ;;
  let current := if count >? 0 then current_index cf + 1 else 0 in
  ret ("Card " ++ PyStr.str_int current ++ " of " ++ PyStr.str_int count)%string.



End Window.

(** ** What the user can do in the window *)




Definition dialog_result (typed : option (string * string))
  : option (string * string) :=
  match typed with
  | Some (t, s) => Some (Window.add_edit_ok t s)
  | None => None
  end.



(** ** Facts about strings *)

Local Open Scope list_scope.

Lemma rstrip_empty_iff (s : string) :
  Str.rstrip s = EmptyString <-> Str.all_space s = true.
Proof.
  induction s as [|c s IH]; simpl.
  - split; reflexivity.
  - destruct (Str.rstrip s) eqn:R.
    + destruct (Str.isspace c); simpl.
      * split; intros _; [apply IH|]; reflexivity.
      * split; discriminate.
    + split; [discriminate|].
      intros H. apply andb_true_iff in H as [_ H].
      apply IH in H. discriminate.
Qed.

Lemma all_space_lstrip (s : string) :
  Str.all_space (Str.lstrip s) = Str.all_space s.
Proof.
  induction s as [|c s IH]; simpl; [reflexivity|].
  destruct (Str.isspace c) eqn:E; simpl; [exact IH|].
  rewrite E. reflexivity.
Qed.

Lemma strip_empty_iff (s : string) :
  Str.strip s = EmptyString <-> Str.all_space s = true.
Proof.
  unfold Str.strip. rewrite rstrip_empty_iff, all_space_lstrip. tauto.
Qed.

Lemma truthy_strip (s : string) :
  Str.truthy (Str.strip s) = negb (Str.all_space s).
Proof.
  destruct (Str.all_space s) eqn:E.
  - apply strip_empty_iff in E. rewrite E. reflexivity.
  - destruct (Str.strip s) eqn:S; [|reflexivity].
    apply strip_empty_iff in S. congruence.
Qed.

Lemma title_init (id : nat) (t s : string) (cr mo : datetime) :
  title (CardM.init id t s cr mo)
  = if Str.all_space t then "Untitled" else t.
Proof.
  unfold CardM.init, CardM.post_init. simpl.
  rewrite truthy_strip, negb_involutive.
  destruct (Str.all_space t); reflexivity.
Qed.

Lemma all_space_rstrip (s : string) :
  Str.all_space (Str.rstrip s) = true -> Str.rstrip s = EmptyString.
Proof.
  induction s as [|c s IH]; simpl; [reflexivity|].
  destruct (Str.rstrip s) as [|x r] eqn:R.
  - destruct (Str.isspace c) eqn:E; [reflexivity|].
    simpl. rewrite E. discriminate.
  - intros H. change (Str.all_space (String c (String x r)))
      with (Str.isspace c && Str.all_space (String x r)) in H.
    apply andb_true_iff in H as [_ H]. apply IH in H. discriminate.
Qed.

(** The invariant of [Card]: the constructor and [update_title] leave a
    title that is not blank. *)
Lemma init_title_not_blank (id : nat) (t s : string) (cr mo : datetime) :
  Str.all_space (title (CardM.init id t s cr mo)) = false.
Proof.
  rewrite title_init. destruct (Str.all_space t) eqn:E; [reflexivity|exact E].
Qed.

Lemma update_title_not_blank (t : string) (now : datetime) (c : Card) :
  Str.all_space (title (CardM.update_title t now c)) = false.
Proof.
  unfold CardM.update_title. cbn [title CardM.with_modified CardM.with_title].
  destruct (Str.strip t) as [|x r] eqn:E; [reflexivity|].
  cbn [Str.truthy]. rewrite <- E.
  destruct (Str.all_space (Str.strip t)) eqn:A; [|reflexivity].
  apply all_space_rstrip in A. fold (Str.strip t) in A. congruence.
Qed.

(** C1, as the specification words it, fails: [Card(title=" a")] keeps the
    leading space, while [" a".strip()] is ["a"]. *)
Lemma C1_title_not_stripped :
  " a" <> EmptyString
  /\ exists c w', new_Card " a" "" sample_world = (Ok c, w')
                  /\ title c = " a" /\ Str.strip " a" = "a"
                  /\ title c <> Str.strip " a".
Proof.
  split; [discriminate|].
  eexists; eexists. split; [reflexivity|].
  repeat split; discriminate.
Qed.

(** C1 (amended): constructing a card with title [t] always succeeds; the
    title is the literal "Untitled" when [t] is empty or all white space,
    and otherwise it is [t] exactly as given (it is not stripped).  The
    test the constructor makes, [t.strip()] being empty, is the same as
    [t] being all white space. *)
Theorem C1_title_coercion (t s : string) (w : World) :
  exists c w',
    new_Card t s w = (Ok c, w')
    /\ title c = (if Str.all_space t then "Untitled" else t)
    /\ Str.truthy (Str.strip t) = negb (Str.all_space t)
    /\ content c = s.
Proof.
  eexists; eexists. split; [reflexivity|].
  split; [apply title_init|].
  split; [apply truthy_strip|].
  unfold CardM.init, CardM.post_init; simpl.
  destruct (negb _); reflexivity.
Qed.

(** ** Facts about timestamps *)

Lemma string_app_assoc (a b c : string) :
  ((a ++ b) ++ c = a ++ (b ++ c))%string.
Proof. induction a as [|x a IH]; simpl; [reflexivity | now rewrite IH]. Qed.

Lemma string_app_empty (a : string) : (a ++ EmptyString = a)%string.
Proof. induction a as [|x a IH]; simpl; [reflexivity | now rewrite IH]. Qed.

Lemma digit_val_digit (n : N) : DT.digit_val (DT.digit n) = Some (n mod 10)%N.
Proof.
  unfold DT.digit_val, DT.digit.
  assert (H : (n mod 10 < 10)%N) by (apply N.mod_lt; discriminate).
  rewrite N_ascii_embedding by lia.
  replace ((48 <=? 48 + n mod 10)%N) with true by (symmetry; apply N.leb_le; lia).
  replace ((48 + n mod 10 <=? 57)%N) with true by (symmetry; apply N.leb_le; lia).
  cbn [andb]. f_equal. lia.
Qed.

Lemma read_digits_last (k : nat) : forall (acc : N) (s : string),
  DT.read_digits (S k) acc s
  = match DT.read_digits k acc s with
    | Some (a, String c r) =>
        match DT.digit_val c with
        | Some v => Some ((a * 10 + v)%N, r)
        | None => None
        end
    | _ => None
    end.
Proof.
  induction k as [|k IH]; intros acc s.
  - simpl. destruct s as [|c s]; [reflexivity|].
    destruct (DT.digit_val c); reflexivity.
  - change (DT.read_digits (S (S k)) acc s)
      with (match s with
            | EmptyString => None
            | String c s' =>
                match DT.digit_val c with
                | Some v => DT.read_digits (S k) (acc * 10 + v)%N s'
                | None => None
                end
            end).
    destruct s as [|c s]; [reflexivity|].
    simpl DT.read_digits at 2.
    destruct (DT.digit_val c) as [v|]; [|reflexivity].
    apply IH.
Qed.

Lemma read_digits_digits (k : nat) : forall (acc n : N) (rest : string),
  DT.read_digits k acc (DT.digits k n ++ rest)
  = Some ((acc * 10 ^ N.of_nat k + n mod 10 ^ N.of_nat k)%N, rest).
Proof.
  induction k as [|k IH]; intros acc n rest.
  - simpl. rewrite N.mod_1_r. f_equal. f_equal. lia.
  - rewrite read_digits_last.
    change (DT.digits (S k) n)
      with (DT.digits k (n / 10) ++ String (DT.digit n) EmptyString)%string.
    rewrite string_app_assoc. simpl append at 2.
    rewrite IH, digit_val_digit.
    f_equal. f_equal.
    rewrite Nnat.Nat2N.inj_succ, N.pow_succ_r'.
    rewrite (N.Div0.mod_mul_r n 10 (10 ^ N.of_nat k)). lia.
Qed.

Lemma read_digits_small (k : nat) (n : N) (rest : string) :
  (n < 10 ^ N.of_nat k)%N ->
  DT.read_digits k 0 (DT.digits k n ++ rest) = Some (n, rest).
Proof.
  intros H. rewrite read_digits_digits, N.mod_small by exact H.
  reflexivity.
Qed.

Lemma valid_bounds (d : datetime) :
  DT.valid d = true ->
  (year d < 10 ^ 4 /\ month d < 10 ^ 2 /\ day d < 10 ^ 2 /\ hour d < 10 ^ 2
   /\ minute d < 10 ^ 2 /\ second d < 10 ^ 2 /\ microsecond d < 10 ^ 6)%N.
Proof.
  unfold DT.valid. intros H.
  repeat (apply andb_true_iff in H; destruct H as [H ?]).
  repeat match goal with
         | X : (_ <=? _)%N = true |- _ => apply N.leb_le in X
         | X : (_ <? _)%N = true |- _ => apply N.ltb_lt in X
         end.
  assert (DT.days_in_month (year d) (month d) <= 31)%N.
  { unfold DT.days_in_month.
    repeat match goal with |- context [if ?b then _ else _] => destruct b end;
      lia. }
  change (10 ^ 4)%N with 10000%N. change (10 ^ 2)%N with 100%N.
  change (10 ^ 6)%N with 1000000%N. lia.
Qed.

Lemma expect_head (c : ascii) (rest : string) :
  DT.expect c (String c EmptyString ++ rest) = Some rest.
Proof. simpl. rewrite Ascii.eqb_refl. reflexivity. Qed.

Lemma parse_isoformat (d : datetime) :
  DT.valid d = true -> DT.parse (DT.isoformat d) = Some d.
Proof.
  intros V. destruct (valid_bounds d V) as (Hy & Hmo & Hd & Hh & Hmi & Hs & Hus).
  destruct d as [y mo dd h mi se us].
  cbn [year month day hour minute second microsecond] in Hy, Hmo, Hd, Hh, Hmi, Hs, Hus.
  unfold DT.parse, DT.isoformat.
  cbn [year month day hour minute second microsecond].
  rewrite (read_digits_small 4) by exact Hy. rewrite expect_head.
  rewrite (read_digits_small 2) by exact Hmo. rewrite expect_head.
  rewrite (read_digits_small 2) by exact Hd. rewrite expect_head.
  rewrite (read_digits_small 2) by exact Hh. rewrite expect_head.
  rewrite (read_digits_small 2) by exact Hmi. rewrite expect_head.
  rewrite (read_digits_small 2) by exact Hs.
  destruct (N.eqb_spec us 0) as [->|Hne].
  - reflexivity.
  - change ("." ++ DT.digits 6 us)%string
      with (String "." (DT.digits 6 us)).
    cbv beta iota. rewrite <- (string_app_empty (DT.digits 6 us)).
    change (String "." (DT.digits 6 us ++ EmptyString))
      with (String "." EmptyString ++ (DT.digits 6 us ++ EmptyString))%string.
    rewrite expect_head.
    rewrite (read_digits_small 6) by exact Hus. reflexivity.
Qed.

Lemma fromisoformat_isoformat (d : datetime) :
  DT.valid d = true -> DT.fromisoformat (DT.isoformat d) = Ok d.
Proof.
  intros V. unfold DT.fromisoformat. rewrite parse_isoformat by exact V.
  rewrite V. reflexivity.
Qed.

(** ** Serialization *)

Lemma lookup_to_dict (c : Card) :
  exists d, to_dict c = JObj d
    /\ Json.get "title" (JStr "Untitled") d = JStr (title c)
    /\ Json.get "content" (JStr "") d = JStr (content c)
    /\ Json.lookup "created" d = Some (JStr (DT.isoformat (created c)))
    /\ Json.lookup "modified" d = Some (JStr (DT.isoformat (modified c))).
Proof. eexists. split; [reflexivity|]. repeat split. Qed.

(** C9: a card whose title is not blank (the constructor and
    [update_title] keep it so) and whose timestamps are datetimes is read
    back from its own record with the same title, content, created and
    modified; the timestamps are written to the microsecond, so nothing is
    rounded. *)
Theorem C9_serialization_round_trip (c : Card) (w : World) :
  Str.all_space (title c) = false ->
  DT.valid (created c) = true ->
  DT.valid (modified c) = true ->
  exists c' w',
    from_dict (to_dict c) w = (Ok c', w')
    /\ title c' = title c
    /\ content c' = content c
    /\ created c' = created c
    /\ modified c' = modified c
    /\ self w' = self w.
Proof.
  intros Ht Hc Hm.
  destruct (lookup_to_dict c) as (d & -> & Et & Es & Ec & Em).
  unfold from_dict. rewrite Et, Es.
  unfold timestamp_field. rewrite Ec, Em.
  rewrite (fromisoformat_isoformat _ Hc), (fromisoformat_isoformat _ Hm).
  eexists; eexists. split; [reflexivity|].
  rewrite title_init, Ht.
  unfold CardM.init, CardM.post_init; cbn [title].
  destruct (negb _); repeat split; reflexivity.
Qed.

Lemma C9_serialization_round_trip_witness :
  exists c' w',
    from_dict (to_dict sample_card) sample_world = (Ok c', w')
    /\ title c' = "Recipe"
    /\ content c' = "Flour, water"
    /\ created c' = sample_time
    /\ modified c' = sample_time
    /\ self w' = self sample_world.
Proof.
  apply (C9_serialization_round_trip sample_card sample_world);
    reflexivity.
Defined.

(** ** The order on sort keys *)

Lemma str_leb_trans (a : string) : forall b c : string,
  String.leb a b = true -> String.leb b c = true -> String.leb a c = true.
Proof.
  unfold String.leb.
  induction a as [|x a IH]; intros [|y b] [|z c]; simpl; try congruence.
  unfold Ascii.compare.
  destruct (N.compare_spec (N_of_ascii x) (N_of_ascii y)) as [E1|L1|G1];
    destruct (N.compare_spec (N_of_ascii y) (N_of_ascii z)) as [E2|L2|G2];
    destruct (N.compare_spec (N_of_ascii x) (N_of_ascii z)) as [E3|L3|G3];
    try congruence; try lia.
  apply IH.
Qed.

Lemma str_leb_false (a b : string) :
  String.leb a b = false -> String.leb b a = true.
Proof.
  intros H. destruct (String.leb_total a b) as [T|T]; congruence.
Qed.

Lemma key_le_trans (a b c : Card) : key_le a b -> key_le b c -> key_le a c.
Proof. unfold key_le. apply str_leb_trans. Qed.

(** ** Sorting *)

Lemma insert_perm (x : Card) (l : list Card) :
  Permutation (PyList.insert x l) (x :: l).
Proof.
  induction l as [|y l IH]; simpl; [reflexivity|].
  destruct (String.leb _ _); [reflexivity|].
  rewrite IH. apply perm_swap.
Qed.

Lemma sort_perm (l : list Card) : Permutation (PyList.sort l) l.
Proof.
  induction l as [|x l IH]; simpl; [reflexivity|].
  rewrite insert_perm. now constructor.
Qed.

Lemma insert_sorted (x : Card) (l : list Card) :
  title_sorted l -> title_sorted (PyList.insert x l).
Proof.
  unfold title_sorted.
  induction l as [|y l IH]; intros S; simpl.
  - constructor; constructor.
  - destruct (String.leb (PyList.key x) (PyList.key y)) eqn:E.
    + constructor; [exact S|].
      inversion S as [|? ? S' F]; subst.
      constructor; [exact E|].
      eapply Forall_impl; [|exact F].
      intros c Hc. eapply key_le_trans; [exact E|exact Hc].
    + inversion S as [|? ? S' F]; subst.
      constructor; [apply IH; exact S'|].
      apply (Permutation_Forall (x := x :: l)).
      * symmetry. apply insert_perm.
      * constructor; [apply str_leb_false; exact E|exact F].
Qed.

Lemma sort_sorted (l : list Card) : title_sorted (PyList.sort l).
Proof.
  induction l as [|x l IH]; simpl.
  - constructor.
  - apply insert_sorted, IH.
Qed.

Lemma sort_length (l : list Card) :
  PyList.len (PyList.sort l) = PyList.len l.
Proof.
  unfold PyList.len. now rewrite (Permutation_length (sort_perm l)).
Qed.

Lemma sort_in (c : Card) (l : list Card) : In c (PyList.sort l) <-> In c l.
Proof.
  split; apply Permutation_in; [|symmetry]; apply sort_perm.
Qed.

Lemma sort_nonempty (l : list Card) :
  nonempty (PyList.sort l) = nonempty l.
Proof.
  pose proof (Permutation_length (sort_perm l)) as H.
  destruct l, (PyList.sort _); simpl in *; congruence.
Qed.

Lemma remove_nth_sorted (n : nat) : forall l : list Card,
  title_sorted l -> title_sorted (PyList.remove_nth n l).
Proof.
  unfold title_sorted.
  induction n as [|n IH]; intros [|x l] S; simpl; try assumption.
  - now inversion S.
  - inversion S as [|? ? S' F]; subst.
    constructor; [apply IH, S'|].
    clear - F. revert n. induction F as [|y l Hy F IHF]; intros n.
    + destruct n; constructor.
    + destruct n; simpl; [exact F|].
      constructor; [exact Hy|apply IHF].
Qed.

Lemma remove_nth_length (A : Type) (n : nat) : forall l : list A,
  (n < List.length l)%nat ->
  List.length (PyList.remove_nth n l) = pred (List.length l).
Proof.
  induction n as [|n IH]; intros [|x l] H; simpl in *; try lia.
  rewrite IH by lia. lia.
Qed.

Lemma remove_nth_incl (A : Type) (n : nat) : forall (l : list A) (a : A),
  In a (PyList.remove_nth n l) -> In a l.
Proof.
  induction n as [|n IH]; intros [|x l] a H; simpl in *; auto.
  destruct H as [H|H]; auto.
Qed.

(** ** Indexing *)

Lemma same_or_eqb_refl (c : Card) : CardM.same_or_eqb c c = true.
Proof. unfold CardM.same_or_eqb. now rewrite Nat.eqb_refl. Qed.

Lemma getitem_in_range (A : Type) (l : list A) (i : Z) :
  0 <= i < PyList.len l ->
  exists a, PyList.getitem l i = Ok a
            /\ nth_error l (Z.to_nat i) = Some a /\ In a l.
Proof.
  unfold PyList.getitem, PyList.len. intros H.
  replace (i <? 0) with false by lia.
  replace ((0 <=? i) && (i <? Z.of_nat (List.length l))) with true by lia.
  destruct (nth_error l (Z.to_nat i)) as [a|] eqn:E.
  - exists a. repeat split. eapply nth_error_In; eauto.
  - apply nth_error_None in E. lia.
Qed.

(** What [l.index(c)] returns: the first position whose element is [c]
    itself or equal to it. *)
Lemma index_from_spec (c : Card) (l : list Card) : forall (k i : Z),
  PyList.index_from k c l = Ok i ->
  k <= i < k + PyList.len l
  /\ exists e, nth_error l (Z.to_nat (i - k)) = Some e
       /\ CardM.same_or_eqb e c = true
       /\ forall (j : nat) x, (j < Z.to_nat (i - k))%nat ->
            nth_error l j = Some x -> CardM.same_or_eqb x c = false.
Proof.
  unfold PyList.len.
  induction l as [|x l IH]; intros k i H; simpl in H; [discriminate|].
  destruct (CardM.same_or_eqb x c) eqn:E.
  - injection H as <-. split; [simpl List.length; lia|].
    exists x. rewrite Z.sub_diag. simpl. repeat split; auto.
    intros j y Hj; lia.
  - apply IH in H as (R & e & N & Hs & F).
    split; [simpl List.length; lia|].
    exists e.
    replace (Z.to_nat (i - k)) with (S (Z.to_nat (i - (k + 1)))) by lia.
    simpl. repeat split; auto.
    intros [|j] y Hj Hy; simpl in Hy.
    + now injection Hy as <-.
    + eapply F; [|exact Hy]. lia.
Qed.

Lemma index_from_found (c : Card) (l : list Card) : forall k : Z,
  In c l -> exists i, PyList.index_from k c l = Ok i.
Proof.
  induction l as [|x l IH]; intros k H; [contradiction|]. simpl.
  destruct (CardM.same_or_eqb x c) eqn:E; [eauto|].
  destruct H as [->|H]; [|now apply IH].
  rewrite same_or_eqb_refl in E. discriminate.
Qed.

Lemma index_found (c : Card) (l : list Card) :
  In c l ->
  exists i, PyList.index c l = Ok i
    /\ 0 <= i < PyList.len l
    /\ exists e, card_at l i = Some e
         /\ CardM.same_or_eqb e c = true
         /\ forall j x, 0 <= j < i -> card_at l j = Some x ->
              CardM.same_or_eqb x c = false.
Proof.
  intros H. destruct (index_from_found c l 0 H) as [i E].
  exists i. split; [exact E|].
  apply index_from_spec in E as (R & e & N & S & F).
  rewrite Z.sub_0_r in *. split; [lia|].
  exists e. unfold card_at.
  replace (i <? 0) with false by lia.
  repeat split; auto.
  intros j x Hj. replace (j <? 0) with false by lia.
  apply F. lia.
Qed.

(** ** Running the methods *)

Ltac unfold_monad :=
  unfold bind, ret, raise, lift, try_except, get_self, set_cards,
    set_current_index, set_filepath, set_modified, modify_self, alloc, now,
    with_self in *.

Lemma cursor_ok_range (cf : CardFile) :
  cursor_ok cf -> cards cf <> [] ->
  0 <= current_index cf < PyList.len (cards cf).
Proof. unfold cursor_ok. destruct (cards cf); [congruence|auto]. Qed.

Lemma cursor_ok_intro (l : list Card) (i : Z) (p : option string) (b : bool) :
  (l = [] -> i = 0) -> (l <> [] -> 0 <= i < PyList.len l) ->
  cursor_ok (mkCardFile l i p b).
Proof.
  unfold cursor_ok; simpl. destruct l; intros H1 H2; [auto|].
  apply H2. discriminate.
Qed.

Lemma nonempty_true (A : Type) (l : list A) : nonempty l = true <-> l <> [].
Proof. destruct l; simpl; split; congruence. Qed.

Lemma nonempty_false (A : Type) (l : list A) : nonempty l = false <-> l = [].
Proof. destruct l; simpl; split; congruence. Qed.

Lemma sort_cards_eq (w : World) :
  sort_cards w =
  if nonempty (cards (self w)) then
    match PyList.getitem (cards (self w)) (current_index (self w)) with
    | Raise e => (Raise e, w)
    | Ok c =>
        match PyList.index c (PyList.sort (cards (self w))) with
        | Ok i =>
            (Ok tt,
             with_self (mkCardFile (PyList.sort (cards (self w))) i
                          (filepath (self w)) (cf_modified (self w))) w)
        | Raise e =>
            (Raise e,
             with_self (mkCardFile (PyList.sort (cards (self w)))
                          (current_index (self w))
                          (filepath (self w)) (cf_modified (self w))) w)
        end
    end
  else (Ok tt, w).
Proof.
  unfold sort_cards, current_card. unfold_monad.
  destruct (nonempty (cards (self w))) eqn:E; [|reflexivity].
  cbn [negb]. rewrite E. cbn [negb].
  destruct (PyList.getitem _ _) as [c|e]; [|reflexivity].
  cbn [self cards]. 
  destruct (PyList.index _ _); reflexivity.
Qed.

(** [sort_cards] in a state whose cursor is in range: it returns, the
    list is sorted, and the cursor is what [index] finds for the card that
    was current. *)
Lemma sort_cards_ok (w : World) :
  cards (self w) <> [] ->
  0 <= current_index (self w) < PyList.len (cards (self w)) ->
  exists cur i,
    card_at (cards (self w)) (current_index (self w)) = Some cur
    /\ PyList.index cur (PyList.sort (cards (self w))) = Ok i
    /\ 0 <= i < PyList.len (cards (self w))
    /\ sort_cards w =
       (Ok tt, with_self (mkCardFile (PyList.sort (cards (self w))) i
                            (filepath (self w)) (cf_modified (self w))) w).
Proof.
  intros NE R.
  destruct (getitem_in_range _ _ _ R) as (cur & G & N & I).
  destruct (index_found cur (PyList.sort (cards (self w))))
    as (i & E & Ri & _); [now apply sort_in|].
  exists cur, i. rewrite sort_length in Ri.
  repeat split; try lia; auto.
  - unfold card_at. replace (_ <? 0) with false by lia. exact N.
  - rewrite sort_cards_eq, G, E.
    apply nonempty_true in NE. now rewrite NE.
Qed.

Lemma sort_cards_empty (w : World) :
  cards (self w) = [] -> sort_cards w = (Ok tt, w).
Proof.
  intros E. rewrite sort_cards_eq. apply nonempty_false in E.
  now rewrite E.
Qed.

Lemma oid_init (id : nat) (t s : string) (cr mo : datetime) :
  oid (CardM.init id t s cr mo) = id.
Proof. unfold CardM.init, CardM.post_init. now destruct (negb _). Qed.

Lemma content_init (id : nat) (t s : string) (cr mo : datetime) :
  content (CardM.init id t s cr mo) = s.
Proof. unfold CardM.init, CardM.post_init. now destruct (negb _). Qed.

Lemma created_init (id : nat) (t s : string) (cr mo : datetime) :
  created (CardM.init id t s cr mo) = cr.
Proof. unfold CardM.init, CardM.post_init. now destruct (negb _). Qed.

Lemma modified_init (id : nat) (t s : string) (cr mo : datetime) :
  modified (CardM.init id t s cr mo) = mo.
Proof. unfold CardM.init, CardM.post_init. now destruct (negb _). Qed.

Lemma new_Card_eq (t s : string) (w : World) :
  new_Card t s w = (Ok (card_made t s w), after_new_Card (self w) w).
Proof. reflexivity. Qed.

Lemma app_last_nonempty (A : Type) (l : list A) (a : A) :
  (l ++ [a])%list <> [].
Proof. destruct l; discriminate. Qed.

Lemma len_app_last (A : Type) (l : list A) (a : A) :
  PyList.len (l ++ [a])%list = PyList.len l + 1.
Proof. unfold PyList.len. rewrite length_app. simpl. lia. Qed.

Lemma cursor_ok_grow (cf : CardFile) (c : Card) :
  cursor_ok cf ->
  0 <= current_index cf < PyList.len (cards cf ++ [c])%list.
Proof.
  unfold cursor_ok. rewrite len_app_last.
  destruct (cards cf) eqn:E.
  - intros ->. unfold PyList.len. simpl. lia.
  - lia.
Qed.


Lemma add_card_unfold (t s : string) :
  add_card t s = (card <- new_Card t s ;; append_sort_select card).
Proof. reflexivity. Qed.

Lemma append_sort_select_ok (card : Card) (w : World) :
  cursor_ok (self w) ->
  exists i,
    PyList.index card (PyList.sort (cards (self w) ++ [card])) = Ok i
    /\ append_sort_select card w =
       (Ok card,
        with_self (mkCardFile (PyList.sort (cards (self w) ++ [card])) i
                     (filepath (self w)) true) w).
Proof.
  intros C.
  set (w1 := with_self (mkCardFile (cards (self w) ++ [card])
                          (current_index (self w)) (filepath (self w))
                          (cf_modified (self w))) w).
  destruct (sort_cards_ok w1) as (cur & j & _ & _ & _ & E).
  { apply app_last_nonempty. }
  { unfold w1, with_self; cbn [self cards current_index].
    apply cursor_ok_grow, C. }
  destruct (index_found card (PyList.sort (cards (self w) ++ [card])))
    as (i & Ei & _).
  { apply sort_in, in_or_app. right. now left. }
  exists i. split; [exact Ei|].
  unfold append_sort_select, bind at 1, get_self at 1.
  unfold bind at 1, set_cards, modify_self.
  fold w1. unfold bind at 1. rewrite E.
  unfold_monad. cbn [self cards filepath cf_modified current_index
                     next_oid clock ticks disk writable w1].
  rewrite Ei. reflexivity.
Qed.

Lemma heap_ok_fresh (w : World) (c : Card) :
  heap_ok w -> In c (cards (self w)) -> oid c <> next_oid w.
Proof.
  intros [_ F] I. rewrite Forall_forall in F. specialize (F c I). lia.
Qed.

(** The state [append_sort_select] leaves satisfies the invariant when the
    card appended is a new object. *)
Lemma inv_append_sort_select (w0 : World) (card : Card) (i : Z) :
  cursor_ok (self w0) ->
  NoDup (map oid (cards (self w0))) ->
  Forall (fun c => (oid c < next_oid w0)%nat) (cards (self w0)) ->
  ~ In (oid card) (map oid (cards (self w0))) ->
  (oid card < next_oid w0)%nat ->
  PyList.index card (PyList.sort (cards (self w0) ++ [card])) = Ok i ->
  inv (with_self (mkCardFile (PyList.sort (cards (self w0) ++ [card])) i
                    (filepath (self w0)) true) w0).
Proof.
  intros C ND F NI L E.
  pose proof (sort_perm (cards (self w0) ++ [card])) as P.
  unfold inv, heap_ok, with_self; cbn [self cards next_oid].
  split; [|split; [apply sort_sorted|split]].
  - apply cursor_ok_intro.
    + intros Z. apply Permutation_length in P. rewrite Z, length_app in P.
      simpl in P. lia.
    + intros _. apply index_from_spec in E. rewrite sort_length in *. lia.
  - apply (Permutation_NoDup (l := map oid (cards (self w0) ++ [card]))).
    + apply Permutation_map. now symmetry.
    + rewrite map_app. simpl.
      apply NoDup_app; [exact ND|repeat constructor; auto|].
      intros x Hx [<-|[]]. contradiction.
  - apply (Permutation_Forall (x := cards (self w0) ++ [card])).
    + now symmetry.
    + apply Forall_app. split; [exact F|]. repeat constructor. exact L.
Qed.

(** Where the cursor is after [append_sort_select]: on the first card of
    the sorted list that is the new card or equal to it, hence on the new
    card itself when the list held no card equal to it. *)
Lemma cursor_after_append (l : list Card) (card : Card) (i : Z) :
  ~ In (oid card) (map oid l) ->
  PyList.index card (PyList.sort (l ++ [card])) = Ok i ->
  0 <= i < PyList.len l + 1
  /\ exists e,
       card_at (PyList.sort (l ++ [card])) i = Some e
       /\ CardM.eqb e card = true
       /\ (forall j x, 0 <= j < i ->
             card_at (PyList.sort (l ++ [card])) j = Some x ->
             x <> card /\ CardM.eqb x card = false)
       /\ ((forall x, In x l -> CardM.eqb x card = false) -> e = card).
Proof.
  intros NI E.
  destruct (index_found card (PyList.sort (l ++ [card])))
    as (i' & E' & R & e & A & S & F).
  { apply sort_in, in_or_app. right. now left. }
  rewrite E in E'. injection E' as <-.
  rewrite sort_length, len_app_last in R. split; [exact R|].
  assert (Ie : In e l \/ e = card).
  { unfold card_at in A. destruct (i <? 0); [discriminate|].
    apply nth_error_In, sort_in, in_app_or in A.
    destruct A as [A|[A|[]]]; auto. }
  assert (Hcard : CardM.eqb card card = true).
  { unfold CardM.eqb, DT.eqb.
    rewrite !String.eqb_refl, !N.eqb_refl. reflexivity. }
  exists e. split; [exact A|].
  assert (Old : forall x, In x l -> CardM.same_or_eqb x card = CardM.eqb x card).
  { intros x Hx. unfold CardM.same_or_eqb.
    destruct (Nat.eqb_spec (oid x) (oid card)) as [Q|Q]; [|reflexivity].
    exfalso. apply NI. rewrite <- Q. now apply in_map. }
  split; [|split].
  - destruct Ie as [Ie| ->]; [|exact Hcard]. now rewrite <- (Old e Ie).
  - intros j x Hj Hx. specialize (F j x Hj Hx).
    assert (Ix : In x l \/ x = card).
    { unfold card_at in Hx. destruct (j <? 0); [discriminate|].
      apply nth_error_In, sort_in, in_app_or in Hx.
      destruct Hx as [Hx|[Hx|[]]]; auto. }
    destruct Ix as [Ix| ->].
    + rewrite (Old x Ix) in F. split; [|exact F].
      intros ->. congruence.
    + rewrite same_or_eqb_refl in F. discriminate.
  - intros N. destruct Ie as [Ie|Ie]; [|exact Ie].
    rewrite (Old e Ie), (N e Ie) in S. discriminate.
Qed.

Lemma inv_frame (w w' : World) :
  inv w -> self w' = self w -> (next_oid w <= next_oid w')%nat -> inv w'.
Proof.
  unfold inv, heap_ok. intros (C & S & ND & F) E L. rewrite E.
  repeat split; auto.
  eapply Forall_impl; [|exact F]. intros c Hc. simpl in Hc. lia.
Qed.

Lemma add_card_ok (t s : string) (w : World) :
  inv w ->
  exists i,
    PyList.index (card_made t s w)
      (PyList.sort (cards (self w) ++ [card_made t s w])) = Ok i
    /\ add_card t s w =
       (Ok (card_made t s w),
        after_new_Card
          (mkCardFile (PyList.sort (cards (self w) ++ [card_made t s w])) i
             (filepath (self w)) true) w)
    /\ inv (after_new_Card
              (mkCardFile
                 (PyList.sort (cards (self w) ++ [card_made t s w])) i
                 (filepath (self w)) true) w).
Proof.
  intros (C & S & ND & F).
  destruct (append_sort_select_ok (card_made t s w)
              (after_new_Card (self w) w) C) as (i & Ei & E).
  exists i. split; [exact Ei|]. split.
  - rewrite add_card_unfold. unfold bind. rewrite new_Card_eq. exact E.
  - apply (inv_append_sort_select (after_new_Card (self w) w)); auto.
    + eapply Forall_impl; [|exact F]. intros c Hc. simpl in *. lia.
    + unfold card_made. rewrite oid_init. intros I.
      apply in_map_iff in I as (c & Q & I).
      rewrite Forall_forall in F. specialize (F c I). lia.
    + unfold card_made. rewrite oid_init. simpl. lia.
Qed.

Lemma delete_card_eq (index : option Z) (w : World) :
  delete_card index w =
  let cf := self w in
  let idx := match index with Some i => i | None => current_index cf end in
  if nonempty (cards cf) && (0 <=? idx) && (idx <? PyList.len (cards cf))
  then
    let l := PyList.delitem (cards cf) idx in
    (Ok true,
     with_self (mkCardFile l
                  (if nonempty l
                   then Z.min (current_index cf) (PyList.len l - 1) else 0)
                  (filepath cf) true) w)
  else (Ok false, w).
Proof.
  unfold delete_card. unfold_monad. cbv zeta.
  destruct (nonempty (cards (self w))); [|reflexivity]. cbn [negb andb].
  destruct ((0 <=? _) && _); [|reflexivity].
  cbn [self cards current_index filepath cf_modified].
  destruct (nonempty _); reflexivity.
Qed.

Lemma map_remove_nth (A B : Type) (f : A -> B) (n : nat) : forall l : list A,
  map f (PyList.remove_nth n l) = PyList.remove_nth n (map f l).
Proof.
  induction n as [|n IH]; intros [|x l]; simpl; auto.
  now rewrite IH.
Qed.

Lemma remove_nth_NoDup (A : Type) (n : nat) : forall l : list A,
  NoDup l -> NoDup (PyList.remove_nth n l).
Proof.
  induction n as [|n IH]; intros [|x l] H; simpl; auto.
  - now inversion H.
  - inversion H; subst. constructor; [|now apply IH].
    intros I. now apply remove_nth_incl in I.
Qed.

Lemma delete_card_ok (index : option Z) (w : World) :
  inv w -> exists b w', delete_card index w = (Ok b, w') /\ inv w'.
Proof.
  intros I. rewrite delete_card_eq. cbv zeta.
  destruct (nonempty _ && _ && _) eqn:G; [|eauto].
  eexists; eexists. split; [reflexivity|].
  destruct I as (C & S & ND & F).
  apply andb_true_iff in G as [G G3]. apply andb_true_iff in G as [G1 G2].
  apply nonempty_true in G1.
  pose proof (cursor_ok_range _ C G1) as R.
  unfold inv, heap_ok, with_self, PyList.delitem;
    cbn [self cards next_oid current_index].
  split; [|split; [|split]].
  - apply cursor_ok_intro.
    + intros ->. reflexivity.
    + intros NE. apply nonempty_true in NE. rewrite NE.
      assert (0 < PyList.len (PyList.remove_nth
                (Z.to_nat match index with
                          | Some i => i
                          | None => current_index (self w)
                          end) (cards (self w)))).
      { unfold PyList.len. destruct (PyList.remove_nth _ _);
          [discriminate|simpl; lia]. }
      lia.
  - now apply remove_nth_sorted.
  - rewrite map_remove_nth. now apply remove_nth_NoDup.
  - rewrite Forall_forall in *. intros c Hc. apply F.
    eapply remove_nth_incl, Hc.
Qed.

Lemma duplicate_tail_eq (nc : Card) (w : World) :
  (cf1 <- get_self ;;
   set_cards (cards cf1 ++ [nc]) ;;
   sort_cards ;;
   cf2 <- get_self ;;
   i <- lift (PyList.index nc (cards cf2)) ;;
   set_current_index i ;;
   set_modified true ;;
   ret (Some nc)) w
  = match append_sort_select nc w with
    | (Ok c, w') => (Ok (Some c), w')
    | (Raise e, w') => (Raise e, w')
    end.
Proof.
  unfold append_sort_select. unfold_monad.
  destruct (sort_cards _) as [[u|e] w1]; [|reflexivity].
  destruct (PyList.index nc (cards (self w1))); reflexivity.
Qed.

Lemma duplicate_card_noop (index : option Z) (w : World) :
  cards (self w) = [] \/ ~ (0 <= target index w < PyList.len (cards (self w))) ->
  duplicate_card index w = (Ok None, w).
Proof.
  unfold duplicate_card, target. unfold bind at 1, get_self at 1.
  intros [E|R].
  - rewrite E. reflexivity.
  - destruct (nonempty (cards (self w))); [|reflexivity]. cbn [negb].
    replace ((0 <=? _) && _) with false by lia. reflexivity.
Qed.

Lemma duplicate_card_ok (index : option Z) (w : World) :
  inv w ->
  0 <= target index w < PyList.len (cards (self w)) ->
  exists original i,
    card_at (cards (self w)) (target index w) = Some original
    /\ In original (cards (self w))
    /\ let nc := card_made (title original ++ " (Copy)")%string
                   (content original) w in
       PyList.index nc (PyList.sort (cards (self w) ++ [nc])) = Ok i
       /\ duplicate_card index w =
          (Ok (Some nc),
           after_new_Card
             (mkCardFile (PyList.sort (cards (self w) ++ [nc])) i
                (filepath (self w)) true) w)
       /\ inv (after_new_Card
                 (mkCardFile (PyList.sort (cards (self w) ++ [nc])) i
                    (filepath (self w)) true) w).
Proof.
  intros (C & S & ND & F) R.
  destruct (getitem_in_range _ _ _ R) as (original & G & N & I).
  set (nc := card_made (title original ++ " (Copy)")%string
               (content original) w).
  destruct (append_sort_select_ok nc (after_new_Card (self w) w) C)
    as (i & Ei & E).
  exists original, i. split; [|split; [exact I|]].
  { unfold card_at. replace (_ <? 0) with false by lia. exact N. }
  cbv zeta. fold nc. split; [exact Ei|]. split.
  - unfold duplicate_card, target in *. unfold bind at 1, get_self at 1.
    assert (NE : nonempty (cards (self w)) = true).
    { unfold PyList.len in R. destruct (cards (self w)); [simpl in R; lia|].
      reflexivity. }
    rewrite NE. cbn [negb].
    replace ((0 <=? _) && _) with true by lia.
    unfold bind at 1, lift at 1. rewrite G.
    unfold bind at 1. rewrite new_Card_eq. fold nc.
    rewrite duplicate_tail_eq, E. reflexivity.
  - apply (inv_append_sort_select (after_new_Card (self w) w)); auto.
    + eapply Forall_impl; [|exact F]. intros c Hc. simpl in *. lia.
    + unfold nc, card_made. rewrite oid_init. intros J.
      apply in_map_iff in J as (c & Q & J).
      rewrite Forall_forall in F. specialize (F c J). lia.
    + unfold nc, card_made. rewrite oid_init. simpl. lia.
Qed.

Lemma duplicate_card_total (index : option Z) (w : World) :
  inv w -> exists r w', duplicate_card index w = (Ok r, w') /\ inv w'.
Proof.
  intros I.
  destruct (Z_le_dec 0 (target index w)) as [L|L];
    [destruct (Z_lt_dec (target index w) (PyList.len (cards (self w))))
       as [U|U]|].
  - destruct (duplicate_card_ok index w I (conj L U))
      as (o & i & _ & _ & H). cbv zeta in H. destruct H as (_ & E & J).
    eauto.
  - rewrite duplicate_card_noop by (right; lia). eauto.
  - rewrite duplicate_card_noop by (right; lia). eauto.
Qed.

(** ** Navigation, search and the file operations *)

Lemma navigate_to_eq (index : Z) (w : World) :
  navigate_to index w =
  if (0 <=? index) && (index <? PyList.len (cards (self w)))
  then (Ok true,
        with_self (mkCardFile (cards (self w)) index (filepath (self w))
                     (cf_modified (self w))) w)
  else (Ok false, w).
Proof.
  unfold navigate_to. unfold_monad. now destruct (_ && _).
Qed.

Lemma navigate_next_eq (w : World) :
  navigate_next w =
  if current_index (self w) <? PyList.len (cards (self w)) - 1
  then (Ok true,
        with_self (mkCardFile (cards (self w)) (current_index (self w) + 1)
                     (filepath (self w)) (cf_modified (self w))) w)
  else (Ok false, w).
Proof.
  unfold navigate_next. unfold_monad. now destruct (_ <? _).
Qed.

Lemma navigate_previous_eq (w : World) :
  navigate_previous w =
  if current_index (self w) >? 0
  then (Ok true,
        with_self (mkCardFile (cards (self w)) (current_index (self w) - 1)
                     (filepath (self w)) (cf_modified (self w))) w)
  else (Ok false, w).
Proof.
  unfold navigate_previous. unfold_monad. now destruct (_ >? _).
Qed.

Lemma search_eq (query : string) (search_content : bool) (w : World) :
  search query search_content w =
  (Ok (search_loop (Str.lower query) search_content 0 (cards (self w))), w).
Proof. reflexivity. Qed.

Lemma find_next_eq (query : string) (from_index : Z) (w : World) :
  find_next query from_index w =
  (Ok (let results :=
         search_loop (Str.lower query) true 0 (cards (self w)) in
       match first_where (fun idx => idx >? from_index) results with
       | Some idx => Some idx
       | None => first_where (fun idx => idx <=? from_index) results
       end), w).
Proof.
  unfold find_next, bind. rewrite search_eq. cbv zeta.
  destruct (first_where _ _); [reflexivity|].
  destruct (first_where _ _); reflexivity.
Qed.

Lemma inv_move (w : World) (i : Z) :
  inv w -> 0 <= i < PyList.len (cards (self w)) ->
  inv (with_self (mkCardFile (cards (self w)) i (filepath (self w))
                    (cf_modified (self w))) w).
Proof.
  intros (C & S & H) R. unfold inv, heap_ok, with_self in *.
  cbn [self cards next_oid]. repeat split; try tauto.
  apply cursor_ok_intro; [|auto].
  intros E. rewrite E in R. unfold PyList.len in R. simpl in R. lia.
Qed.

Lemma navigate_to_ok (index : Z) (w : World) :
  inv w -> exists b w', navigate_to index w = (Ok b, w') /\ inv w'.
Proof.
  intros I. rewrite navigate_to_eq.
  destruct (_ && _) eqn:G; [|eauto].
  eexists; eexists. split; [reflexivity|]. apply inv_move; [exact I|lia].
Qed.

Lemma navigate_next_ok (w : World) :
  inv w -> exists b w', navigate_next w = (Ok b, w') /\ inv w'.
Proof.
  intros I. rewrite navigate_next_eq.
  destruct (_ <? _) eqn:G; [|eauto].
  eexists; eexists. split; [reflexivity|]. apply inv_move; [exact I|].
  destruct I as (C & _). unfold cursor_ok in C.
  destruct (cards (self w)) eqn:E; [|lia].
  rewrite C in G. unfold PyList.len in G. simpl in G. lia.
Qed.

Lemma navigate_previous_ok (w : World) :
  inv w -> exists b w', navigate_previous w = (Ok b, w') /\ inv w'.
Proof.
  intros I. rewrite navigate_previous_eq.
  destruct (_ >? _) eqn:G; [|eauto].
  eexists; eexists. split; [reflexivity|]. apply inv_move; [exact I|].
  destruct I as (C & _). unfold cursor_ok in C.
  destruct (cards (self w)) eqn:E; lia.
Qed.

Lemma new_file_eq (w : World) :
  new_file w = (Ok tt, with_self empty_cardfile w).
Proof. reflexivity. Qed.

Lemma inv_empty (w : World) : inv (with_self empty_cardfile w).
Proof.
  unfold inv, heap_ok, cursor_ok, title_sorted; simpl.
  repeat split; constructor.
Qed.

Lemma save_to_file_ok (path : option string) (w : World) :
  inv w -> exists b w', save_to_file path w = (Ok b, w') /\ inv w'.
Proof.
  intros I. unfold save_to_file. unfold bind at 1, get_self at 1.
  destruct (match path with Some p => Some p | None => filepath (self w) end)
    as [p|]; [|unfold ret; eauto].
  unfold write_json. unfold_monad.
  destruct (writable w p); (eexists; eexists; split; [reflexivity|]);
    [|exact I].
  destruct I as (C & S & H). unfold inv, heap_ok, cursor_ok in *.
  cbn [self cards next_oid current_index]. auto.
Qed.

(** ** Loading *)

Lemma timestamp_field_frame (k : string) (d : list (string * json))
  (w : World) :
  exists r w', timestamp_field k d w = (r, w')
    /\ self w' = self w /\ next_oid w' = next_oid w.
Proof.
  unfold timestamp_field.
  destruct (Json.lookup k d) as [[]|]; unfold_monad; eauto.
Qed.

(** [from_dict] never touches the collection; when it returns, the card
    is a new object. *)
Lemma from_dict_frame (data : json) (w : World) :
  exists r w', from_dict data w = (r, w')
    /\ self w' = self w
    /\ (next_oid w <= next_oid w')%nat
    /\ forall c, r = Ok c -> oid c = next_oid w /\ next_oid w' = S (next_oid w).
Proof.
  unfold from_dict.
  destruct data as [| | | | |d];
    try (eexists; eexists; split; [reflexivity|];
         repeat split; auto; discriminate).
  cbv zeta. unfold bind at 1.
  destruct (timestamp_field_frame "created" d w) as (r1 & w1 & -> & S1 & N1).
  destruct r1 as [cr|e].
  2:{ eexists; eexists; split; [reflexivity|].
      repeat split; auto; try lia; discriminate. }
  unfold bind at 1.
  destruct (timestamp_field_frame "modified" d w1) as (r2 & w2 & -> & S2 & N2).
  destruct r2 as [mo|e].
  2:{ eexists; eexists; split; [reflexivity|].
      repeat split; try congruence; try lia; discriminate. }
  unfold bind, alloc.
  destruct (Json.get "title" _ d) as [| | |t| |];
    try (eexists; eexists; split; [reflexivity|]; cbn [self next_oid];
         repeat split; try congruence; try lia; discriminate).
  destruct (Json.get "content" _ d) as [| | |s| |];
    try (eexists; eexists; split; [reflexivity|]; cbn [self next_oid];
         repeat split; try congruence; try lia; discriminate).
  eexists; eexists; split; [reflexivity|]. cbn [self next_oid].
  split; [congruence|]. split; [lia|].
  intros c [= <-]. rewrite oid_init. split; congruence.
Qed.

Lemma map_M_from_dict_frame (records : list json) : forall w : World,
  exists r w', map_M from_dict records w = (r, w')
    /\ self w' = self w
    /\ (next_oid w <= next_oid w')%nat
    /\ forall l, r = Ok l ->
         NoDup (map oid l)
         /\ Forall (fun c => (next_oid w <= oid c < next_oid w')%nat) l.
Proof.
  induction records as [|x records IH]; intros w; simpl.
  - eexists; eexists; split; [reflexivity|].
    split; [reflexivity|]. split; [lia|].
    intros l [= <-]. split; constructor.
  - unfold bind at 1.
    destruct (from_dict_frame x w) as (r1 & w1 & -> & S1 & N1 & O1).
    destruct r1 as [c|e].
    2:{ eexists; eexists; split; [reflexivity|].
        repeat split; auto; discriminate. }
    destruct (O1 c eq_refl) as [Oc Nc].
    unfold bind at 1.
    destruct (IH w1) as (r2 & w2 & -> & S2 & N2 & O2).
    destruct r2 as [l|e].
    2:{ eexists; eexists; split; [reflexivity|].
        repeat split; try congruence; try lia; discriminate. }
    destruct (O2 l eq_refl) as [ND F].
    eexists; eexists; split; [reflexivity|].
    split; [congruence|]. split; [lia|].
    intros l' [= <-]. simpl. split.
    + constructor; [|exact ND]. intros I.
      apply in_map_iff in I as (c' & Q & I).
      rewrite Forall_forall in F. specialize (F c' I). lia.
    + constructor; [lia|].
      eapply Forall_impl; [|exact F]. intros c' Hc'. simpl in Hc'. lia.
Qed.

Lemma load_from_file_eq (path : string) (w : World) :
  load_from_file path w =
  match records_of path w with
  | Raise _ => (Ok false, w)
  | Ok records =>
      match map_M from_dict records w with
      | (Raise _, w1) => (Ok false, w1)
      | (Ok loaded, w1) =>
          match sort_cards
                  (with_self (mkCardFile loaded 0 (Some path) false) w1) with
          | (Ok _, w2) => (Ok true, w2)
          | (Raise _, w2) => (Ok false, w2)
          end
      end
  end.
Proof.
  unfold load_from_file, records_of, try_except, read_json.
  unfold bind at 1.
  destruct (disk w path) as [| |j]; try reflexivity.
  unfold bind at 1.
  destruct j as [| | | | |d]; try reflexivity.
  unfold lift at 1.
  destruct (Json.iterate _) as [records|e]; [|reflexivity].
  unfold bind at 1.
  destruct (map_M from_dict records w) as [[loaded|e] w1]; [|reflexivity].
  unfold_monad. cbn [self cards current_index filepath cf_modified
                     next_oid clock ticks disk writable].
  destruct (sort_cards _) as [[u|e] w2]; reflexivity.
Qed.

(** The two ways [load_from_file] ends.  Either it returns [False] and
    the collection is as before; or every record was read, and it returns
    [True] with the cards read, sorted, the cursor on what [index] finds
    for the first card read, the path stored and the dirty flag cleared. *)
Lemma load_from_file_cases (path : string) (w : World) :
  (exists w', load_from_file path w = (Ok false, w')
     /\ self w' = self w /\ (next_oid w <= next_oid w')%nat
     /\ load_fails path w)
  \/ (exists records loaded w1 i,
        records_of path w = Ok records
        /\ map_M from_dict records w = (Ok loaded, w1)
        /\ load_from_file path w =
           (Ok true,
            with_self (mkCardFile (PyList.sort loaded) i (Some path) false)
              w1)
        /\ self w1 = self w
        /\ NoDup (map oid loaded)
        /\ Forall (fun c => (oid c < next_oid w1)%nat) loaded
        /\ match loaded with
           | [] => i = 0
           | first :: _ =>
               PyList.index first (PyList.sort loaded) = Ok i
               /\ 0 <= i < PyList.len loaded
           end).
Proof.
  rewrite load_from_file_eq. unfold load_fails.
  destruct (records_of path w) as [records|e].
  2:{ left. eexists. split; [reflexivity|]. repeat split; auto. }
  destruct (map_M_from_dict_frame records w) as (r & w1 & E & S1 & N1 & O1).
  rewrite E. destruct r as [loaded|e].
  2:{ left. eexists. split; [reflexivity|]. repeat split; auto. }
  destruct (O1 loaded eq_refl) as [ND F].
  right.
  assert (F' : Forall (fun c => (oid c < next_oid w1)%nat) loaded).
  { eapply Forall_impl; [|exact F]. intros c Hc. simpl in Hc. lia. }
  destruct loaded as [|first rest].
  - exists records, [], w1, 0.
    split; [reflexivity|]. split; [exact E|]. split; [|auto].
    rewrite sort_cards_empty by reflexivity. reflexivity.
  - set (w2 := with_self (mkCardFile (first :: rest) 0 (Some path) false) w1).
    destruct (sort_cards_ok w2) as (cur & i & A & Ei & Ri & Es).
    { discriminate. }
    { unfold w2, with_self, PyList.len; simpl. lia. }
    assert (cur = first) by (unfold w2, with_self, card_at in A; simpl in A;
                             congruence).
    subst cur.
    exists records, (first :: rest), w1, i.
    split; [reflexivity|]. split; [exact E|]. split.
    + rewrite Es. reflexivity.
    + repeat split; auto; unfold w2, with_self in Ri; simpl in Ri; lia.
Qed.

(** [sort_cards] needs only a cursor in range to return, and establishes
    the whole invariant. *)
Lemma sort_cards_inv (w : World) :
  cursor_ok (self w) -> heap_ok w ->
  exists w', sort_cards w = (Ok tt, w') /\ inv w'
    /\ cards (self w') = PyList.sort (cards (self w))
    /\ filepath (self w') = filepath (self w)
    /\ cf_modified (self w') = cf_modified (self w)
    /\ next_oid w' = next_oid w.
Proof.
  intros C [ND F].
  destruct (cards (self w)) as [|x l] eqn:E.
  - exists w. rewrite sort_cards_empty by exact E.
    unfold inv, heap_ok, title_sorted. rewrite E.
    repeat split; auto; constructor.
  - assert (NE : cards (self w) <> []) by (rewrite E; discriminate).
    destruct (sort_cards_ok w NE (cursor_ok_range _ C NE))
      as (cur & i & _ & Ei & Ri & Es).
    eexists. split; [exact Es|].
    rewrite <- E in *. clear E.
    pose proof (sort_perm (cards (self w))) as P.
    unfold inv, heap_ok, with_self; cbn [self cards next_oid filepath
                                           cf_modified].
    split; [|repeat split; reflexivity].
    split; [|split; [apply sort_sorted|split]].
    + apply cursor_ok_intro; rewrite ?sort_length; auto.
      intros Z. apply Permutation_length in P. rewrite Z in P.
      destruct (cards (self w)); [congruence|discriminate].
    + apply (Permutation_NoDup (l := map oid (cards (self w)))); auto.
      apply Permutation_map. now symmetry.
    + apply (Permutation_Forall (x := cards (self w))); auto.
      now symmetry.
Qed.

Lemma load_from_file_ok (path : string) (w : World) :
  inv w -> exists b w', load_from_file path w = (Ok b, w') /\ inv w'.
Proof.
  intros I.
  destruct (load_from_file_cases path w)
    as [(w' & E & S & N & _)
       |(records & loaded & w1 & i & _ & _ & E & S1 & ND & F & Hi)].
  - exists false, w'. split; [exact E|]. eapply inv_frame; eauto.
  - eexists; eexists. split; [exact E|].
    pose proof (sort_perm loaded) as P.
    unfold inv, heap_ok, with_self; cbn [self cards next_oid].
    split; [|split; [apply sort_sorted|split]].
    + apply cursor_ok_intro; rewrite ?sort_length.
      * intros Z. apply Permutation_length in P. rewrite Z in P.
        destruct loaded; [exact Hi|discriminate].
      * intros NE. destruct loaded; [|tauto]. simpl in NE. congruence.
    + apply (Permutation_NoDup (l := map oid loaded)); auto.
      apply Permutation_map. now symmetry.
    + apply (Permutation_Forall (x := loaded)); auto. now symmetry.
Qed.

(** ** Editing *)

Lemma map_oid_update_object (id : nat) (f : Card -> Card) (l : list Card) :
  (forall c, oid (f c) = oid c) ->
  map oid (update_object id f l) = map oid l.
Proof.
  intros H. unfold update_object. rewrite map_map. apply map_ext.
  intros c. destruct (Nat.eqb _ _); auto.
Qed.

Lemma update_object_length (id : nat) (f : Card -> Card) (l : list Card) :
  PyList.len (update_object id f l) = PyList.len l.
Proof. unfold PyList.len, update_object. now rewrite length_map. Qed.

Lemma edit_card_ok (new_title new_content : string) (w : World) :
  inv w -> exists w', edit_card new_title new_content w = (Ok tt, w') /\ inv w'.
Proof.
  intros I. pose proof I as (C & _ & ND & F).
  unfold edit_card, current_card. unfold bind at 1. unfold bind at 1.
  unfold get_self at 1.
  destruct (nonempty (cards (self w))) eqn:NE; cbn [negb].
  2:{ exists w. split; [reflexivity|exact I]. }
  - apply nonempty_true in NE.
    pose proof (cursor_ok_range _ C NE) as R.
    destruct (getitem_in_range _ _ _ R) as (card & G & _ & _).
    unfold bind at 1, lift at 1. rewrite G.
    unfold bind at 1, ret at 1.
    unfold_monad.
    cbn [self cards current_index filepath cf_modified next_oid clock ticks
         disk writable].
    match goal with
    | |- context [sort_cards ?w0] =>
        destruct (sort_cards_inv w0) as (w' & Es & I' & _)
    end.
    + apply cursor_ok_intro; cbn [self cards current_index];
        rewrite ?update_object_length; [|auto].
      intros Z. exfalso. apply NE.
      unfold update_object in Z.
      apply map_eq_nil in Z. apply map_eq_nil in Z. exact Z.
    + unfold heap_ok. cbn [self cards next_oid].
      assert (Hm : map oid
                (update_object (oid card)
                   (CardM.update_content new_content
                      (clock w (S (ticks w))))
                   (update_object (oid card)
                      (CardM.update_title new_title (clock w (ticks w)))
                      (cards (self w))))
              = map oid (cards (self w))).
      { rewrite !map_oid_update_object; auto. }
      split; [rewrite Hm; exact ND|].
      rewrite Forall_forall in *. intros c Hc.
      apply (in_map oid) in Hc. rewrite Hm in Hc.
      apply in_map_iff in Hc as (c' & Q & Hc'). rewrite <- Q. auto.
    + exists w'. rewrite Es. split; [reflexivity|exact I'].
Qed.

(** ** Sequences of calls *)

Lemma inv_init (clk : nat -> datetime) (dsk : string -> file)
  (wr : string -> bool) : inv (init_world clk dsk wr).
Proof. apply (inv_empty (init_world clk dsk wr)). Qed.

Lemma drop_result (A : Type) (m : M A) (w : World) :
  (exists a w', m w = (Ok a, w') /\ inv w') ->
  exists w', (m ;; ret tt) w = (Ok tt, w') /\ inv w'.
Proof.
  intros (a & w' & E & I). exists w'. unfold bind. rewrite E. auto.
Qed.

(** From a state that satisfies the invariant every call returns (none
    raises) and the invariant holds again. *)
Lemma exec_ok (o : op) (w : World) :
  inv w -> exists w', exec o w = (Ok tt, w') /\ inv w'.
Proof.
  intros I. destruct o; simpl.
  - apply drop_result.
    destruct (add_card_ok t s w I) as (i & _ & E & J). eauto.
  - apply drop_result, delete_card_ok, I.
  - apply drop_result, duplicate_card_total, I.
  - destruct I as (C & S & H).
    destruct (sort_cards_inv w C H) as (w' & E & J & _). eauto.
  - apply drop_result, navigate_to_ok, I.
  - apply drop_result, navigate_next_ok, I.
  - apply drop_result, navigate_previous_ok, I.
  - apply drop_result. rewrite search_eq. eauto.
  - apply drop_result. rewrite find_next_eq. eauto.
  - rewrite new_file_eq. eexists. split; [reflexivity|apply inv_empty].
  - apply drop_result, save_to_file_ok, I.
  - apply drop_result, load_from_file_ok, I.
  - apply edit_card_ok, I.
Qed.

Lemma run_ok (ops : list op) : forall w : World,
  inv w -> exists w', run ops w = (Ok tt, w') /\ inv w'.
Proof.
  induction ops as [|o ops IH]; intros w I; simpl.
  - exists w. split; [reflexivity|exact I].
  - destruct (exec_ok o w I) as (w1 & E & I1).
    destruct (IH w1 I1) as (w2 & E2 & I2).
    exists w2. unfold bind. rewrite E. auto.
Qed.

(** Every state a caller can bring about satisfies the invariant. *)
Lemma inv_reached (clk : nat -> datetime) (dsk : string -> file)
  (wr : string -> bool) (ops : list op) :
  inv (snd (run ops (init_world clk dsk wr))).
Proof.
  destruct (run_ok ops _ (inv_init clk dsk wr)) as (w' & E & I).
  now rewrite E.
Qed.



(** ** Load failure *)


(** A load that stops at the second record: the first card read is
    dropped, and the collection still holds its one card, its path and its
    dirty flag. *)
Lemma load_bad_timestamp :
  exists w', load_from_file "bad.crd" world_with_bad_file = (Ok false, w')
    /\ self w' = self world_with_bad_file
    /\ next_oid w' = 9%nat.
Proof. eexists. split; [reflexivity|]. split; reflexivity. Qed.

Lemma load_not_json :
  load_from_file "garbage.crd" world_with_bad_file
  = (Ok false, world_with_bad_file).
Proof. reflexivity. Qed.

Lemma load_missing_file :
  load_from_file "/nonexistent" world_with_bad_file
  = (Ok false, world_with_bad_file).
Proof. reflexivity. Qed.

(** ** Searching *)

Lemma prefix_iff (a : string) : forall b : string,
  prefix a b = true <-> exists post, b = (a ++ post)%string.
Proof.
  induction a as [|x a IH]; intros b.
  - split; [intros _; now exists b|]. intros _. destruct b; reflexivity.
  - destruct b as [|y b]; simpl.
    + split; [discriminate|]. intros [post H]. discriminate.
    + destruct (ascii_dec x y) as [->|N].
      * rewrite IH. split; intros [post H]; exists post; congruence.
      * split; [discriminate|]. intros [post H]. congruence.
Qed.

Lemma contains_iff (needle : string) : forall hay : string,
  Str.contains needle hay = true <-> Substring needle hay.
Proof.
  unfold Substring.
  induction hay as [|c hay IH].
  - change (Str.contains needle EmptyString)
      with (prefix needle EmptyString || false).
    rewrite orb_true_iff, prefix_iff. split.
    + intros [[post H]|H]; [|discriminate]. now exists EmptyString, post.
    + intros (pre & post & H). left.
      destruct pre; [now exists post|discriminate].
  - change (Str.contains needle (String c hay))
      with (prefix needle (String c hay) || Str.contains needle hay).
    rewrite orb_true_iff, prefix_iff, IH. split.
    + intros [[post H]|(pre & post & H)].
      * now exists EmptyString, post.
      * exists (String c pre), post. simpl. now rewrite H.
    + intros (pre & post & H). destruct pre as [|x pre]; simpl in H.
      * left. now exists post.
      * right. exists pre, post. congruence.
Qed.

Lemma contains_empty (hay : string) : Str.contains EmptyString hay = true.
Proof. destruct hay; reflexivity. Qed.

Lemma search_loop_cons (query : string) (sc : bool) (i : Z) (c : Card)
  (l : list Card) :
  search_loop query sc i (c :: l)
  = if keeps query sc c then i :: search_loop query sc (i + 1) l
    else search_loop query sc (i + 1) l.
Proof.
  unfold keeps. simpl.
  destruct (Str.contains query (Str.lower (title c))); [reflexivity|].
  destruct (sc && _); reflexivity.
Qed.

Lemma search_loop_in (query : string) (sc : bool) (l : list Card) :
  forall (k i : Z),
  In i (search_loop query sc k l) <->
  k <= i /\ exists c, nth_error l (Z.to_nat (i - k)) = Some c
                      /\ keeps query sc c = true.
Proof.
  induction l as [|c l IH]; intros k i.
  - simpl. split; [tauto|]. intros (_ & c & H & _).
    destruct (Z.to_nat (i - k)); discriminate.
  - rewrite search_loop_cons.
    assert (Step : In i (search_loop query sc (k + 1) l) <->
                   k < i /\ exists c', nth_error (c :: l) (Z.to_nat (i - k))
                                       = Some c'
                                       /\ keeps query sc c' = true).
    { rewrite IH. split.
      - intros (L & c' & N & K). split; [lia|]. exists c'. split; [|exact K].
        replace (Z.to_nat (i - k)) with (S (Z.to_nat (i - (k + 1)))) by lia.
        exact N.
      - intros (L & c' & N & K). split; [lia|]. exists c'. split; [|exact K].
        replace (Z.to_nat (i - k)) with (S (Z.to_nat (i - (k + 1)))) in N
          by lia.
        exact N. }
    destruct (keeps query sc c) eqn:K.
    + simpl. rewrite Step. split.
      * intros [<-|(L & H)]; [|split; [lia|exact H]].
        split; [lia|]. exists c. rewrite Z.sub_diag. auto.
      * intros (L & c' & N & K').
        destruct (Z.eq_dec k i) as [E|E]; [now left|right].
        split; [lia|]. eauto.
    + rewrite Step. split.
      * intros (L & H). split; [lia|exact H].
      * intros (L & c' & N & K').
        destruct (Z.eq_dec k i) as [E|E]; [|split; [lia|eauto]].
        subst i. rewrite Z.sub_diag in N. simpl in N. congruence.
Qed.

Lemma search_loop_increasing (query : string) (sc : bool) (l : list Card) :
  forall k : Z, StronglySorted Z.lt (search_loop query sc k l).
Proof.
  induction l as [|c l IH]; intros k; [constructor|].
  rewrite search_loop_cons.
  destruct (keeps query sc c); [|apply IH].
  constructor; [apply IH|].
  apply Forall_forall. intros i Hi. apply search_loop_in in Hi. lia.
Qed.

Lemma search_loop_all (sc : bool) (l : list Card) : forall k : nat,
  search_loop EmptyString sc (Z.of_nat k) l
  = map Z.of_nat (seq k (List.length l)).
Proof.
  induction l as [|c l IH]; intros k; [reflexivity|].
  rewrite search_loop_cons. unfold keeps. rewrite contains_empty.
  simpl. f_equal. rewrite <- IH. f_equal. lia.
Qed.

Lemma card_at_nth (l : list Card) (i : Z) (c : Card) :
  card_at l i = Some c <-> 0 <= i /\ nth_error l (Z.to_nat i) = Some c.
Proof.
  unfold card_at. destruct (Z.ltb_spec i 0); split.
  - discriminate.
  - lia.
  - auto.
  - tauto.
Qed.

(** C7: [search] returns without changing anything.  An index is in the
    result exactly when it is the position of a card whose lower-cased
    title contains the lower-cased query, or, with [search_content] set,
    whose lower-cased content does.  The result is strictly increasing,
    so it follows the list and repeats nothing.  The empty query finds
    every position.  Without [search_content] every index found has the
    query in its title. *)
Theorem C7_search (query : string) (search_content : bool) (w : World) :
  exists results titles_only,
    search query search_content w = (Ok results, w)
    /\ (forall i, In i results <->
          exists c, card_at (cards (self w)) i = Some c
            /\ (Substring (Str.lower query) (Str.lower (title c))
                \/ (search_content = true
                    /\ Substring (Str.lower query) (Str.lower (content c)))))
    /\ StronglySorted Z.lt results
    /\ search "" search_content w
       = (Ok (positions (List.length (cards (self w)))), w)
    /\ search query false w = (Ok titles_only, w)
    /\ (forall i, In i titles_only ->
          exists c, card_at (cards (self w)) i = Some c
            /\ Substring (Str.lower query) (Str.lower (title c))).
Proof.
  assert (Char : forall sc i,
    In i (search_loop (Str.lower query) sc 0 (cards (self w))) <->
    exists c, card_at (cards (self w)) i = Some c
      /\ (Substring (Str.lower query) (Str.lower (title c))
          \/ (sc = true
              /\ Substring (Str.lower query) (Str.lower (content c))))).
  { intros sc i. rewrite search_loop_in, Z.sub_0_r. unfold keeps.
    split.
    - intros (L & c & N & K). exists c. split; [now apply card_at_nth|].
      apply orb_true_iff in K as [K|K]; [left; now apply contains_iff|].
      apply andb_true_iff in K as [-> K]. right. split; [reflexivity|].
      now apply contains_iff.
    - intros (c & A & H). apply card_at_nth in A as [L N].
      split; [exact L|]. exists c. split; [exact N|].
      apply orb_true_iff. destruct H as [H|[-> H]].
      + left. now apply contains_iff.
      + right. simpl. now apply contains_iff. }
  eexists; eexists. split; [apply search_eq|].
  split; [apply Char|].
  split; [apply search_loop_increasing|].
  split; [rewrite search_eq; do 2 f_equal;
          apply (search_loop_all search_content (cards (self w)) 0)|].
  split; [apply search_eq|].
  intros i Hi. apply Char in Hi as (c & A & [H|[H _]]); [eauto|discriminate].
Qed.

(** ** find_next *)

Lemma first_where_some (test : Z -> bool) (l : list Z) (j : Z) :
  first_where test l = Some j ->
  exists pre post, l = pre ++ j :: post /\ test j = true
    /\ Forall (fun i => test i = false) pre.
Proof.
  induction l as [|x l IH]; simpl; [discriminate|].
  destruct (test x) eqn:T.
  - intros [= <-]. exists [], l. repeat split; auto.
  - intros H. destruct (IH H) as (pre & post & -> & Tj & F).
    exists (x :: pre), post. repeat split; auto.
Qed.

Lemma first_where_none (test : Z -> bool) (l : list Z) :
  first_where test l = None -> Forall (fun i => test i = false) l.
Proof.
  induction l as [|x l IH]; simpl; [constructor|].
  destruct (test x) eqn:T; [discriminate|]. auto.
Qed.

(** C6: [find_next] changes nothing and works on the result of
    [search(query)] with content search on.  It returns the first index
    of that result that is greater than [from_index]; when there is none,
    the first index that is at most [from_index] (then every index of the
    result is, so this is the first of them all); and [None] when the
    result is empty.  With matches at 1 and 4 and [from_index = 4] it
    returns 1. *)
Theorem C6_find_next (query : string) (from_index : Z) (w : World) :
  exists results,
    search query true w = (Ok results, w)
    /\ ((exists j pre post,
           find_next query from_index w = (Ok (Some j), w)
           /\ results = pre ++ j :: post
           /\ from_index < j
           /\ Forall (fun i => i <= from_index) pre)
        \/ (exists j pre post,
              find_next query from_index w = (Ok (Some j), w)
              /\ results = pre ++ j :: post
              /\ j <= from_index
              /\ Forall (fun i => from_index < i) pre
              /\ Forall (fun i => i <= from_index) results)
        \/ (find_next query from_index w = (Ok None, w)
            /\ results = []))
    /\ (results = [1; 4] -> from_index = 4 ->
        find_next query from_index w = (Ok (Some 1), w)).
Proof.
  eexists. split; [apply search_eq|].
  rewrite find_next_eq. cbv zeta.
  set (results := search_loop (Str.lower query) true 0 (cards (self w))).
  split.
  - destruct (first_where (fun idx => idx >? from_index) results) as [j|]
      eqn:G.
    + left. apply first_where_some in G as (pre & post & E & T & F).
      exists j, pre, post. repeat split; auto; [lia|].
      eapply Forall_impl; [|exact F]. simpl. intros; lia.
    + right. apply first_where_none in G.
      assert (A : Forall (fun i => i <= from_index) results).
      { eapply Forall_impl; [|exact G]. simpl. intros; lia. }
      destruct (first_where (fun idx => idx <=? from_index) results) as [j|]
        eqn:L.
      * left. apply first_where_some in L as (pre & post & E & T & F).
        exists j, pre, post. repeat split; auto; [lia|].
        eapply Forall_impl; [|exact F]. simpl. intros; lia.
      * right. split; [reflexivity|].
        apply first_where_none in L.
        destruct results as [|x l]; [reflexivity|].
        inversion A; inversion L; subst. lia.
  - intros -> ->. reflexivity.
Qed.

Lemma C6_find_next_witness :
  find_next "X" 4 world_with_five = (Ok (Some 1), world_with_five).
Proof.
  destruct (C6_find_next "X" 4 world_with_five) as (results & S & _ & H).
  apply H; [|reflexivity].
  assert (E : search "X" true world_with_five
              = (Ok [1; 4], world_with_five)) by reflexivity.
  congruence.
Defined.

(** ** What navigation and search leave alone *)

(** C10: [navigate_to], [navigate_next] and [navigate_previous] return
    leaving everything but the cursor as it was: the cards, the path, the
    dirty flag, and the world outside the collection.  [search] and
    [find_next] return leaving the whole world as it was. *)
Theorem C10_navigation_and_search_frame
  (index from_index : Z) (query : string) (search_content : bool)
  (w : World) :
  (exists b i, navigate_to index w =
     (Ok b, with_self (mkCardFile (cards (self w)) i (filepath (self w))
                         (cf_modified (self w))) w))
  /\ (exists b i, navigate_next w =
        (Ok b, with_self (mkCardFile (cards (self w)) i (filepath (self w))
                            (cf_modified (self w))) w))
  /\ (exists b i, navigate_previous w =
        (Ok b, with_self (mkCardFile (cards (self w)) i (filepath (self w))
                            (cf_modified (self w))) w))
  /\ (exists results, search query search_content w = (Ok results, w))
  /\ (exists found, find_next query from_index w = (Ok found, w)).
Proof.
  assert (Same : w = with_self (mkCardFile (cards (self w))
                                  (current_index (self w))
                                  (filepath (self w))
                                  (cf_modified (self w))) w).
  { destruct w as [[l i p m] n c t d wr]. reflexivity. }
  split; [|split; [|split; [|split]]].
  - rewrite navigate_to_eq. destruct (_ && _); eexists; eexists;
      [reflexivity|rewrite <- Same; reflexivity].
  - rewrite navigate_next_eq. destruct (_ <? _); eexists; eexists;
      [reflexivity|rewrite <- Same; reflexivity].
  - rewrite navigate_previous_eq. destruct (_ >? _); eexists; eexists;
      [reflexivity|rewrite <- Same; reflexivity].
  - rewrite search_eq. eauto.
  - rewrite find_next_eq. eauto.
Qed.

(** ** Where the cursor lands *)

Lemma card_eqb_refl (c : Card) : CardM.eqb c c = true.
Proof.
  unfold CardM.eqb, DT.eqb. now rewrite !String.eqb_refl, !N.eqb_refl.
Qed.

Lemma same_object (l : list Card) (a b : Card) :
  NoDup (map oid l) -> In a l -> In b l -> oid a = oid b -> a = b.
Proof.
  induction l as [|x l IH]; simpl; [tauto|].
  intros ND Ha Hb E. inversion ND as [|? ? NI ND']; subst.
  destruct Ha as [Ha|Ha], Hb as [Hb|Hb].
  - congruence.
  - exfalso. apply NI. rewrite Ha, E. now apply in_map.
  - exfalso. apply NI. rewrite Hb, <- E. now apply in_map.
  - now apply IH.
Qed.

(** Where the cursor is after [sort_cards]: on the first card of the
    sorted list that is the card that was current or equal to it; hence
    on that very card when no other card of the list is equal to it. *)
Lemma cursor_after_sort (l : list Card) (cur : Card) (i : Z) :
  NoDup (map oid l) -> In cur l ->
  PyList.index cur (PyList.sort l) = Ok i ->
  exists e,
    card_at (PyList.sort l) i = Some e
    /\ CardM.eqb e cur = true
    /\ (forall j x, 0 <= j < i -> card_at (PyList.sort l) j = Some x ->
          x <> cur /\ CardM.eqb x cur = false)
    /\ ((forall x, In x l -> CardM.eqb x cur = true -> x = cur) -> e = cur).
Proof.
  intros ND I E.
  destruct (index_found cur (PyList.sort l)) as (i' & E' & R & e & A & Q & F).
  { now apply sort_in. }
  rewrite E in E'. injection E' as <-.
  assert (Ie : In e l).
  { pose proof A as A'. apply card_at_nth in A' as [_ A'].
    apply nth_error_In in A'. exact (proj1 (sort_in _ _) A'). }
  assert (Eq : CardM.eqb e cur = true).
  { unfold CardM.same_or_eqb in Q. apply orb_true_iff in Q as [Q|Q]; auto.
    apply Nat.eqb_eq in Q. rewrite (same_object l e cur ND Ie I Q).
    apply card_eqb_refl. }
  exists e. repeat split; auto.
  - intros ->. specialize (F j cur H H0).
    rewrite same_or_eqb_refl in F. discriminate.
  - specialize (F j x H H0). unfold CardM.same_or_eqb in F.
    now apply orb_false_iff in F.
Qed.

Lemma all_space_app (a b : string) :
  Str.all_space (a ++ b) = Str.all_space a && Str.all_space b.
Proof.
  induction a as [|c a IH]; simpl; [reflexivity|].
  rewrite IH. now rewrite andb_assoc.
Qed.

Lemma title_copy (id : nat) (t s : string) (cr mo : datetime) :
  title (CardM.init id (t ++ " (Copy)") s cr mo) = (t ++ " (Copy)")%string.
Proof.
  rewrite title_init, all_space_app.
  change (Str.all_space " (Copy)") with false.
  now rewrite andb_false_r.
Qed.

Lemma datetime_eq_dec (a b : datetime) : {a = b} + {a <> b}.
Proof. decide equality; apply N.eq_dec. Qed.

Lemma Card_eq_dec (a b : Card) : {a = b} + {a <> b}.
Proof.
  decide equality;
    try apply datetime_eq_dec; try apply string_dec; apply Nat.eq_dec.
Qed.

Lemma sort_cards_cursor (w : World) :
  inv w -> cards (self w) <> [] ->
  exists cur w',
    card_at (cards (self w)) (current_index (self w)) = Some cur
    /\ In cur (cards (self w))
    /\ sort_cards w = (Ok tt, w')
    /\ cards (self w') = PyList.sort (cards (self w))
    /\ cursor_on_first_equal cur (cards (self w)) (self w').
Proof.
  intros (C & _ & ND & _) NE.
  destruct (sort_cards_ok w NE (cursor_ok_range _ C NE))
    as (cur & i & A & Ei & Ri & Es).
  assert (I : In cur (cards (self w))).
  { apply card_at_nth in A as [_ A]. eapply nth_error_In, A. }
  destruct (cursor_after_sort _ _ _ ND I Ei) as (e & Ae & Q & F & U).
  eexists cur, _. split; [exact A|]. split; [exact I|].
  split; [exact Es|]. split; [reflexivity|].
  exists e. unfold with_self; cbn [self cards current_index].
  repeat split; auto; try (now apply (F j x)).
  intros H. apply U. intros x Hx Q'.
  destruct (Card_eq_dec x cur) as [->|N]; [reflexivity|].
  rewrite (H x Hx N) in Q'. discriminate.
Qed.

Lemma append_cursor (w : World) (nc : Card) (i : Z) (b : bool) :
  oid nc = next_oid w ->
  heap_ok w ->
  PyList.index nc (PyList.sort (cards (self w) ++ [nc])) = Ok i ->
  cursor_on_first_equal nc (cards (self w))
    (mkCardFile (PyList.sort (cards (self w) ++ [nc])) i
       (filepath (self w)) b).
Proof.
  intros O H E.
  assert (NI : ~ In (oid nc) (map oid (cards (self w)))).
  { intros I. apply in_map_iff in I as (c & Q & I).
    apply (heap_ok_fresh w c H I). congruence. }
  destruct (cursor_after_append _ _ _ NI E) as (_ & e & A & Q & F & U).
  exists e. cbn [cards current_index]. repeat split; auto;
    try (now apply (F j x)).
  intros N. apply U. intros x Hx. apply N; [exact Hx|].
  intros ->. apply NI. now apply in_map.
Qed.

Lemma add_card_cursor (t s : string) (w : World) :
  inv w ->
  exists nc w',
    add_card t s w = (Ok nc, w')
    /\ nc = card_made t s w
    /\ ~ In (oid nc) (map oid (cards (self w)))
    /\ cards (self w') = PyList.sort (cards (self w) ++ [nc])
    /\ filepath (self w') = filepath (self w)
    /\ cf_modified (self w') = true
    /\ cursor_on_first_equal nc (cards (self w)) (self w').
Proof.
  intros I. destruct (add_card_ok t s w I) as (i & Ei & E & _).
  destruct I as (_ & _ & H).
  eexists; eexists. split; [exact E|]. split; [reflexivity|].
  split.
  { unfold card_made. rewrite oid_init. intros J.
    apply in_map_iff in J as (c & Q & J). now apply (heap_ok_fresh w c H J). }
  repeat split.
  apply append_cursor; auto. unfold card_made. now rewrite oid_init.
Qed.

Lemma duplicate_card_cursor (index : option Z) (w : World) :
  inv w ->
  0 <= target index w < PyList.len (cards (self w)) ->
  exists original nc w',
    card_at (cards (self w)) (target index w) = Some original
    /\ duplicate_card index w = (Ok (Some nc), w')
    /\ nc = card_made (title original ++ " (Copy)")%string
              (content original) w
    /\ ~ In (oid nc) (map oid (cards (self w)))
    /\ cards (self w') = PyList.sort (cards (self w) ++ [nc])
    /\ filepath (self w') = filepath (self w)
    /\ cf_modified (self w') = true
    /\ cursor_on_first_equal nc (cards (self w)) (self w').
Proof.
  intros I R.
  destruct (duplicate_card_ok index w I R) as (original & i & A & _ & D).
  cbv zeta in D. destruct D as (Ei & E & _).
  destruct I as (_ & _ & H).
  eexists original, _, _. split; [exact A|]. split; [exact E|].
  split; [reflexivity|]. split.
  { unfold card_made. rewrite oid_init. intros J.
    apply in_map_iff in J as (c & Q & J). now apply (heap_ok_fresh w c H J). }
  repeat split.
  apply append_cursor; auto. unfold card_made. now rewrite oid_init.
Qed.



Ltac inv_by_computation :=
  unfold inv, heap_ok, title_sorted, cursor_ok;
  split; [cbn; lia|];
  split; [repeat constructor|];
  split; [cbn; repeat constructor; cbn; intuition discriminate
         |cbn; repeat constructor].


(** C8, as the specification words it, fails in its cursor clause.  With
    a clock that has not advanced, duplicating the same card a second time
    makes a card equal to the first duplicate; the cursor goes to the
    first duplicate, which comes first, and not to the card returned. *)
Lemma C8_cursor_on_older_duplicate :
  cards (self duplicated_world) = [idea_card; first_copy]
  /\ exists w',
       duplicate_card (Some 0) duplicated_world = (Ok (Some second_copy), w')
       /\ cards (self w') = [idea_card; first_copy; second_copy]
       /\ current_index (self w') = 1
       /\ card_at (cards (self w')) (current_index (self w'))
          = Some first_copy
       /\ first_copy <> second_copy.
Proof.
  split; [reflexivity|].
  eexists. split; [vm_compute; reflexivity|].
  split; [reflexivity|]. split; [reflexivity|]. split; [reflexivity|].
  discriminate.
Qed.

(** C8 (amended): [duplicate_card] on an empty collection or with an
    index out of range returns [None] and changes nothing.  Otherwise,
    from a state that satisfies the invariant, it returns a new card whose
    title is the original's followed by " (Copy)", whose content is the
    original's and whose timestamps are two new clock readings; the card
    is appended and the list sorted, the dirty flag is set, the path is
    kept, and the cursor is on the first card that is the new card or is
    equal to it field by field, which is the new card whenever no card of
    the list was equal to it. *)
Theorem C8_duplicate_card (index : option Z) (w : World) :
  inv w ->
  (cards (self w) = []
   \/ ~ (0 <= target index w < PyList.len (cards (self w))) ->
   duplicate_card index w = (Ok None, w))
  /\ (0 <= target index w < PyList.len (cards (self w)) ->
      exists original nc w',
        card_at (cards (self w)) (target index w) = Some original
        /\ duplicate_card index w = (Ok (Some nc), w')
        /\ title nc = (title original ++ " (Copy)")%string
        /\ content nc = content original
        /\ created nc = clock w (ticks w)
        /\ modified nc = clock w (S (ticks w))
        /\ ~ In (oid nc) (map oid (cards (self w)))
        /\ cards (self w') = PyList.sort (cards (self w) ++ [nc])
        /\ cf_modified (self w') = true
        /\ filepath (self w') = filepath (self w)
        /\ cursor_on_first_equal nc (cards (self w)) (self w')).
Proof.
  intros I. split; [apply duplicate_card_noop|].
  intros R.
  destruct (duplicate_card_cursor index w I R)
    as (o & nc & w' & A & E & -> & N & L & P & D & K).
  exists o. eexists; eexists. split; [exact A|]. split; [exact E|].
  unfold card_made in *.
  rewrite title_copy, content_init, created_init, modified_init.
  repeat split; auto.
Qed.

Lemma C8_duplicate_card_witness :
  inv idea_world
  /\ exists nc w',
       duplicate_card None idea_world = (Ok (Some nc), w')
       /\ title nc = "Idea (Copy)"
       /\ PyList.len (cards (self w')) = 2
       /\ cf_modified (self w') = true
       /\ card_at (cards (self w')) (current_index (self w')) = Some nc.
Proof.
  assert (I : inv idea_world) by inv_by_computation.
  split; [exact I|].
  destruct (C8_duplicate_card None idea_world I) as [_ H].
  destruct H as (o & nc & w' & A & E & T & _ & _ & _ & _ & L & D & _ & K).
  { cbn. lia. }
  assert (O : o = mkCard 0 "Idea" "" sample_time sample_time)
    by (revert A; now intros [= <-]).
  subst o. simpl in T.
  exists nc, w'. split; [exact E|]. split; [exact T|].
  split; [rewrite L, sort_length, len_app_last; reflexivity|].
  split; [exact D|].
  destruct K as (e & Ae & _ & _ & U). rewrite Ae. f_equal. apply U.
  intros x Hx _. destruct Hx as [<-|[]].
  unfold CardM.eqb. rewrite T. reflexivity.
Defined.

(** * Further properties of the code *)

(** ** Stripping *)

Lemma lstrip_nonspace (c : ascii) (s : string) :
  Str.isspace c = false -> Str.lstrip (String c s) = String c s.
Proof. intros H. simpl. now rewrite H. Qed.

Lemma rstrip_nonspace (c : ascii) (s : string) :
  Str.isspace c = false ->
  Str.rstrip (String c s) = String c (Str.rstrip s).
Proof.
  intros H. simpl. destruct (Str.rstrip s); [now rewrite H|reflexivity].
Qed.

Lemma lstrip_shape (s : string) :
  Str.lstrip s = EmptyString
  \/ exists c r, Str.lstrip s = String c r /\ Str.isspace c = false.
Proof.
  induction s as [|c s IH]; simpl; [now left|].
  destruct (Str.isspace c) eqn:E; [exact IH|].
  right. now exists c, s.
Qed.

Lemma rstrip_idempotent (s : string) :
  Str.rstrip (Str.rstrip s) = Str.rstrip s.
Proof.
  induction s as [|c s IH]; [reflexivity|].
  change (Str.rstrip (String c s))
    with (match Str.rstrip s with
          | EmptyString =>
              if Str.isspace c then EmptyString else String c EmptyString
          | String x r => String c (String x r)
          end).
  destruct (Str.rstrip s) as [|x r] eqn:R.
  - destruct (Str.isspace c) eqn:E; [reflexivity|]. simpl. now rewrite E.
  - change (Str.rstrip (String c (String x r)))
      with (match Str.rstrip (String x r) with
            | EmptyString =>
                if Str.isspace c then EmptyString else String c EmptyString
            | String y q => String c (String y q)
            end).
    now rewrite IH.
Qed.

Lemma strip_idempotent (s : string) : Str.strip (Str.strip s) = Str.strip s.
Proof.
  unfold Str.strip.
  destruct (lstrip_shape s) as [E|(c & r & E & N)]; rewrite E.
  - reflexivity.
  - rewrite (rstrip_nonspace c r N), (lstrip_nonspace c _ N).
    rewrite <- (rstrip_nonspace c r N). apply rstrip_idempotent.
Qed.

(** X1. [Card.update_title] stores the stripped text, or "Untitled" when
    nothing is left of it; either way the title it leaves is not blank
    and has no white space at its ends.  It stamps [modified] and touches
    neither the content, nor [created], nor which object the card is. *)
Theorem update_title_postcondition (new_title : string) (now : datetime)
  (c : Card) :
  title (CardM.update_title new_title now c)
  = (if Str.all_space new_title then "Untitled" else Str.strip new_title)
  /\ Str.all_space (title (CardM.update_title new_title now c)) = false
  /\ PyStr.trimmed (title (CardM.update_title new_title now c))
  /\ modified (CardM.update_title new_title now c) = now
  /\ content (CardM.update_title new_title now c) = content c
  /\ created (CardM.update_title new_title now c) = created c
  /\ oid (CardM.update_title new_title now c) = oid c.
Proof.
  assert (T : title (CardM.update_title new_title now c)
              = if Str.all_space new_title then "Untitled"
                else Str.strip new_title).
  { unfold CardM.update_title.
    cbn [title CardM.with_modified CardM.with_title].
    rewrite truthy_strip. now destruct (Str.all_space new_title). }
  split; [exact T|]. split; [apply update_title_not_blank|].
  split; [|repeat split].
  unfold PyStr.trimmed. rewrite T.
  destruct (Str.all_space new_title); [reflexivity|apply strip_idempotent].
Qed.

(** ** Index labels *)

Lemma string_length_app (a b : string) :
  String.length (a ++ b) = (String.length a + String.length b)%nat.
Proof. induction a as [|c a IH]; simpl; [reflexivity|now rewrite IH]. Qed.

Lemma take_length (n : nat) : forall s : string,
  String.length (PyStr.take n s) = Nat.min n (String.length s).
Proof.
  induction n as [|n IH]; intros [|c s]; simpl; auto.
Qed.

Lemma take_prefix (n : nat) : forall s : string,
  exists rest, s = (PyStr.take n s ++ rest)%string.
Proof.
  induction n as [|n IH]; intros [|c s]; simpl;
    try (now exists EmptyString); try (now eexists).
  destruct (IH s) as [rest E]. exists rest. now rewrite <- E.
Qed.

Lemma slice_to_length (s : string) (stop : Z) :
  Z.of_nat (String.length (PyStr.slice_to s stop))
  = if stop <? 0 then Z.max (stop + Z.of_nat (String.length s)) 0
    else Z.min stop (Z.of_nat (String.length s)).
Proof.
  unfold PyStr.slice_to. rewrite take_length.
  destruct (stop <? 0) eqn:E; lia.
Qed.

(** X2. [Card.get_index_title] with room for the ellipsis
    ([max_length >= 3]): a title that fits is returned as it is; a longer
    one is cut to its first [max_length - 3] characters followed by
    "...", which makes exactly [max_length] characters.  The label is
    never longer than [max_length]. *)
Theorem get_index_title_fits (max_length : Z) (c : Card) :
  3 <= max_length ->
  Z.of_nat (String.length (get_index_title max_length c)) <= max_length
  /\ ((Z.of_nat (String.length (title c)) <= max_length
       /\ get_index_title max_length c = title c)
      \/ (max_length < Z.of_nat (String.length (title c))
          /\ Z.of_nat (String.length (get_index_title max_length c))
             = max_length
          /\ exists kept rest,
               title c = (kept ++ rest)%string
               /\ Z.of_nat (String.length kept) = max_length - 3
               /\ get_index_title max_length c = (kept ++ "...")%string)).
Proof.
  intros H. unfold get_index_title.
  destruct (Z.leb_spec (Z.of_nat (String.length (title c))) max_length)
    as [L|L].
  - split; [exact L|]. left. auto.
  - assert (K : Z.of_nat (String.length
                            (PyStr.slice_to (title c) (max_length - 3)))
                = max_length - 3).
    { rewrite slice_to_length. destruct (max_length - 3 <? 0) eqn:E; lia. }
    assert (N : Z.of_nat (String.length
                  (PyStr.slice_to (title c) (max_length - 3) ++ "..."))
                = max_length).
    { rewrite string_length_app. simpl String.length at 2. lia. }
    split; [lia|]. right. split; [exact L|]. split; [exact N|].
    destruct (take_prefix
                (Z.to_nat (if max_length - 3 <? 0
                           then Z.max (max_length - 3
                                       + Z.of_nat (String.length (title c))) 0
                           else Z.min (max_length - 3)
                                  (Z.of_nat (String.length (title c)))))
                (title c)) as [rest E].
    exists (PyStr.slice_to (title c) (max_length - 3)), rest.
    split; [exact E|]. split; [exact K|reflexivity].
Qed.

Lemma get_index_title_fits_witness :
  get_index_title 15 (mkCard 0 "Minutes of the annual meeting" ""
                        sample_time sample_time)
  = "Minutes of t...".
Proof.
  destruct (get_index_title_fits 15
              (mkCard 0 "Minutes of the annual meeting" ""
                 sample_time sample_time)) as [_ [[L _]|(_ & _ & H)]].
  - lia.
  - simpl in L. lia.
  - reflexivity.
Defined.

(** X3. [Card.get_index_title] without room for the ellipsis
    ([max_length < 3]) on a title longer than [max_length]: the slice
    bound [max_length - 3] is negative and counts from the end, so the
    label is the title without its last [3 - max_length] characters,
    followed by "...".  Nothing is raised, and the label is longer than
    [max_length]: it has [max(len + max_length - 3, 0) + 3] characters. *)
Theorem get_index_title_short_limit (max_length : Z) (c : Card) :
  max_length < 3 ->
  max_length < Z.of_nat (String.length (title c)) ->
  get_index_title max_length c
  = (PyStr.take (Z.to_nat (Z.of_nat (String.length (title c))
                           + max_length - 3)) (title c) ++ "...")%string
  /\ Z.of_nat (String.length (get_index_title max_length c))
     = Z.max (Z.of_nat (String.length (title c)) + max_length - 3) 0 + 3
  /\ max_length < Z.of_nat (String.length (get_index_title max_length c)).
Proof.
  intros H L. unfold get_index_title.
  replace (Z.of_nat (String.length (title c)) <=? max_length) with false
    by lia.
  assert (E : PyStr.slice_to (title c) (max_length - 3)
              = PyStr.take (Z.to_nat (Z.of_nat (String.length (title c))
                                      + max_length - 3)) (title c)).
  { unfold PyStr.slice_to. replace (max_length - 3 <? 0) with true by lia.
    f_equal. lia. }
  split; [now rewrite E|].
  rewrite string_length_app, Nat2Z.inj_add, slice_to_length.
  replace (max_length - 3 <? 0) with true by lia.
  simpl String.length. lia.
Qed.

Lemma get_index_title_short_limit_witness :
  get_index_title 2 (mkCard 0 "abcdef" "" sample_time sample_time)
  = "abcde...".
Proof.
  destruct (get_index_title_short_limit 2
              (mkCard 0 "abcdef" "" sample_time sample_time)) as (E & _).
  - lia.
  - simpl. lia.
  - rewrite E. reflexivity.
Defined.

(** ** Reading records *)

Lemma timestamp_field_missing (k : string) (d : list (string * json))
  (w : World) :
  Json.lookup k d = None -> timestamp_field k d w = now w.
Proof. unfold timestamp_field. now intros ->. Qed.

(** X4. [Card.from_dict] on a record without timestamps: it is read as a
    card constructed now, with the record's title and content, "Untitled"
    standing in for a missing title and the empty string for a missing
    content.  In particular the empty record gives the default card, and
    nothing is raised for the missing keys. *)
Theorem from_dict_missing_keys (d : list (string * json)) (t s : string)
  (w : World) :
  Json.lookup "created" d = None ->
  Json.lookup "modified" d = None ->
  Json.get "title" (JStr "Untitled") d = JStr t ->
  Json.get "content" (JStr "") d = JStr s ->
  from_dict (JObj d) w
  = (Ok (CardM.init (next_oid w) t s (clock w (ticks w))
           (clock w (S (ticks w)))),
     after_new_Card (self w) w)
  /\ from_dict (JObj d) w = new_Card t s w
  /\ (Json.lookup "title" d = None -> t = "Untitled")
  /\ (Json.lookup "content" d = None -> s = EmptyString).
Proof.
  intros Hc Hm Ht Hs.
  assert (E : from_dict (JObj d) w
              = (Ok (CardM.init (next_oid w) t s (clock w (ticks w))
                       (clock w (S (ticks w)))),
                 after_new_Card (self w) w)).
  { unfold from_dict. rewrite Ht, Hs. unfold bind at 1.
    rewrite (timestamp_field_missing _ _ _ Hc). unfold now at 1.
    unfold bind at 1. rewrite (timestamp_field_missing _ _ _ Hm).
    reflexivity. }
  split; [exact E|]. split; [rewrite E; reflexivity|].
  unfold Json.get in *. split; intros N; rewrite N in *; congruence.
Qed.

Lemma from_dict_missing_keys_witness :
  from_dict (JObj []) sample_world = new_Card "Untitled" "" sample_world.
Proof.
  apply (from_dict_missing_keys [] "Untitled" "" sample_world);
    reflexivity.
Defined.

Lemma from_dict_to_dict_eq (c : Card) (w : World) :
  DT.valid (created c) = true -> DT.valid (modified c) = true ->
  from_dict (to_dict c) w
  = (Ok (CardM.init (next_oid w) (title c) (content c) (created c)
           (modified c)),
     mkWorld (self w) (S (next_oid w)) (clock w) (ticks w) (disk w)
             (writable w)).
Proof.
  intros Hc Hm.
  destruct (lookup_to_dict c) as (d & -> & Et & Es & Ec & Em).
  unfold from_dict. rewrite Et, Es.
  unfold timestamp_field. rewrite Ec, Em.
  rewrite (fromisoformat_isoformat _ Hc), (fromisoformat_isoformat _ Hm).
  reflexivity.
Qed.

Lemma fields_init (id : nat) (t s : string) (cr mo : datetime) :
  Str.all_space t = false ->
  fields (CardM.init id t s cr mo) = (t, s, cr, mo).
Proof.
  intros H. unfold fields.
  now rewrite title_init, H, content_init, created_init, modified_init.
Qed.

(** Reading back the records of well-formed cards: the same fields, in
    the same order, in new objects. *)
Lemma map_M_from_dict_to_dict (l : list Card) : forall w : World,
  Forall card_wf l ->
  exists loaded w',
    map_M from_dict (map to_dict l) w = (Ok loaded, w')
    /\ map fields loaded = map fields l
    /\ self w' = self w /\ disk w' = disk w /\ writable w' = writable w.
Proof.
  induction l as [|c l IH]; intros w F; cbn [map map_M].
  - exists [], w. repeat split.
  - inversion F as [|? ? (Ht & Hc & Hm) F']; subst.
    unfold bind at 1. rewrite (from_dict_to_dict_eq c w Hc Hm).
    unfold bind at 1.
    destruct (IH (mkWorld (self w) (S (next_oid w)) (clock w) (ticks w)
                    (disk w) (writable w)) F')
      as (loaded & w' & E & M & S1 & D1 & W1).
    rewrite E. eexists; eexists. split; [reflexivity|].
    cbn [map]. rewrite M, (fields_init _ _ _ _ _ Ht).
    repeat split; auto.
Qed.

(** ** Saving and loading *)

Lemma save_to_file_eq (path : option string) (w : World) :
  save_to_file path w =
  match (match path with Some p => Some p | None => filepath (self w) end)
  with
  | None => (Ok false, w)
  | Some p =>
      if writable w p
      then (Ok true,
            mkWorld (mkCardFile (cards (self w)) (current_index (self w))
                       (Some p) false)
              (next_oid w) (clock w) (ticks w)
              (fun q => if String.eqb q p
                        then Document
                               (JObj [ ("version", JStr "1.0.1");
                                       ("cards",
                                        JArr (map to_dict (cards (self w)))) ])
                        else disk w q)
              (writable w))
      else (Ok false, w)
  end.
Proof.
  unfold save_to_file. unfold bind at 1, get_self at 1.
  destruct (match path with Some p => Some p | None => filepath (self w) end)
    as [p|]; [|reflexivity].
  unfold write_json. unfold_monad.
  destruct (writable w p); reflexivity.
Qed.


Lemma sort_sorted_id (l : list Card) : title_sorted l -> PyList.sort l = l.
Proof.
  unfold title_sorted.
  induction l as [|x l IH]; intros H; [reflexivity|].
  inversion H as [|? ? H' F]; subst. simpl. rewrite (IH H').
  destruct l as [|y l]; [reflexivity|]. simpl.
  inversion F as [|? ? K _]; subst. unfold key_le in K. now rewrite K.
Qed.

Lemma cons_inj (A : Type) (a b : A) (l l' : list A) :
  a :: l = b :: l' -> a = b /\ l = l'.
Proof. intros H. injection H. auto. Qed.

Lemma title_sorted_same_fields (l : list Card) : forall l' : list Card,
  map fields l' = map fields l -> title_sorted l -> title_sorted l'.
Proof.
  unfold title_sorted.
  induction l as [|x l IH]; intros [|x' l'] E H; cbn [map] in E;
    try discriminate; [constructor|].
  apply cons_inj in E as [Ex El].
  inversion H as [|? ? H' F]; subst.
  constructor; [now apply IH|].
  assert (Tx : title x' = title x) by (unfold fields in Ex; congruence).
  clear - F El Tx. revert l' El.
  induction F as [|y l Hy F IHF]; intros [|y' l'] El; cbn [map] in El;
    try discriminate; constructor.
  - apply cons_inj in El as [Ey _].
    assert (Ty : title y' = title y) by (unfold fields in Ey; congruence).
    unfold key_le, PyList.key in *. now rewrite Tx, Ty.
  - apply IHF. now apply cons_inj in El as [_ El].
Qed.

Lemma sort_cards_sorted_front (l : list Card) (p : option string) (b : bool)
  (w : World) :
  title_sorted l ->
  sort_cards (with_self (mkCardFile l 0 p b) w)
  = (Ok tt, with_self (mkCardFile l 0 p b) w).
Proof.
  intros H. rewrite sort_cards_eq. unfold with_self; cbn [self cards
    current_index filepath cf_modified next_oid clock ticks disk writable].
  destruct l as [|x l]; [reflexivity|].
  cbn [nonempty]. rewrite (sort_sorted_id _ H).
  unfold PyList.getitem, PyList.len. cbn [List.length].
  replace (0 <? 0) with false by reflexivity.
  replace ((0 <=? 0) && (0 <? Z.of_nat (S (List.length l)))) with true by lia.
  cbn [Z.to_nat nth_error].
  unfold PyList.index. cbn [PyList.index_from].
  now rewrite same_or_eqb_refl.
Qed.

(** X6. Saving and loading back.  When the cards are in order and
    well-formed, [save_to_file] to a writable path returns [True], and
    [load_from_file] of that path, into whatever collection, returns
    [True] with cards that have the same title, content and timestamps,
    in the same order; the cursor is on the first card, the path is
    stored and the dirty flag is clear. *)
Theorem save_then_load (p : string) (cf0 : CardFile) (w : World) :
  writable w p = true ->
  title_sorted (cards (self w)) ->
  Forall card_wf (cards (self w)) ->
  exists w1 w2,
    save_to_file (Some p) w = (Ok true, w1)
    /\ load_from_file p (with_self cf0 w1) = (Ok true, w2)
    /\ map fields (cards (self w2)) = map fields (cards (self w))
    /\ current_index (self w2) = 0
    /\ filepath (self w2) = Some p
    /\ cf_modified (self w2) = false.
Proof.
  intros Wr Hs Hw.
  rewrite save_to_file_eq, Wr.
  eexists. 
  match goal with
  | |- exists w2, (Ok true, ?w1) = _ /\ _ => set (saved := w1)
  end.
  destruct (map_M_from_dict_to_dict (cards (self w)) (with_self cf0 saved) Hw)
    as (loaded & w' & E & M & _).
  exists (with_self (mkCardFile loaded 0 (Some p) false) w').
  split; [reflexivity|]. split; [|repeat split; exact M].
  rewrite load_from_file_eq.
  assert (R : records_of p (with_self cf0 saved)
              = Ok (map to_dict (cards (self w)))).
  { unfold records_of, with_self, saved. cbn [disk].
    rewrite String.eqb_refl. reflexivity. }
  subst saved. rewrite R, E.
  rewrite sort_cards_sorted_front;
    [reflexivity|eapply title_sorted_same_fields; eauto].
Qed.

Lemma save_then_load_witness :
  exists w1 w2,
    save_to_file (Some "notes.crd") recipe_world = (Ok true, w1)
    /\ load_from_file "notes.crd" (with_self empty_cardfile w1) = (Ok true, w2)
    /\ map fields (cards (self w2)) = map fields (cards (self recipe_world))
    /\ current_index (self w2) = 0
    /\ filepath (self w2) = Some "notes.crd"
    /\ cf_modified (self w2) = false.
Proof.
  apply (save_then_load "notes.crd" empty_cardfile recipe_world).
  - reflexivity.
  - repeat constructor.
  - repeat constructor.
Defined.

(** X7. [CardFile.load_from_file] on a document that is a dict without a
    "cards" entry, or whose "cards" is an empty list, an empty string or
    an empty dict: it returns [True] and the collection is empty, with
    the cursor at 0, the path stored and the dirty flag clear; the cards
    held before are gone. *)
Theorem load_without_cards (p : string) (d : list (string * json))
  (w : World) :
  disk w p = Document (JObj d) ->
  Json.lookup "cards" d = None
  \/ Json.lookup "cards" d = Some (JArr [])
  \/ Json.lookup "cards" d = Some (JStr "")
  \/ Json.lookup "cards" d = Some (JObj []) ->
  load_from_file p w
  = (Ok true, with_self (mkCardFile [] 0 (Some p) false) w).
Proof.
  intros D H. rewrite load_from_file_eq.
  assert (R : records_of p w = Ok []).
  { unfold records_of. rewrite D. unfold Json.get.
    destruct H as [ -> | [ -> | [ -> | -> ] ] ]; reflexivity. }
  rewrite R. cbn [map_M]. unfold ret.
  rewrite sort_cards_empty by reflexivity. reflexivity.
Qed.

Lemma load_without_cards_witness :
  load_from_file "empty.crd"
    (mkWorld (mkCardFile [sample_card] 0 None true) 8
       (fun _ => sample_time) 0
       (fun _ => Document (JObj [("version", JStr "1.0.1")]))
       (fun _ => true))
  = (Ok true,
     mkWorld (mkCardFile [] 0 (Some "empty.crd") false) 8
       (fun _ => sample_time) 0
       (fun _ => Document (JObj [("version", JStr "1.0.1")]))
       (fun _ => true)).
Proof.
  apply (load_without_cards "empty.crd" [("version", JStr "1.0.1")]).
  - reflexivity.
  - left. reflexivity.
Defined.

Lemma map_M_from_dict_length (records : list json) :
  forall (w w' : World) (loaded : list Card),
  map_M from_dict records w = (Ok loaded, w') ->
  List.length loaded = List.length records.
Proof.
  induction records as [|x records IH]; intros w w' loaded; cbn [map_M].
  - unfold ret. now intros [= <- _].
  - unfold bind at 1. destruct (from_dict x w) as [[c|e] w1]; [|discriminate].
    unfold bind at 1.
    destruct (map_M from_dict records w1) as [[l|e] w2] eqn:E;
      [|discriminate].
    unfold ret. intros [= <- _]. simpl. f_equal. eapply IH, E.
Qed.

(** X8. [CardFile.load_from_file] when it returns [True]: the collection
    holds one card for each element of the document's "cards", all of
    them objects made by this call (no card held before remains), in
    order of lower-cased title; the cursor is within bounds, the path is
    the one loaded and the dirty flag is clear. *)
Theorem load_success (p : string) (w w' : World) :
  load_from_file p w = (Ok true, w') ->
  exists records,
    records_of p w = Ok records
    /\ List.length (cards (self w')) = List.length records
    /\ Forall (fun c => (next_oid w <= oid c < next_oid w')%nat)
         (cards (self w'))
    /\ NoDup (map oid (cards (self w')))
    /\ title_sorted (cards (self w'))
    /\ cursor_ok (self w')
    /\ filepath (self w') = Some p
    /\ cf_modified (self w') = false.
Proof.
  intros H.
  destruct (load_from_file_cases p w)
    as [(w0 & E & _)
       |(records & loaded & w1 & i & R & Em & E & S1 & ND & F & Hi)].
  { rewrite E in H. discriminate. }
  rewrite E in H. injection H as <-.
  destruct (map_M_from_dict_frame records w) as (r & w1' & Em' & _ & _ & O).
  rewrite Em in Em'. injection Em' as <- <-.
  destruct (O loaded eq_refl) as [_ B].
  pose proof (sort_perm loaded) as P.
  exists records. unfold with_self; cbn [self cards next_oid filepath
                                          cf_modified].
  split; [exact R|]. split.
  { rewrite (Permutation_length P). eapply map_M_from_dict_length, Em. }
  split.
  { apply (Permutation_Forall (x := loaded)); [now symmetry|exact B]. }
  split.
  { apply (Permutation_NoDup (l := map oid loaded)); [|exact ND].
    apply Permutation_map. now symmetry. }
  split; [apply sort_sorted|]. split; [|split; reflexivity].
  apply cursor_ok_intro; rewrite ?sort_length.
  - intros Z. apply Permutation_length in P. rewrite Z in P.
    destruct loaded; [exact Hi|discriminate].
  - intros NE. destruct loaded; [|tauto]. simpl in NE. congruence.
Qed.

Lemma load_success_witness :
  exists records,
    records_of "twins.crd" twins_disk = Ok records
    /\ List.length (cards (self (snd (load_from_file "twins.crd" twins_disk))))
       = List.length records
    /\ List.length records = 2%nat.
Proof.
  destruct (load_success "twins.crd" twins_disk
              (snd (load_from_file "twins.crd" twins_disk)))
    as (records & R & L & _).
  - reflexivity.
  - exists records. split; [exact R|]. split; [exact L|].
    revert R. now intros [= <-].
Defined.

(** ** Deleting *)

Lemma nth_error_remove_nth (A : Type) (n : nat) : forall (l : list A) (j : nat),
  nth_error (PyList.remove_nth n l) j
  = if (j <? n)%nat then nth_error l j else nth_error l (S j).
Proof.
  induction n as [|n IH]; intros [|x l] j; simpl.
  - now destruct j.
  - reflexivity.
  - destruct (j <? S n)%nat; now destruct j.
  - destruct j as [|j]; [reflexivity|]. simpl. rewrite IH.
    change (S j <? S n)%nat with (j <? n)%nat. reflexivity.
Qed.

Lemma card_at_delitem (l : list Card) (i j : Z) :
  0 <= i ->
  card_at (PyList.delitem l i) j
  = if j <? i then card_at l j else card_at l (j + 1).
Proof.
  intros Hi. unfold card_at, PyList.delitem.
  destruct (Z.ltb_spec j 0) as [N|N].
  - replace (j <? i) with true by lia. reflexivity.
  - rewrite nth_error_remove_nth.
    replace (j + 1 <? 0) with false by lia.
    destruct (Z.ltb_spec j i) as [L|L].
    + replace (Z.to_nat j <? Z.to_nat i)%nat with true
        by (symmetry; apply Nat.ltb_lt; lia).
      reflexivity.
    + replace (Z.to_nat j <? Z.to_nat i)%nat with false
        by (symmetry; apply Nat.ltb_ge; lia).
      f_equal. lia.
Qed.

Lemma delitem_len (l : list Card) (i : Z) :
  0 <= i < PyList.len l ->
  PyList.len (PyList.delitem l i) = PyList.len l - 1.
Proof.
  unfold PyList.len, PyList.delitem. intros H.
  rewrite remove_nth_length by lia. lia.
Qed.

(** The two ways [delete_card] ends. *)
Lemma delete_card_cases (index : option Z) (w : World) :
  (delete_card index w = (Ok false, w)
   /\ (cards (self w) = []
       \/ ~ (0 <= target index w < PyList.len (cards (self w)))))
  \/ (0 <= target index w < PyList.len (cards (self w))
      /\ exists w',
           delete_card index w = (Ok true, w')
           /\ PyList.len (cards (self w')) = PyList.len (cards (self w)) - 1
           /\ (forall j,
                 card_at (cards (self w')) j
                 = if j <? target index w then card_at (cards (self w)) j
                   else card_at (cards (self w)) (j + 1))
           /\ current_index (self w')
              = (if PyList.len (cards (self w)) =? 1 then 0
                 else Z.min (current_index (self w))
                        (PyList.len (cards (self w)) - 2))
           /\ cf_modified (self w') = true
           /\ filepath (self w') = filepath (self w)
           /\ next_oid w' = next_oid w /\ disk w' = disk w).
Proof.
  rewrite delete_card_eq. cbv zeta. fold (target index w).
  destruct (nonempty (cards (self w))) eqn:NE; cbn [andb].
  2:{ left. split; [reflexivity|]. left. now apply nonempty_false. }
  destruct ((0 <=? target index w)
            && (target index w <? PyList.len (cards (self w)))) eqn:G.
  2:{ left. split; [reflexivity|]. right. lia. }
  right. assert (R : 0 <= target index w < PyList.len (cards (self w)))
    by lia.
  split; [exact R|]. eexists. split; [reflexivity|].
  unfold with_self; cbn [self cards current_index cf_modified filepath
                         next_oid disk].
  pose proof (delitem_len _ _ R) as L.
  split; [exact L|]. split; [intros j; apply card_at_delitem; lia|].
  split; [|repeat split].
  destruct (PyList.delitem (cards (self w)) (target index w)) as [|x l] eqn:D.
  - assert (Z0 : PyList.len (@nil Card) = 0) by reflexivity.
    replace (PyList.len (cards (self w)) =? 1) with true by lia.
    reflexivity.
  - cbn [nonempty].
    assert (P : 0 < PyList.len (x :: l))
      by (unfold PyList.len; simpl List.length; lia).
    replace (PyList.len (cards (self w)) =? 1) with false by lia.
    rewrite L. f_equal. lia.
Qed.

(** X9. [CardFile.delete_card] never raises.  On an empty collection or
    with an index out of range (a negative one included) it returns
    [False] and changes nothing.  Otherwise it returns [True]: the card
    at the index is gone, the cards before it keep their positions and
    the cards after it move down by one; the dirty flag is set; the
    cursor is 0 if no card is left and otherwise its old value, lowered
    to the last position if it was beyond. *)
Theorem delete_card_outcomes (index : option Z) (w : World) :
  (delete_card index w = (Ok false, w)
   /\ (cards (self w) = []
       \/ ~ (0 <= target index w < PyList.len (cards (self w)))))
  \/ (0 <= target index w < PyList.len (cards (self w))
      /\ exists w',
           delete_card index w = (Ok true, w')
           /\ PyList.len (cards (self w')) = PyList.len (cards (self w)) - 1
           /\ (forall j,
                 card_at (cards (self w')) j
                 = if j <? target index w then card_at (cards (self w)) j
                   else card_at (cards (self w)) (j + 1))
           /\ current_index (self w')
              = (if PyList.len (cards (self w)) =? 1 then 0
                 else Z.min (current_index (self w))
                        (PyList.len (cards (self w)) - 2))
           /\ cf_modified (self w') = true
           /\ filepath (self w') = filepath (self w)
           /\ next_oid w' = next_oid w /\ disk w' = disk w).
Proof.
  destruct (delete_card_cases index w) as [H|H]; [left|right]; exact H.
Qed.

(** X10. Deleting the current card ([delete_card()] with the cursor in
    bounds) always succeeds.  If it was the only card the collection is
    empty and the cursor 0.  If a card followed it, the cursor keeps its
    value and that card becomes current.  If it was the last of several,
    the cursor moves back by one, to the new last card. *)
Theorem delete_current_card (w : World) :
  0 <= current_index (self w) < PyList.len (cards (self w)) ->
  exists w',
    delete_card None w = (Ok true, w')
    /\ (PyList.len (cards (self w)) = 1 ->
        cards (self w') = [] /\ current_index (self w') = 0)
    /\ (current_index (self w) + 1 < PyList.len (cards (self w)) ->
        current_index (self w') = current_index (self w)
        /\ card_at (cards (self w')) (current_index (self w'))
           = card_at (cards (self w)) (current_index (self w) + 1))
    /\ (1 < PyList.len (cards (self w)) ->
        current_index (self w) + 1 = PyList.len (cards (self w)) ->
        current_index (self w') = current_index (self w) - 1
        /\ card_at (cards (self w')) (current_index (self w'))
           = card_at (cards (self w)) (current_index (self w) - 1)).
Proof.
  intros R.
  destruct (delete_card_cases None w) as [[_ [E|N]]|(_ & w' & D & L & A & C & _)].
  { rewrite E in R. unfold PyList.len in R. simpl in R. lia. }
  { exfalso. apply N. exact R. }
  change (target None w) with (current_index (self w)) in A.
  exists w'. split; [exact D|]. split; [|split].
  - intros One. rewrite One in L, C. split.
    + unfold PyList.len in L. destruct (cards (self w')); [reflexivity|].
      simpl in L. lia.
    + exact C.
  - intros Lt.
    assert (Ci : current_index (self w') = current_index (self w)).
    { rewrite C. destruct (Z.eqb_spec (PyList.len (cards (self w))) 1); lia. }
    split; [exact Ci|]. rewrite A, Ci.
    now rewrite Z.ltb_irrefl.
  - intros Many Last.
    assert (Ci : current_index (self w') = current_index (self w) - 1).
    { rewrite C. destruct (Z.eqb_spec (PyList.len (cards (self w))) 1); lia. }
    split; [exact Ci|]. rewrite A, Ci.
    replace (current_index (self w) - 1 <? current_index (self w)) with true
      by lia.
    reflexivity.
Qed.

Lemma delete_current_card_witness :
  exists w',
    delete_card None world_with_five = (Ok true, w')
    /\ current_index (self w') = 3
    /\ map title (cards (self w')) = ["Alpha"; "Beta"; "Gamma"; "Omega"].
Proof.
  destruct (delete_current_card world_with_five) as (w' & D & _ & _ & H).
  - cbn. lia.
  - exists w'. split; [exact D|].
    destruct H as [C _]; [cbn; lia|reflexivity|].
    split; [exact C|]. revert D. now intros [= <-].
Defined.

(** X11. Deleting another card than the current one.  When the card
    deleted comes after the cursor, the cursor and the current card are
    as before.  When it comes before the cursor, the cursor keeps its
    number, so the card that followed the current one becomes current;
    only when the current card was the last does the cursor move back by
    one and stay on it. *)
Theorem delete_other_card (i : Z) (w : World) :
  0 <= current_index (self w) < PyList.len (cards (self w)) ->
  0 <= i < PyList.len (cards (self w)) ->
  i <> current_index (self w) ->
  exists w',
    delete_card (Some i) w = (Ok true, w')
    /\ (current_index (self w) < i ->
        current_index (self w') = current_index (self w)
        /\ card_at (cards (self w')) (current_index (self w'))
           = card_at (cards (self w)) (current_index (self w)))
    /\ (i < current_index (self w) ->
        current_index (self w) + 1 < PyList.len (cards (self w)) ->
        current_index (self w') = current_index (self w)
        /\ card_at (cards (self w')) (current_index (self w'))
           = card_at (cards (self w)) (current_index (self w) + 1))
    /\ (i < current_index (self w) ->
        current_index (self w) + 1 = PyList.len (cards (self w)) ->
        current_index (self w') = current_index (self w) - 1
        /\ card_at (cards (self w')) (current_index (self w'))
           = card_at (cards (self w)) (current_index (self w))).
Proof.
  intros R Ri Ne.
  destruct (delete_card_cases (Some i) w)
    as [[_ [E|N]]|(_ & w' & D & L & A & C & _)].
  { rewrite E in R. unfold PyList.len in R. simpl in R. lia. }
  { exfalso. apply N. exact Ri. }
  change (target (Some i) w) with i in A.
  replace (PyList.len (cards (self w)) =? 1) with false in C by lia.
  exists w'. split; [exact D|]. split; [|split].
  - intros Lt.
    assert (Ci : current_index (self w') = current_index (self w)) by lia.
    split; [exact Ci|]. rewrite A, Ci.
    now replace (current_index (self w) <? i) with true by lia.
  - intros Lt More.
    assert (Ci : current_index (self w') = current_index (self w)) by lia.
    split; [exact Ci|]. rewrite A, Ci.
    now replace (current_index (self w) <? i) with false by lia.
  - intros Lt Last.
    assert (Ci : current_index (self w') = current_index (self w) - 1) by lia.
    split; [exact Ci|]. rewrite A, Ci.
    replace (current_index (self w) - 1 <? i) with false by lia.
    f_equal. lia.
Qed.

Lemma delete_other_card_witness :
  exists w',
    delete_card (Some 0)
      (with_self (mkCardFile five_cards 2 None false) world_with_five)
    = (Ok true, w')
    /\ current_index (self w') = 2
    /\ card_at (cards (self w')) 2
       = Some (mkCard 3 "Omega" "fourth" sample_time sample_time).
Proof.
  destruct (delete_other_card 0
              (with_self (mkCardFile five_cards 2 None false) world_with_five))
    as (w' & D & _ & H & _).
  - cbn. lia.
  - cbn. lia.
  - cbn. lia.
  - exists w'. split; [exact D|].
    destruct H as [C A]; [cbn; lia|cbn; lia|].
    split; [exact C|]. revert D. now intros [= <-].
Defined.

(** ** Moving the cursor *)

Lemma with_self_same (w : World) :
  with_self (mkCardFile (cards (self w)) (current_index (self w))
               (filepath (self w)) (cf_modified (self w))) w = w.
Proof. destruct w as [[l i p m] n c t d wr]. reflexivity. Qed.

(** The world with the cursor moved to [i]. *)
Lemma move_back (w : World) (i : Z) :
  with_self
    (mkCardFile (cards (self w)) (current_index (self w)) (filepath (self w))
       (cf_modified (self w)))
    (with_self (mkCardFile (cards (self w)) i (filepath (self w))
                  (cf_modified (self w))) w) = w.
Proof. destruct w as [[l j p m] n c t d wr]. reflexivity. Qed.

(** X12. With the cursor in bounds, [navigate_next] and
    [navigate_previous] undo each other: after a step that was taken, the
    opposite step is taken too and restores the state.  There is no
    wrap-around: on the last card [navigate_next] returns [False], on the
    first [navigate_previous] does, and the state is unchanged. *)
Theorem navigation_steps (w : World) :
  0 <= current_index (self w) < PyList.len (cards (self w)) ->
  (current_index (self w) + 1 < PyList.len (cards (self w)) ->
   exists w1, navigate_next w = (Ok true, w1)
     /\ current_index (self w1) = current_index (self w) + 1
     /\ navigate_previous w1 = (Ok true, w))
  /\ (current_index (self w) + 1 = PyList.len (cards (self w)) ->
      navigate_next w = (Ok false, w))
  /\ (0 < current_index (self w) ->
      exists w1, navigate_previous w = (Ok true, w1)
        /\ current_index (self w1) = current_index (self w) - 1
        /\ navigate_next w1 = (Ok true, w))
  /\ (current_index (self w) = 0 -> navigate_previous w = (Ok false, w)).
Proof.
  intros R. split; [|split; [|split]].
  - intros H. rewrite navigate_next_eq.
    replace (current_index (self w) <? PyList.len (cards (self w)) - 1)
      with true by lia.
    eexists. split; [reflexivity|]. split; [reflexivity|].
    rewrite navigate_previous_eq. unfold with_self; cbn [self cards
      current_index filepath cf_modified next_oid clock ticks disk writable].
    replace (current_index (self w) + 1 >? 0) with true by lia.
    replace (current_index (self w) + 1 - 1) with (current_index (self w))
      by lia.
    f_equal. apply with_self_same.
  - intros H. rewrite navigate_next_eq.
    now replace (current_index (self w) <? PyList.len (cards (self w)) - 1)
      with false by lia.
  - intros H. rewrite navigate_previous_eq.
    replace (current_index (self w) >? 0) with true by lia.
    eexists. split; [reflexivity|]. split; [reflexivity|].
    rewrite navigate_next_eq. unfold with_self; cbn [self cards
      current_index filepath cf_modified next_oid clock ticks disk writable].
    replace (current_index (self w) - 1 <? PyList.len (cards (self w)) - 1)
      with true by lia.
    replace (current_index (self w) - 1 + 1) with (current_index (self w))
      by lia.
    f_equal. apply with_self_same.
  - intros H. rewrite navigate_previous_eq.
    now replace (current_index (self w) >? 0) with false by lia.
Qed.

Lemma navigation_steps_witness :
  navigate_next world_with_five = (Ok false, world_with_five)
  /\ exists w1, navigate_previous world_with_five = (Ok true, w1)
       /\ current_index (self w1) = 3
       /\ navigate_next w1 = (Ok true, world_with_five).
Proof.
  destruct (navigation_steps world_with_five) as (_ & L & P & _).
  - cbn. lia.
  - split; [apply L; reflexivity|].
    destruct P as (w1 & E & C & B); [cbn; lia|].
    exists w1. repeat split; auto.
Defined.

Lemma goto_card_eq (go : bool) (entered : option Z) (w : World) :
  Window.goto_card go entered w =
  if nonempty (cards (self w)) then
    match (if go then Window.goto_ok entered (PyList.len (cards (self w)))
           else None) with
    | Some i =>
        if (0 <=? i) && (i <? PyList.len (cards (self w)))
        then (Ok tt,
              with_self (mkCardFile (cards (self w)) i (filepath (self w))
                           (cf_modified (self w))) w)
        else (Ok tt, w)
    | None => (Ok tt, w)
    end
  else (Ok tt, w).
Proof.
  unfold Window.goto_card. unfold bind at 1, get_self at 1.
  destruct (nonempty (cards (self w))); [|reflexivity]. cbn [negb].
  unfold bind at 1, card_count. unfold bind at 1, get_self at 1, ret at 1.
  destruct (if go then _ else _) as [i|]; [|reflexivity].
  unfold Window.navigate_to, bind. rewrite navigate_to_eq.
  now destruct (_ && _).
Qed.

(** X13. Go To.  [MainWindow.goto_card] never raises and never leaves the
    cursor out of bounds: the cursor moves exactly when the dialog was
    confirmed with a number between 1 and the number of cards, and then
    it is that number minus one, with nothing else changed; on an empty
    collection, a cancelled dialog, text that is not a number or a number
    out of range, the state is unchanged. *)
Theorem goto_card_outcomes (go : bool) (entered : option Z) (w : World) :
  (exists num,
     go = true /\ entered = Some num
     /\ 1 <= num <= PyList.len (cards (self w))
     /\ Window.goto_card go entered w
        = (Ok tt,
           with_self (mkCardFile (cards (self w)) (num - 1)
                        (filepath (self w)) (cf_modified (self w))) w))
  \/ (Window.goto_card go entered w = (Ok tt, w)
      /\ (go = false \/ entered = None
          \/ exists num, entered = Some num
               /\ ~ (1 <= num <= PyList.len (cards (self w))))).
Proof.
  rewrite goto_card_eq.
  destruct (nonempty (cards (self w))) eqn:NE.
  2:{ right. split; [reflexivity|].
      apply nonempty_false in NE. destruct entered as [num|]; auto.
      right. right. exists num. split; [reflexivity|].
      rewrite NE. unfold PyList.len. simpl. lia. }
  destruct go; [|right; split; [reflexivity|auto]].
  destruct entered as [num|]; [|right; split; [reflexivity|auto]].
  unfold Window.goto_ok.
  destruct ((1 <=? num) && (num <=? PyList.len (cards (self w)))) eqn:G.
  - left. exists num. repeat split; try lia.
    now replace ((0 <=? num - 1)
                 && (num - 1 <? PyList.len (cards (self w)))) with true by lia.
  - right. split; [reflexivity|]. right. right. exists num.
    split; [reflexivity|lia].
Qed.

(** ** Finding *)

Lemma keeps_iff (query : string) (c : Card) :
  keeps query true c = true <->
  Substring query (Str.lower (title c))
  \/ Substring query (Str.lower (content c)).
Proof.
  unfold keeps. rewrite orb_true_iff. cbn [andb].
  now rewrite !contains_iff.
Qed.

Lemma search_loop_range (query : string) (sc : bool) (l : list Card) (i : Z) :
  In i (search_loop query sc 0 l) ->
  0 <= i < PyList.len l
  /\ exists c, card_at l i = Some c /\ keeps query sc c = true.
Proof.
  intros H. apply search_loop_in in H as (L & c & N & K).
  rewrite Z.sub_0_r in N. split.
  - split; [exact L|]. unfold PyList.len.
    assert (Z.to_nat i < List.length l)%nat
      by (apply nth_error_Some; congruence).
    lia.
  - exists c. split; [now apply card_at_nth|exact K].
Qed.

Lemma search_loop_empty (query : string) (sc : bool) (l : list Card) :
  search_loop query sc 0 l = [] ->
  forall c, In c l -> keeps query sc c = false.
Proof.
  intros E c I. destruct (keeps query sc c) eqn:K; [|reflexivity].
  apply In_nth_error in I as [n N].
  assert (H : In (Z.of_nat n) (search_loop query sc 0 l)).
  { apply search_loop_in. split; [lia|]. exists c.
    rewrite Z.sub_0_r, Nat2Z.id. auto. }
  rewrite E in H. contradiction.
Qed.

Lemma first_where_in (test : Z -> bool) (l : list Z) (j : Z) :
  first_where test l = Some j -> In j l.
Proof.
  intros H. apply first_where_some in H as (pre & post & -> & _).
  apply in_or_app. right. now left.
Qed.

(** The two ways [find_next] ends. *)
Lemma find_next_cases (query : string) (from_index : Z) (w : World) :
  (find_next query from_index w = (Ok None, w)
   /\ forall c, In c (cards (self w)) ->
        ~ Substring (Str.lower query) (Str.lower (title c))
        /\ ~ Substring (Str.lower query) (Str.lower (content c)))
  \/ (exists j c,
        find_next query from_index w = (Ok (Some j), w)
        /\ 0 <= j < PyList.len (cards (self w))
        /\ card_at (cards (self w)) j = Some c
        /\ (Substring (Str.lower query) (Str.lower (title c))
            \/ Substring (Str.lower query) (Str.lower (content c)))).
Proof.
  rewrite find_next_eq. cbv zeta.
  set (results := search_loop (Str.lower query) true 0 (cards (self w))).
  assert (Found : forall j, In j results ->
            exists c, 0 <= j < PyList.len (cards (self w))
              /\ card_at (cards (self w)) j = Some c
              /\ (Substring (Str.lower query) (Str.lower (title c))
                  \/ Substring (Str.lower query) (Str.lower (content c)))).
  { intros j Hj. apply search_loop_range in Hj as (R & c & A & K).
    exists c. repeat split; try tauto. now apply keeps_iff. }
  destruct (first_where (fun idx => idx >? from_index) results) as [j|] eqn:G.
  { right. destruct (Found j (first_where_in _ _ _ G)) as (c & R & A & K).
    exists j, c. auto. }
  destruct (first_where (fun idx => idx <=? from_index) results) as [j|] eqn:L.
  { right. destruct (Found j (first_where_in _ _ _ L)) as (c & R & A & K).
    exists j, c. auto. }
  left. split; [reflexivity|].
  apply first_where_none in G. apply first_where_none in L.
  assert (E : results = []).
  { destruct results as [|x r]; [reflexivity|].
    inversion G; inversion L; subst. lia. }
  intros c I. pose proof (search_loop_empty _ _ _ E c I) as K.
  split; intros S; assert (T : keeps (Str.lower query) true c = true)
    by (apply keeps_iff; auto); congruence.
Qed.

(** X14. [CardFile.find_next], whatever [from_index] is (negative and
    past the end included): it returns [None] exactly when no card has
    the query in its title or content (case ignored); otherwise it
    returns a position of the list whose card has.  It never raises and
    changes nothing. *)
Theorem find_next_result (query : string) (from_index : Z) (w : World) :
  (find_next query from_index w = (Ok None, w)
   /\ forall c, In c (cards (self w)) ->
        ~ Substring (Str.lower query) (Str.lower (title c))
        /\ ~ Substring (Str.lower query) (Str.lower (content c)))
  \/ (exists j c,
        find_next query from_index w = (Ok (Some j), w)
        /\ 0 <= j < PyList.len (cards (self w))
        /\ card_at (cards (self w)) j = Some c
        /\ (Substring (Str.lower query) (Str.lower (title c))
            \/ Substring (Str.lower query) (Str.lower (content c)))).
Proof.
  destruct (find_next_cases query from_index w) as [H|H]; [left|right]; exact H.
Qed.

Lemma on_find_eq (query : string) (search_content : bool) (w : World) :
  Window.on_find query search_content w =
  match find_next query (current_index (self w)) w with
  | (Ok (Some i), _) =>
      if (0 <=? i) && (i <? PyList.len (cards (self w)))
      then (Ok true,
            with_self (mkCardFile (cards (self w)) i (filepath (self w))
                         (cf_modified (self w))) w)
      else (Ok true, w)
  | (Ok None, _) => (Ok false, w)
  | (Raise e, w') => (Raise e, w')
  end.
Proof.
  unfold Window.on_find. unfold bind at 1, get_self at 1. unfold bind at 1.
  rewrite find_next_eq. cbv zeta.
  destruct (match first_where _ _ with Some idx => Some idx | None => _ end)
    as [i|]; [|reflexivity].
  unfold Window.navigate_to, bind. rewrite navigate_to_eq.
  now destruct (_ && _).
Qed.

(** X15. Find in the window ([on_find], the callback of
    [MainWindow.find_card]).  If no card has the query in its title or
    content it reports nothing found and the state is unchanged.
    Otherwise the cursor moves to the position [find_next] returns from
    the current one, which is always accepted, so the card then current
    has the query in its title or content; nothing else changes.  The
    dialog's "search in content" choice plays no part: content is always
    searched. *)
Theorem on_find_outcomes (query : string) (search_content : bool)
  (w : World) :
  ((Window.on_find query search_content w = (Ok false, w)
    /\ forall c, In c (cards (self w)) ->
         ~ Substring (Str.lower query) (Str.lower (title c))
         /\ ~ Substring (Str.lower query) (Str.lower (content c)))
   \/ (exists j c,
         find_next query (current_index (self w)) w = (Ok (Some j), w)
         /\ Window.on_find query search_content w
            = (Ok true,
               with_self (mkCardFile (cards (self w)) j (filepath (self w))
                            (cf_modified (self w))) w)
         /\ card_at (cards (self w)) j = Some c
         /\ (Substring (Str.lower query) (Str.lower (title c))
             \/ Substring (Str.lower query) (Str.lower (content c)))))
  /\ Window.on_find query search_content w = Window.on_find query true w.
Proof.
  split; [|reflexivity].
  rewrite on_find_eq.
  destruct (find_next_cases query (current_index (self w)) w)
    as [[E N]|(j & c & E & R & A & K)]; rewrite E.
  - left. auto.
  - right. exists j, c. split; [reflexivity|].
    replace ((0 <=? j) && (j <? PyList.len (cards (self w)))) with true
      by lia.
    auto.
Qed.

(** ** The current card and the status bar *)

Lemma current_card_eq (w : World) :
  current_card w =
  if nonempty (cards (self w)) then
    match PyList.getitem (cards (self w)) (current_index (self w)) with
    | Ok c => (Ok (Some c), w)
    | Raise e => (Raise e, w)
    end
  else (Ok None, w).
Proof.
  unfold current_card. unfold_monad.
  destruct (nonempty (cards (self w))); [|reflexivity]. cbn [negb].
  now destruct (PyList.getitem _ _).
Qed.

(** X16. [CardFile.current_card]: [None] on an empty collection; the card
    at the cursor when the cursor is in bounds; with a negative cursor no
    smaller than minus the length, the card counted from the end; and an
    [IndexError] when the collection has cards and the cursor is beyond
    either end.  The state is never changed. *)
Theorem current_card_outcomes (w : World) :
  (cards (self w) = [] -> current_card w = (Ok None, w))
  /\ (0 <= current_index (self w) < PyList.len (cards (self w)) ->
      exists c, card_at (cards (self w)) (current_index (self w)) = Some c
        /\ current_card w = (Ok (Some c), w))
  /\ (- PyList.len (cards (self w)) <= current_index (self w) < 0 ->
      exists c,
        card_at (cards (self w))
          (current_index (self w) + PyList.len (cards (self w))) = Some c
        /\ current_card w = (Ok (Some c), w))
  /\ (cards (self w) <> [] ->
      current_index (self w) < - PyList.len (cards (self w))
      \/ PyList.len (cards (self w)) <= current_index (self w) ->
      current_card w = (Raise IndexError, w)).
Proof.
  rewrite current_card_eq. split; [|split; [|split]].
  - intros E. apply nonempty_false in E. now rewrite E.
  - intros R. destruct (getitem_in_range _ _ _ R) as (c & G & N & _).
    assert (NE : nonempty (cards (self w)) = true).
    { apply nonempty_true. intros E. rewrite E in R.
      unfold PyList.len in R. simpl in R. lia. }
    rewrite NE, G. exists c. split; [|reflexivity].
    apply card_at_nth. split; [lia|exact N].
  - intros R.
    assert (NE : nonempty (cards (self w)) = true).
    { apply nonempty_true. intros E. rewrite E in R.
      unfold PyList.len in R. simpl in R. lia. }
    rewrite NE. unfold PyList.getitem.
    replace (current_index (self w) <? 0) with true by lia.
    replace ((0 <=? current_index (self w) + PyList.len (cards (self w)))
             && (current_index (self w) + PyList.len (cards (self w))
                 <? PyList.len (cards (self w)))) with true by lia.
    destruct (nth_error (cards (self w))
                (Z.to_nat (current_index (self w)
                           + PyList.len (cards (self w))))) as [c|] eqn:N.
    + exists c. split; [|reflexivity]. apply card_at_nth. split; [lia|exact N].
    + apply nth_error_None in N. unfold PyList.len in *. lia.
  - intros NE R. apply nonempty_true in NE. rewrite NE.
    unfold PyList.getitem.
    destruct (current_index (self w) <? 0) eqn:Neg.
    + now replace ((0 <=? current_index (self w)
                           + PyList.len (cards (self w)))
                   && (current_index (self w) + PyList.len (cards (self w))
                       <? PyList.len (cards (self w)))) with false by lia.
    + now replace ((0 <=? current_index (self w))
                   && (current_index (self w)
                       <? PyList.len (cards (self w)))) with false by lia.
Qed.

Lemma refresh_status_eq (w : World) :
  Window.refresh_status w =
  (Ok ("Card "
       ++ PyStr.str_int (if PyList.len (cards (self w)) >? 0
                         then current_index (self w) + 1 else 0)
       ++ " of " ++ PyStr.str_int (PyList.len (cards (self w))))%string, w).
Proof. reflexivity. Qed.

(** X17. The status bar ([MainWindow.refresh_status]), in a state whose
    cursor is in bounds: it reads "Card k of n" with [n] the number of
    cards and [k] the cursor plus one, so [1 <= k <= n]; on an empty
    collection it reads "Card 0 of 0". *)
Theorem refresh_status_numbers (w : World) :
  cursor_ok (self w) ->
  exists k,
    Window.refresh_status w
    = (Ok ("Card " ++ PyStr.str_int k ++ " of "
           ++ PyStr.str_int (PyList.len (cards (self w))))%string, w)
    /\ ((cards (self w) = [] /\ k = 0)
        \/ (k = current_index (self w) + 1
            /\ 1 <= k <= PyList.len (cards (self w)))).
Proof.
  intros C. rewrite refresh_status_eq. eexists. split; [reflexivity|].
  unfold cursor_ok in C. destruct (cards (self w)) as [|x l] eqn:E.
  - left. split; reflexivity.
  - right. replace (PyList.len (x :: l) >? 0) with true
      by (unfold PyList.len; simpl List.length; lia).
    lia.
Qed.

Lemma refresh_status_numbers_witness :
  Window.refresh_status world_with_five
  = (Ok "Card 5 of 5", world_with_five).
Proof.
  destruct (refresh_status_numbers world_with_five) as (k & E & [[H _]|[K _]]).
  - cbn. lia.
  - discriminate.
  - rewrite E, K. reflexivity.
Defined.

(** ** Saving before the collection is discarded *)

Lemma check_save_eq (answer : option bool) (chosen : string) (w : World) :
  Window.check_save answer chosen w =
  if cf_modified (self w) then
    match answer with
    | None => (Ok false, w)
    | Some false => (Ok true, w)
    | Some true =>
        match filepath (self w) with
        | Some _ => save_to_file None w
        | None => if Str.truthy chosen then save_to_file (Some chosen) w
                  else (Ok false, w)
        end
    end
  else (Ok true, w).
Proof.
  unfold Window.check_save. unfold bind at 1, get_self at 1.
  destruct (cf_modified (self w)); [|reflexivity].
  destruct answer as [[|]|]; try reflexivity.
  unfold Window.save_file. unfold bind at 1, get_self at 1.
  destruct (filepath (self w)); [reflexivity|].
  unfold Window.save_file_as. now destruct (Str.truthy chosen).
Qed.


(** ** Adding *)

(** X19. [CardFile.add_card] from a state that satisfies the invariant:
    it returns a new card, with the content given, the title given (or
    "Untitled" for a blank one) and two clock readings as timestamps; the
    list afterwards holds that card and exactly the cards it held, one
    more in all; the dirty flag is set and the path is kept. *)
Theorem add_card_postcondition (t s : string) (w : World) :
  inv w ->
  exists nc w',
    add_card t s w = (Ok nc, w')
    /\ Permutation (cards (self w')) (nc :: cards (self w))
    /\ PyList.len (cards (self w')) = PyList.len (cards (self w)) + 1
    /\ ~ In (oid nc) (map oid (cards (self w)))
    /\ title nc = (if Str.all_space t then "Untitled" else t)
    /\ content nc = s
    /\ created nc = clock w (ticks w)
    /\ modified nc = clock w (S (ticks w))
    /\ cf_modified (self w') = true
    /\ filepath (self w') = filepath (self w).
Proof.
  intros I.
  destruct (add_card_cursor t s w I) as (nc & w' & E & -> & N & L & P & D & _).
  eexists; eexists. split; [exact E|].
  split.
  { rewrite L. rewrite sort_perm. rewrite Permutation_app_comm. reflexivity. }
  split; [rewrite L, sort_length; apply len_app_last|].
  split; [exact N|]. unfold card_made.
  rewrite title_init, content_init, created_init, modified_init.
  repeat split; auto.
Qed.

Lemma add_card_postcondition_witness :
  exists nc w',
    add_card "Budget" "Track expenses" recipe_world = (Ok nc, w')
    /\ PyList.len (cards (self w')) = 2
    /\ title nc = "Budget"
    /\ cf_modified (self w') = true.
Proof.
  assert (I : inv recipe_world) by inv_by_computation.
  destruct (add_card_postcondition "Budget" "Track expenses" recipe_world I)
    as (nc & w' & E & _ & L & _ & T & _ & _ & _ & D & _).
  exists nc, w'. repeat split; auto.
Defined.

Lemma strip_not_blank (s : string) :
  Str.all_space s = false -> Str.all_space (Str.strip s) = false.
Proof.
  intros H. destruct (Str.all_space (Str.strip s)) eqn:A; [|reflexivity].
  apply all_space_rstrip in A. fold (Str.strip s) in A.
  apply strip_empty_iff in A. congruence.
Qed.

(** X20. Adding through the dialog ([AddEditCardDialog.ok], then
    [MainWindow.add_card]): the card added has the text typed as title
    with the white space at its ends removed, or "Untitled" if nothing
    else was typed, so its title is never blank and never has white space
    at its ends; the content is what was typed, unchanged. *)
Theorem window_add_card_title (entered_title entered_content : string)
  (w : World) :
  inv w ->
  exists nc w',
    Window.add_card
      (Some (Window.add_edit_ok entered_title entered_content)) w
    = (Ok tt, w')
    /\ In nc (cards (self w'))
    /\ ~ In (oid nc) (map oid (cards (self w)))
    /\ title nc = (if Str.all_space entered_title then "Untitled"
                   else Str.strip entered_title)
    /\ PyStr.trimmed (title nc)
    /\ Str.all_space (title nc) = false
    /\ content nc = entered_content.
Proof.
  intros I. unfold Window.add_edit_ok, Window.add_card.
  set (t := if Str.truthy (Str.strip entered_title)
            then Str.strip entered_title else "Untitled").
  destruct (add_card_cursor t entered_content w I)
    as (nc & w' & E & -> & N & L & _).
  exists (card_made t entered_content w), w'.
  split; [unfold bind; now rewrite E|].
  split; [rewrite L; apply sort_in, in_or_app; right; now left|].
  split; [exact N|].
  assert (T : t = if Str.all_space entered_title then "Untitled"
                  else Str.strip entered_title).
  { unfold t. rewrite truthy_strip.
    now destruct (Str.all_space entered_title). }
  assert (B : Str.all_space t = false).
  { rewrite T. destruct (Str.all_space entered_title) eqn:A; [reflexivity|].
    now apply strip_not_blank. }
  unfold card_made. rewrite title_init, content_init, B.
  split; [exact T|]. split; [|split; [exact B|reflexivity]].
  unfold PyStr.trimmed. rewrite T.
  destruct (Str.all_space entered_title); [reflexivity|apply strip_idempotent].
Qed.

Lemma window_add_card_title_witness :
  exists nc w',
    Window.add_card (Some (Window.add_edit_ok "  Budget " "Track expenses"))
      recipe_world = (Ok tt, w')
    /\ In nc (cards (self w'))
    /\ title nc = "Budget".
Proof.
  assert (I : inv recipe_world) by inv_by_computation.
  destruct (window_add_card_title "  Budget " "Track expenses" recipe_world I)
    as (nc & w' & E & M & _ & T & _).
  exists nc, w'. repeat split; auto.
Defined.

Lemma add_card_to_empty (t s : string) (w : World) :
  add_card t s (with_self empty_cardfile w)
  = (Ok (card_made t s w),
     after_new_Card (mkCardFile [card_made t s w] 0 None true) w).
Proof.
  destruct (add_card_ok t s (with_self empty_cardfile w) (inv_empty w))
    as (i & Ei & E & _).
  rewrite E. clear E.
  change (card_made t s (with_self empty_cardfile w)) with (card_made t s w)
    in *.
  cbn [with_self self cards empty_cardfile app PyList.sort PyList.insert] in Ei.
  unfold PyList.index in Ei. cbn [PyList.index_from] in Ei.
  rewrite same_or_eqb_refl in Ei. injection Ei as <-.
  reflexivity.
Qed.

(** X21. New in the window ([MainWindow.new_file]).  When the collection
    is clean, or the user answers No to saving, the collection afterwards
    holds exactly one card, titled "Welcome", with the cursor on it and
    no path, and it is already dirty.  When the collection is dirty and
    the user cancels, nothing changes. *)
Theorem window_new_file (answer : option bool) (chosen : string)
  (w : World) :
  (cf_modified (self w) = false \/ answer = Some false ->
   exists w',
     Window.new_file answer chosen w = (Ok tt, w')
     /\ self w' = mkCardFile [card_made "Welcome" Window.welcome_new w] 0
                    None true
     /\ title (card_made "Welcome" Window.welcome_new w) = "Welcome")
  /\ (cf_modified (self w) = true -> answer = None ->
      Window.new_file answer chosen w = (Ok tt, w)).
Proof.
  unfold Window.new_file. split.
  - intros H. unfold bind at 1. rewrite check_save_eq.
    assert (E : (if cf_modified (self w)
                 then match answer with
                      | Some true =>
                          match filepath (self w) with
                          | Some _ => save_to_file None w
                          | None =>
                              if Str.truthy chosen
                              then save_to_file (Some chosen) w
                              else (Ok false, w)
                          end
                      | Some false => (Ok true, w)
                      | None => (Ok false, w)
                      end
                 else (Ok true, w)) = (Ok true, w)).
    { destruct H as [-> | ->]; [reflexivity|].
      now destruct (cf_modified (self w)). }
    rewrite E. cbn [negb]. unfold bind at 1. rewrite new_file_eq.
    unfold bind at 1. rewrite add_card_to_empty.
    eexists. split; [reflexivity|]. split; reflexivity.
  - intros M ->. unfold bind at 1. rewrite check_save_eq, M. reflexivity.
Qed.

(** ** The window title *)

Lemma get_title_eq (stem : string -> string) (w : World) :
  get_title stem w =
  (Ok ((match filepath (self w) with Some p => stem p | None => "Untitled" end)
       ++ (if cf_modified (self w) then " *" else "")
       ++ " - CardFile")%string, w).
Proof. reflexivity. Qed.

(** X22. [CardFile.get_title] after a change and after a save, from a
    state that satisfies the invariant.  After [add_card] the title is the
    name it had (the stem of the stored path, or "Untitled"), followed by
    " *" and " - CardFile".  After a [save_to_file] that succeeds it is
    the stem of the path saved to followed by " - CardFile", with no
    mark. *)
Theorem get_title_marks_changes (stem : string -> string) (t s p : string)
  (w : World) :
  inv w ->
  (exists nc w1,
     add_card t s w = (Ok nc, w1)
     /\ get_title stem w1
        = (Ok ((match filepath (self w) with
                | Some q => stem q
                | None => "Untitled"
                end) ++ " * - CardFile")%string, w1))
  /\ (writable w p = true ->
      exists w1,
        save_to_file (Some p) w = (Ok true, w1)
        /\ get_title stem w1 = (Ok (stem p ++ " - CardFile")%string, w1)).
Proof.
  intros I. split.
  - destruct (add_card_cursor t s w I) as (nc & w1 & E & _ & _ & _ & P & D & _).
    exists nc, w1. split; [exact E|].
    rewrite get_title_eq, P, D. reflexivity.
  - intros Wr. rewrite save_to_file_eq, Wr.
    eexists. split; [reflexivity|]. reflexivity.
Qed.

Lemma get_title_marks_changes_witness :
  exists nc w1,
    add_card "Budget" "" recipe_world = (Ok nc, w1)
    /\ get_title (fun q => q) w1 = (Ok "Untitled * - CardFile", w1).
Proof.
  assert (I : inv recipe_world) by inv_by_computation.
  destruct (get_title_marks_changes (fun q => q) "Budget" "" "x" recipe_world I)
    as ((nc & w1 & E & G) & _).
  exists nc, w1. split; [exact E|exact G].
Defined.

(** ** Sorting again *)

Lemma DT_eqb_eq (a b : datetime) : DT.eqb a b = true <-> a = b.
Proof.
  unfold DT.eqb. split.
  - intros H. repeat (apply andb_true_iff in H; destruct H as [H ?]).
    repeat match goal with
           | X : (_ =? _)%N = true |- _ => apply N.eqb_eq in X
           end.
    destruct a, b; simpl in *. congruence.
  - intros ->. now rewrite !N.eqb_refl.
Qed.

Lemma card_eqb_fields (a b : Card) :
  CardM.eqb a b = true <-> fields a = fields b.
Proof.
  unfold CardM.eqb, fields. split.
  - intros H. repeat (apply andb_true_iff in H; destruct H as [H ?]).
    apply String.eqb_eq in H. apply String.eqb_eq in H2.
    apply DT_eqb_eq in H1. apply DT_eqb_eq in H0. congruence.
  - intros [= -> -> -> ->].
    rewrite !String.eqb_refl.
    now rewrite (proj2 (DT_eqb_eq _ _) eq_refl), (proj2 (DT_eqb_eq _ _) eq_refl).
Qed.

Lemma index_unique (c e : Card) (l : list Card) (i i' : Z) :
  PyList.index c l = Ok i' ->
  card_at l i = Some e ->
  CardM.same_or_eqb e c = true ->
  (forall j x, 0 <= j < i -> card_at l j = Some x ->
     CardM.same_or_eqb x c = false) ->
  i' = i.
Proof.
  intros E A Q F.
  apply index_from_spec in E as (R & e' & N & Q' & F').
  rewrite Z.sub_0_r in *.
  pose proof A as A'. apply card_at_nth in A' as [Pos N0].
  destruct (Z.lt_trichotomy i' i) as [L|[L|L]]; [|exact L|].
  - rewrite (F i' e') in Q'; [discriminate|lia|].
    apply card_at_nth. split; [lia|exact N].
  - rewrite (F' (Z.to_nat i) e) in Q; [discriminate|lia|exact N0].
Qed.

(** X23. [CardFile.sort_cards] is idempotent: from a state that satisfies
    the invariant, the state a call leaves is left as it is by a second
    call, cursor included. *)
Theorem sort_cards_idempotent (w w1 : World) :
  inv w ->
  sort_cards w = (Ok tt, w1) ->
  sort_cards w1 = (Ok tt, w1).
Proof.
  intros I E.
  destruct (cards (self w)) as [|x0 l0] eqn:Em.
  { rewrite sort_cards_empty in E by exact Em. injection E as <-.
    now apply sort_cards_empty. }
  assert (NE : cards (self w) <> []) by (rewrite Em; discriminate).
  clear Em x0 l0.
  destruct (sort_cards_cursor w I NE) as (cur & w' & A & In0 & E' & L & K).
  rewrite E in E'. injection E' as <-.
  destruct I as (C & _ & H).
  destruct (sort_cards_inv w C H) as (w2 & E2 & I1 & _).
  rewrite E in E2. injection E2 as <-.
  destruct K as (e & Ae & Qe & Fe & _).
  pose proof I1 as (C1 & S1 & ND1 & _).
  assert (NE1 : cards (self w1) <> []).
  { intros Z. rewrite Z in Ae. unfold card_at in Ae.
    destruct (_ <? 0); [discriminate|]. destruct (Z.to_nat _); discriminate. }
  destruct (sort_cards_ok w1 NE1 (cursor_ok_range _ C1 NE1))
    as (cur1 & i1 & A1 & Ei & _ & Es).
  rewrite Ae in A1. injection A1 as <-.
  rewrite (sort_sorted_id _ S1) in Ei, Es.
  assert (In1 : In e (cards (self w1))).
  { apply card_at_nth in Ae as [_ N]. eapply nth_error_In, N. }
  assert (U : i1 = current_index (self w1)).
  { apply (index_unique e e (cards (self w1)) _ _ Ei Ae (same_or_eqb_refl e)).
    intros j x Hj Hx. destruct (Fe j x Hj Hx) as [_ Nx].
    unfold CardM.same_or_eqb. apply orb_false_iff. split.
    - apply Nat.eqb_neq. intros O.
      assert (Ix : In x (cards (self w1))).
      { apply card_at_nth in Hx as [_ N]. eapply nth_error_In, N. }
      rewrite (same_object _ x e ND1 Ix In1 O) in Nx. congruence.
    - destruct (CardM.eqb x e) eqn:Q; [|reflexivity].
      apply card_eqb_fields in Q. apply card_eqb_fields in Qe.
      assert (T : CardM.eqb x cur = true)
        by (apply card_eqb_fields; congruence).
      congruence. }
  rewrite Es, U. f_equal. apply with_self_same.
Qed.

Lemma sort_cards_idempotent_witness :
  sort_cards twins_world
  = (Ok tt, with_self (mkCardFile [first_twin; second_twin] 0
                         (Some "twins.crd") false) twins_world)
  /\ sort_cards (with_self (mkCardFile [first_twin; second_twin] 0
                              (Some "twins.crd") false) twins_world)
     = (Ok tt, with_self (mkCardFile [first_twin; second_twin] 0
                            (Some "twins.crd") false) twins_world).
Proof.
  assert (E : sort_cards twins_world
              = (Ok tt, with_self (mkCardFile [first_twin; second_twin] 0
                                     (Some "twins.crd") false) twins_world))
    by (vm_compute; reflexivity).
  split; [exact E|].
  apply (sort_cards_idempotent twins_world); [|exact E].
  inv_by_computation.
Defined.

(** ** Editing the current card *)

Lemma edit_card_eq (new_title new_content : string) (w : World) :
  edit_card new_title new_content w =
  if nonempty (cards (self w)) then
    match PyList.getitem (cards (self w)) (current_index (self w)) with
    | Raise e => (Raise e, w)
    | Ok card =>
        sort_cards
          (mkWorld
             (mkCardFile
                (update_object (oid card)
                   (CardM.update_content new_content (clock w (S (ticks w))))
                   (update_object (oid card)
                      (CardM.update_title new_title (clock w (ticks w)))
                      (cards (self w))))
                (current_index (self w)) (filepath (self w)) true)
             (next_oid w) (clock w) (S (S (ticks w))) (disk w) (writable w))
    end
  else (Ok tt, w).
Proof.
  unfold edit_card, current_card. unfold bind at 1. unfold bind at 1.
  unfold get_self at 1.
  destruct (nonempty (cards (self w))); cbn [negb]; [|reflexivity].
  unfold bind at 1, lift at 1.
  destruct (PyList.getitem _ _) as [card|e]; [|reflexivity].
  unfold bind at 1, ret at 1. unfold_monad.
  cbn [self cards current_index filepath cf_modified next_oid clock ticks
       disk writable].
  now destruct (sort_cards _) as [[u|e] w1].
Qed.

Lemma update_object_twice (id : nat) (f g : Card -> Card) (l : list Card) :
  (forall c, oid (f c) = oid c) ->
  update_object id g (update_object id f l)
  = update_object id (fun c => g (f c)) l.
Proof.
  intros H. unfold update_object. rewrite map_map. apply map_ext.
  intros c. destruct (Nat.eqb_spec (oid c) id) as [E|N].
  - rewrite H. destruct (Nat.eqb_spec (oid c) id); congruence.
  - destruct (Nat.eqb_spec (oid c) id); congruence.
Qed.

Lemma update_object_nth (id : nat) (f : Card -> Card) (l : list Card)
  (n : nat) :
  nth_error (update_object id f l) n
  = option_map (fun c => if Nat.eqb (oid c) id then f c else c)
      (nth_error l n).
Proof. unfold update_object. apply nth_error_map. Qed.

Lemma update_object_in (card : Card) (f : Card -> Card) (l : list Card) :
  NoDup (map oid l) -> In card l ->
  forall c, In c (update_object (oid card) f l) <->
            c = f card \/ (In c l /\ c <> card).
Proof.
  intros ND I c. unfold update_object. rewrite in_map_iff. split.
  - intros (x & E & Ix). destruct (Nat.eqb_spec (oid x) (oid card)) as [O|O].
    + left. now rewrite <- E, (same_object l x card ND Ix I O).
    + right. subst c. split; [exact Ix|]. intros ->. congruence.
  - intros [->|[Ic N]].
    + exists card. now rewrite Nat.eqb_refl.
    + exists c. split; [|exact Ic].
      destruct (Nat.eqb_spec (oid c) (oid card)) as [O|O]; [|reflexivity].
      exfalso. apply N. exact (same_object l c card ND Ic I O).
Qed.

(** X24. Editing the current card ([MainWindow.edit_card] with a
    confirmed dialog) from a state that satisfies the invariant.  On an
    empty collection nothing happens.  Otherwise the object that was
    current stays in the list with its identity and [created], its title
    as [update_title] makes it, the new content, and the second of two
    clock readings as [modified]; every other card is in the list
    unchanged, and no card is added or lost; the list is sorted again,
    the dirty flag is set, the path kept, and the cursor is on the edited
    card or on a card equal to it. *)
Theorem edit_card_postcondition (new_title new_content : string)
  (w : World) :
  inv w ->
  (cards (self w) = [] -> edit_card new_title new_content w = (Ok tt, w))
  /\ (cards (self w) <> [] ->
      exists card edited e w',
        card_at (cards (self w)) (current_index (self w)) = Some card
        /\ edit_card new_title new_content w = (Ok tt, w')
        /\ edited = CardM.update_content new_content (clock w (S (ticks w)))
                      (CardM.update_title new_title (clock w (ticks w)) card)
        /\ oid edited = oid card /\ created edited = created card
        /\ title edited = (if Str.all_space new_title then "Untitled"
                           else Str.strip new_title)
        /\ content edited = new_content
        /\ modified edited = clock w (S (ticks w))
        /\ (forall c, In c (cards (self w')) <->
              c = edited \/ (In c (cards (self w)) /\ c <> card))
        /\ PyList.len (cards (self w')) = PyList.len (cards (self w))
        /\ title_sorted (cards (self w'))
        /\ cf_modified (self w') = true
        /\ filepath (self w') = filepath (self w)
        /\ card_at (cards (self w')) (current_index (self w')) = Some e
        /\ CardM.eqb e edited = true).
Proof.
  intros I. rewrite edit_card_eq. split.
  { intros E. apply nonempty_false in E. now rewrite E. }
  intros NE. pose proof I as (C & _ & ND & F).
  pose proof (cursor_ok_range _ C NE) as R.
  destruct (getitem_in_range _ _ _ R) as (card & G & N & In0).
  apply nonempty_true in NE. rewrite NE, G.
  set (f := fun c => CardM.update_content new_content (clock w (S (ticks w)))
                       (CardM.update_title new_title (clock w (ticks w)) c)).
  rewrite (update_object_twice (oid card)
             (CardM.update_title new_title (clock w (ticks w)))
             (CardM.update_content new_content (clock w (S (ticks w)))))
    by reflexivity.
  fold f.
  set (l2 := update_object (oid card) f (cards (self w))).
  set (w0 := mkWorld (mkCardFile l2 (current_index (self w))
                        (filepath (self w)) true)
               (next_oid w) (clock w) (S (S (ticks w))) (disk w)
               (writable w)).
  assert (M2 : map oid l2 = map oid (cards (self w))).
  { unfold l2. apply map_oid_update_object. reflexivity. }
  assert (L2 : PyList.len l2 = PyList.len (cards (self w))).
  { unfold l2. apply update_object_length. }
  assert (NE0 : cards (self w0) <> []).
  { cbn [w0 self cards]. intros Z. rewrite Z in L2.
    unfold PyList.len in L2 at 1. simpl in L2. lia. }
  assert (R0 : 0 <= current_index (self w0) < PyList.len (cards (self w0))).
  { cbn [w0 self cards current_index]. now rewrite L2. }
  destruct (sort_cards_ok w0 NE0 R0) as (cur & i & A & Ei & Ri & Es).
  assert (Cur : cur = f card).
  { cbn [w0 self cards current_index] in A. apply card_at_nth in A as [_ A].
    unfold l2 in A. rewrite update_object_nth, N in A. simpl in A.
    rewrite Nat.eqb_refl in A. congruence. }
  subst cur.
  assert (ND2 : NoDup (map oid l2)) by (now rewrite M2).
  assert (In2 : In (f card) l2).
  { apply (update_object_in card f _ ND In0). now left. }
  destruct (cursor_after_sort l2 (f card) i ND2 In2 Ei) as (e & Ae & Qe & _).
  exists card, (f card), e. eexists.
  split; [apply card_at_nth; split; [lia|exact N]|].
  split; [exact Es|]. split; [reflexivity|].
  unfold with_self; cbn [w0 self cards current_index filepath cf_modified].
  split; [reflexivity|]. split; [reflexivity|].
  split.
  { unfold f. cbn [title CardM.update_content CardM.with_modified
                   CardM.with_content].
    unfold CardM.update_title.
    cbn [title CardM.with_modified CardM.with_title].
    rewrite truthy_strip. now destruct (Str.all_space new_title). }
  split; [reflexivity|]. split; [reflexivity|].
  split.
  { intros c. rewrite sort_in. apply (update_object_in card f _ ND In0). }
  split; [now rewrite sort_length|].
  split; [apply sort_sorted|].
  split; [reflexivity|]. split; [reflexivity|].
  split; [exact Ae|exact Qe].
Qed.

Lemma edit_card_postcondition_witness :
  exists w',
    edit_card "  Recipes " "Flour, water, salt" recipe_world = (Ok tt, w')
    /\ map title (cards (self w')) = ["Recipes"]
    /\ map content (cards (self w')) = ["Flour, water, salt"]
    /\ map oid (cards (self w')) = map oid (cards (self recipe_world)).
Proof.
  assert (I : inv recipe_world) by inv_by_computation.
  destruct (edit_card_postcondition "  Recipes " "Flour, water, salt"
              recipe_world I) as [_ H].
  destruct H as (card & edited & e & w' & _ & E & _); [discriminate|].
  exists w'. split; [exact E|]. revert E. now intros [= <-].
Defined.

(** ** The window as a whole *)















(** ** Records that cannot be read *)

(** X26. What [Card.from_dict] raises.  A record that is not a dict has
    no [get]: [AttributeError], before anything is done.  A "created"
    that is present but is not a string is a [TypeError] of
    [fromisoformat], again before anything is done.  A title that is
    present but is not a string gets as far as the constructor, whose
    [strip] call fails with [AttributeError]; the clock has then been
    read, but the collection is as it was. *)
Theorem from_dict_errors (w : World) :
  (forall data, (forall d, data <> JObj d) ->
     from_dict data w = (Raise AttributeError, w))
  /\ (forall d v, Json.lookup "created" d = Some v ->
        (forall s, v <> JStr s) ->
        from_dict (JObj d) w = (Raise TypeError, w))
  /\ (forall d v, Json.lookup "created" d = None ->
        Json.lookup "modified" d = None ->
        Json.lookup "title" d = Some v ->
        (forall s, v <> JStr s) ->
        exists w', from_dict (JObj d) w = (Raise AttributeError, w')
                   /\ self w' = self w).
Proof.
  split; [|split].
  - intros data H. destruct data; try reflexivity.
    exfalso. now apply (H l).
  - intros d v L H. unfold from_dict, bind at 1, timestamp_field.
    rewrite L. destruct v; try reflexivity. exfalso. now apply (H s).
  - intros d v Lc Lm Lt H. unfold from_dict.
    unfold bind at 1. rewrite (timestamp_field_missing _ _ _ Lc).
    unfold now at 1. unfold bind at 1.
    rewrite (timestamp_field_missing _ _ _ Lm). unfold now at 1.
    unfold bind, alloc. unfold Json.get at 1. rewrite Lt.
    destruct v; try (eexists; split; reflexivity).
    exfalso. now apply (H s).
Qed.
